(** * Newborn progress tracking: the analytics engine and the insight aggregator

    A shallow embedding of [app/services/analytics.py] (the four scorers and the
    record processor) and of the aggregation in [get_baby_insights]
    ([app/api/endpoints/progress.py]), with the properties the specification
    states about them.

    Conventions of the embedding.
    - In the scorers and the averages a Python [float] is an exact rational
      ([Q]); results are compared with [==].  Python raises
      [ZeroDivisionError] on a zero divisor, so division is the partial
      operation [py_div].
    - In the growth rates of the aggregator, where [round(x, 1)] makes the
      rounding of the doubles visible, a [float] is an IEEE 754 double
      ([pyfloat]): [binary64] rounds a rational to the nearest double and
      [f_sub], [f_mul], [f_div] and [round1] are the operations on doubles.
    - An exception is a value of [exn]; a computation that may raise has type
      [result A].
    - [Optional[x]] is [option x]; truthiness ([if x:]) is written out by the
      [truthy_*] functions.
    - A [datetime] is a naive one (no [tzinfo]), as [datetime.now()] returns
      it: the record of its fields; a difference of two of them is a number of
      microseconds.  The [TypeError] Python raises on an aware and a naive
      datetime together is outside [exn]: where a theorem says that a scorer
      returns, it says so for naive timestamps. *)

From Stdlib Require Import ZArith QArith Qround Qabs Qpower List String Ascii Bool Lia Lqa.
Import ListNotations.

Set Implicit Arguments.

(* ------------------------------------------------------------------------- *)
(** * The Python fragment the program uses *)

Module Py.

Inductive exn : Type :=
| KeyError
| IndexError
| ValueError
| ZeroDivisionError.

Inductive result (A : Type) : Type :=
| Ok (a : A)
| Raise (e : exn).

Arguments Ok {A} a.
Arguments Raise {A} e.

Definition bind {A B : Type} (c : result A) (k : A -> result B) : result B :=
  match c with
  | Ok a => k a
  | Raise e => Raise e
  end.

Definition of_option {A : Type} (e : exn) (o : option A) : result A :=
  match o with Some a => Ok a | None => Raise e end.

(** ** Numbers *)

Definition Qeqb (a b : Q) : bool := Qeq_bool a b.
Definition Qleb (a b : Q) : bool := Qle_bool a b.
Definition Qltb (a b : Q) : bool := negb (Qle_bool b a).

(** [a / b]: raises on a zero divisor. *)
Definition py_div (a b : Q) : result Q :=
  if Qeqb b 0 then Raise ZeroDivisionError else Ok (a / b).

(** [min(a, b)] and [max(a, b)] of the builtins: the first argument is kept
    unless the second is strictly smaller (resp. greater). *)
Definition py_min (a b : Q) : Q := if Qltb b a then b else a.
Definition py_max (a b : Q) : Q := if Qltb a b then b else a.

(** [sum(xs)] *)
Definition py_sum (xs : list Q) : Q := fold_left Qplus xs 0.

(** [len(xs)] as a number *)
Definition len {A : Type} (xs : list A) : Q := inject_Z (Z.of_nat (List.length xs)).

(** Rounding half to even, to an integer. *)
Definition round_half_even (q : Q) : Z :=
  let f := Qfloor q in
  let r := q - inject_Z f in
  if Qltb r (1 # 2) then f
  else if Qltb (1 # 2) r then (f + 1)%Z
  else if Z.even f then f else (f + 1)%Z.

(** ** Doubles

    Where an operation rounds visibly (the growth rates, which are rounded to
    one decimal), a [float] is the IEEE 754 double itself: a finite double
    with its exact value, an infinity or a NaN.  The sign of a zero is not
    kept. *)

Inductive pyfloat : Type :=
| Finite (value : Q)
| Infinite (negative : bool)
| NotANumber.

(** [2 ** e] *)
Definition pow2 (e : Z) : Q :=
  if (0 <=? e)%Z then inject_Z (2 ^ e) else 1 # Z.to_pos (2 ^ (- e)).

(** The [e] with [2 ** e <= a < 2 ** (e + 1)], for [a > 0]. *)
Definition floor_log2 (a : Q) : Z :=
  let e0 := (Z.log2 (Qnum a) - Z.log2 (Zpos (Qden a)))%Z in
  if Qleb (pow2 e0) a then e0 else (e0 - 1)%Z.

(** The double nearest to [q], ties to the even mantissa: 53 bits of
    precision, subnormals from [2 ** -1074] on, overflow to an infinity. *)
Definition binary64 (q : Q) : pyfloat :=
  if Qeqb q 0 then Finite 0
  else
    let a := Qabs q in
    let quantum := pow2 (Z.max (floor_log2 a - 52) (-1074)) in
    let v := inject_Z (round_half_even (a / quantum)) * quantum in
    if Qleb (pow2 1024) v then Infinite (Qltb q 0)
    else Finite (Qred (if Qltb q 0 then - v else v)).

(** [x - y] *)
Definition f_sub (x y : pyfloat) : pyfloat :=
  match x, y with
  | NotANumber, _ | _, NotANumber => NotANumber
  | Finite a, Finite b => binary64 (a - b)
  | Finite _, Infinite s => Infinite (negb s)
  | Infinite s, Finite _ => Infinite s
  | Infinite s, Infinite t => if Bool.eqb s t then NotANumber else Infinite s
  end.

(** [x * y] *)
Definition f_mul (x y : pyfloat) : pyfloat :=
  match x, y with
  | NotANumber, _ | _, NotANumber => NotANumber
  | Finite a, Finite b => binary64 (a * b)
  | Finite a, Infinite s | Infinite s, Finite a =>
      if Qeqb a 0 then NotANumber else Infinite (xorb s (Qltb a 0))
  | Infinite s, Infinite t => Infinite (xorb s t)
  end.

(** [x / y]: raises on a zero divisor. *)
Definition f_div (x y : pyfloat) : result pyfloat :=
  match x, y with
  | _, Finite b =>
      if Qeqb b 0 then Raise ZeroDivisionError
      else match x with
           | Finite a => Ok (binary64 (a / b))
           | Infinite s => Ok (Infinite (xorb s (Qltb b 0)))
           | NotANumber => Ok NotANumber
           end
  | NotANumber, _ | _, NotANumber => Ok NotANumber
  | Finite _, Infinite _ => Ok (Finite 0)
  | Infinite _, Infinite _ => Ok NotANumber
  end.

(** [round(x, 1)]: the decimal with one digit nearest to the exact value of
    the double, ties to the even digit, read back as a double; an infinity or
    a NaN is returned as it is. *)
Definition round1 (x : pyfloat) : pyfloat :=
  match x with
  | Finite q => binary64 (inject_Z (round_half_even (q * 10)) / 10)
  | _ => x
  end.

(** ** Sequences *)

(** [xs[i]] for [0 <= i] *)
Definition item {A : Type} (xs : list A) (i : nat) : result A :=
  of_option IndexError (nth_error xs i).

(** [xs[-1]] *)
Definition item_last {A : Type} (xs : list A) : result A :=
  match xs with
  | [] => Raise IndexError
  | x :: xs' => Ok (last xs' x)
  end.

(** [d[k]] and [d.get(k)] of a dictionary held as an association list. *)
Fixpoint dict_get {K V : Type} (eqb : K -> K -> bool) (d : list (K * V)) (k : K)
  : option V :=
  match d with
  | [] => None
  | (k', v) :: d' => if eqb k' k then Some v else dict_get eqb d' k
  end.

Definition dict_item {K V : Type} (eqb : K -> K -> bool) (d : list (K * V)) (k : K)
  : result V :=
  of_option KeyError (dict_get eqb d k).

Definition dict_keys {K V : Type} (d : list (K * V)) : list K := map fst d.
Definition dict_values {K V : Type} (d : list (K * V)) : list V := map snd d.

(** [min(xs, key=f)]: the first element whose key is minimal; [ValueError] on
    an empty sequence. *)
Fixpoint min_by_from {A : Type} (key : A -> Z) (best : A) (xs : list A) : A :=
  match xs with
  | [] => best
  | x :: xs' => min_by_from key (if (key x <? key best)%Z then x else best) xs'
  end.

Definition min_by {A : Type} (key : A -> Z) (xs : list A) : result A :=
  match xs with
  | [] => Raise ValueError
  | x :: xs' => Ok (min_by_from key x xs')
  end.

(** [xs.sort(key=f)]: the sort is stable, so an element is placed before the
    elements of equal key that followed it in the list. *)
Fixpoint insert_by {A : Type} (key : A -> Z) (x : A) (xs : list A) : list A :=
  match xs with
  | [] => [x]
  | y :: ys => if (key x <=? key y)%Z then x :: y :: ys else y :: insert_by key x ys
  end.

Fixpoint sort_by {A : Type} (key : A -> Z) (xs : list A) : list A :=
  match xs with
  | [] => []
  | x :: xs' => insert_by key x (sort_by key xs')
  end.

(** [zip(xs, xs[1:])]: the consecutive pairs, in order. *)
Fixpoint consecutive {A : Type} (xs : list A) : list (A * A) :=
  match xs with
  | x :: (y :: _) as tl => (x, y) :: consecutive tl
  | _ => []
  end.

(** ** Strings *)

Definition lower_ascii (c : ascii) : ascii :=
  let n := nat_of_ascii c in
  if andb (65 <=? n)%nat (n <=? 90)%nat then ascii_of_nat (n + 32) else c.

(** [s.lower()] on ASCII text *)
Fixpoint lower (s : string) : string :=
  match s with
  | EmptyString => EmptyString
  | String c s' => String (lower_ascii c) (lower s')
  end.

(** [a in b] for strings *)
Fixpoint contains (a b : string) : bool :=
  if prefix a b then true
  else match b with
       | EmptyString => false
       | String _ b' => contains a b'
       end.

(** Truthiness *)
Definition truthy_str (s : option string) : bool :=
  match s with
  | Some (String _ _) => true
  | _ => false
  end.

Definition truthy_float (x : option Q) : bool :=
  match x with
  | Some q => negb (Qeqb q 0)
  | None => false
  end.

Definition truthy_double (x : pyfloat) : bool :=
  match x with
  | Finite q => negb (Qeqb q 0)
  | _ => true
  end.

Definition truthy_list {A : Type} (xs : list A) : bool :=
  match xs with [] => false | _ :: _ => true end.

End Py.

Import Py.

Declare Scope py_scope.
Delimit Scope py_scope with py.
Notation "x <- c ;; k" := (Py.bind c (fun x => k))
  (at level 61, c at next level, right associativity) : py_scope.
Open Scope py_scope.
Open Scope string_scope.
Open Scope list_scope.
Open Scope Q_scope.

(* ------------------------------------------------------------------------- *)
(** * Dates and times ([datetime.date], [datetime.datetime]) *)

Module Dates.

Record date : Type := mkDate { year : Z; month : Z; day : Z }.

Record datetime : Type := mkDatetime {
  dt_date : date;
  hour : Z;
  minute : Z;
  second : Z;
  microsecond : Z
}.

Definition is_leap (y : Z) : bool :=
  ((y mod 4 =? 0) && (negb (y mod 100 =? 0) || (y mod 400 =? 0)))%Z%bool.

Definition days_before_year (y : Z) : Z :=
  let y1 := (y - 1)%Z in (y1 * 365 + y1 / 4 - y1 / 100 + y1 / 400)%Z.

Definition DAYS_BEFORE_MONTH : list Z :=
  [0; 31; 59; 90; 120; 151; 181; 212; 243; 273; 304; 334]%Z.

Definition days_before_month (y m : Z) : Z :=
  (nth (Z.to_nat (m - 1)) DAYS_BEFORE_MONTH 0
   + (if ((2 <? m) && is_leap y)%Z%bool then 1 else 0))%Z.

(** [d.toordinal()] *)
Definition toordinal (d : date) : Z :=
  (days_before_year (year d) + days_before_month (year d) (month d) + day d)%Z.

(** [(a - b).days] *)
Definition days_between (a b : date) : Z := (toordinal a - toordinal b)%Z.

(** Microseconds since the start of day 0. *)
Definition timestamp_us (t : datetime) : Z :=
  ((((toordinal (dt_date t) * 24 + hour t) * 60 + minute t) * 60 + second t)
   * 1000000 + microsecond t)%Z.

(** [(a - b).total_seconds()] *)
Definition total_seconds (a b : datetime) : Q :=
  inject_Z (timestamp_us a - timestamp_us b) / 1000000.

End Dates.

Import Dates.

(* ------------------------------------------------------------------------- *)
(** * The data model ([app/models/models.py], [app/schemas/schemas.py]) *)

Module Model.

Record Baby : Type := mkBaby {
  id : Z;
  name : string;
  date_of_birth : date;
  gender : option string;
  parent_id : Z
}.

(** One entry of [sleep_schedule].  [quality] is [None] when the entry has no
    such key, [Some None] when the key holds [None]. *)
Record SleepSession : Type := mkSleepSession {
  sleep_start_time : datetime;
  sleep_end_time : option datetime;
  quality : option (option string);
  sleep_notes : option string
}.

(** One entry of [feeding_times]. *)
Record FeedingSession : Type := mkFeedingSession {
  feed_start_time : datetime;
  feed_end_time : option datetime;
  feed_type : option string;
  amount : option Q;
  feed_notes : option string
}.

Record DiaperChange : Type := mkDiaperChange {
  diaper_time : datetime;
  diaper_type : string;
  diaper_notes : option string
}.

(** One entry of [milestones]. *)
Record Milestone : Type := mkMilestone {
  milestone : string;
  achieved_date : option date;
  milestone_notes : option string
}.

(** A JSON column holds a list of entries or, in rows written as text, a
    string still to be decoded. *)
Inductive json_column (A : Type) : Type :=
| JsonList (entries : list A)
| JsonStr (text : string).

Arguments JsonList {A} entries.
Arguments JsonStr {A} text.

Record BabyProgress : Type := mkBabyProgress {
  progress_id : Z;
  baby_id : Z;
  record_date : date;
  weight : option Q;
  height : option Q;
  head_circumference : option Q;
  feeding_times : option (json_column FeedingSession);
  feeding_type : option string;
  feeding_amount : option Q;
  sleep_schedule : option (json_column SleepSession);
  total_sleep_hours : option Q;
  diaper_changes : option (json_column DiaperChange);
  milestones : option (json_column Milestone);
  notes : option string;
  growth_percentile : option Q;
  sleep_quality_index : option Q;
  feeding_efficiency : option Q;
  developmental_score : option Q;
  created_at : option datetime;
  updated_at : option datetime
}.

(** [if column:] *)
Definition truthy_column {A : Type} (c : option (json_column A)) : bool :=
  match c with
  | None => false
  | Some (JsonList xs) => truthy_list xs
  | Some (JsonStr s) => truthy_str (Some s)
  end.

End Model.

Import Model.

(* ------------------------------------------------------------------------- *)
(** * The analytics engine ([app/services/analytics.py]) *)

Module Analytics.

Definition growth_table : Type := list (string * list (Z * list Q)).

Definition WHO_WEIGHT_FOR_AGE : growth_table :=
  [ ("male"%string,
     [ (0%Z, [2.5; 2.9; 3.3; 3.7; 4.0]);
       (1%Z, [3.4; 3.9; 4.5; 5.1; 5.5]);
       (2%Z, [4.3; 4.9; 5.6; 6.3; 6.8]);
       (3%Z, [5.0; 5.7; 6.4; 7.2; 7.8]) ]);
    ("female"%string,
     [ (0%Z, [2.4; 2.8; 3.2; 3.6; 3.9]);
       (1%Z, [3.2; 3.6; 4.2; 4.8; 5.2]);
       (2%Z, [3.9; 4.5; 5.1; 5.8; 6.2]);
       (3%Z, [4.5; 5.2; 5.8; 6.6; 7.1]) ]) ].

Definition WHO_HEIGHT_FOR_AGE : growth_table :=
  [ ("male"%string,
     [ (0%Z, [46.1; 48.0; 49.9; 51.8; 53.4]);
       (1%Z, [50.8; 52.8; 54.7; 56.7; 58.4]) ]);
    ("female"%string,
     [ (0%Z, [45.4; 47.3; 49.1; 51.0; 52.7]);
       (1%Z, [49.8; 51.7; 53.7; 55.6; 57.4]) ]) ].

Definition WHO_HEAD_CIRCUMFERENCE_FOR_AGE : growth_table :=
  [ ("male"%string, [ (0%Z, [32.4; 33.6; 34.5; 35.4; 36.1]) ]);
    ("female"%string, [ (0%Z, [31.9; 33.0; 33.9; 34.8; 35.5]) ]) ].

(** The default of [interpolate_percentile]'s [percentiles] argument. *)
Definition PERCENTILES : list Q := [3; 15; 50; 85; 97].

Definition calculate_age_in_months (birth_date reference_date : date) : Z :=
  let months := ((year reference_date - year birth_date) * 12)%Z in
  let months := (months + (month reference_date - month birth_date))%Z in
  let months := if (day reference_date <? day birth_date)%Z
                then (months - 1)%Z else months in
  Z.max 0 months.

(** The [for i in range(len(standards) - 1)] loop of [interpolate_percentile],
    from index [i] with [n] iterations left; falling out of the loop returns
    [percentiles[-1]]. *)
Fixpoint interpolate_scan (value : Q) (standards percentiles : list Q)
  (i n : nat) : result Q :=
  match n with
  | O => item_last percentiles
  | S n' =>
      lo <- item standards i ;;
      hi <- item standards (S i) ;;
      if Qleb lo value && Qltb value hi then
        range_percent <- py_div (value - lo) (hi - lo) ;;
        p_lo <- item percentiles i ;;
        p_hi <- item percentiles (S i) ;;
        Ok (p_lo + range_percent * (p_hi - p_lo))
      else interpolate_scan value standards percentiles (S i) n'
  end.

Definition interpolate_percentile (value : Q) (standards percentiles : list Q)
  : result Q :=
  first <- item standards 0 ;;
  if Qleb value first then
    p0 <- item percentiles 0 ;;
    ratio <- py_div value first ;;
    Ok (p0 * ratio)
  else
    top <- item_last standards ;;
    if Qleb top value then item_last percentiles
    else interpolate_scan value standards percentiles 0 (List.length standards - 1).

(** [table[gender][month]] *)
Definition standards_for (table : growth_table) (gender : string) (month : Z)
  : result (list Q) :=
  by_month <- dict_item String.eqb table gender ;;
  dict_item Z.eqb by_month month.

(** One of the three [if measurement is not None:] blocks. *)
Definition add_percentile (table : growth_table) (gender : string) (month : Z)
  (key : string) (measurement : option Q) (result : list (string * Q))
  : Py.result (list (string * Q)) :=
  match measurement with
  | Some value =>
      standards <- standards_for table gender month ;;
      p <- interpolate_percentile value standards PERCENTILES ;;
      Ok (result ++ [(key, p)])
  | None => Ok result
  end.

Definition resolve_gender (baby : Baby) : string :=
  match gender baby with
  | Some g => if truthy_str (Some g) then lower g else "male"%string
  | None => "male"%string
  end.

Definition calculate_growth_percentile (baby : Baby)
  (weight height head_circumference : option Q) (record_date : date)
  : result (list (string * Q)) :=
  let gender := resolve_gender baby in
  let age_months := calculate_age_in_months (date_of_birth baby) record_date in
  by_month <- dict_item String.eqb WHO_WEIGHT_FOR_AGE gender ;;
  closest_month <- min_by (fun m => Z.abs (m - age_months)) (dict_keys by_month) ;;
  let result := [] in
  result <- add_percentile WHO_WEIGHT_FOR_AGE gender closest_month
              "weight_percentile" weight result ;;
  result <- add_percentile WHO_HEIGHT_FOR_AGE gender closest_month
              "height_percentile" height result ;;
  result <- add_percentile WHO_HEAD_CIRCUMFERENCE_FOR_AGE gender closest_month
              "head_percentile" head_circumference result ;;
  overall <- (if truthy_list result
              then py_div (py_sum (dict_values result)) (len result)
              else Ok 50) ;;
  Ok (result ++ [("overall_percentile"%string, overall)]).

(** ** Sleep quality *)

(** The dictionary built for each session by the first loop. *)
Record sleep_entry : Type := mkSleepEntry {
  se_start : datetime;
  se_end : datetime;
  se_duration : Q;
  se_is_night : bool;
  se_quality : option string
}.

(** An absent end time is read as [datetime.now()]. *)
Definition sleep_entry_of (now : datetime) (session : SleepSession) : sleep_entry :=
  let start := sleep_start_time session in
  let end_ := match sleep_end_time session with Some e => e | None => now end in
  let duration := total_seconds end_ start / 60 in
  let is_night := ((20 <=? hour start) || (hour start <=? 6))%Z%bool in
  {| se_start := start;
     se_end := end_;
     se_duration := duration;
     se_is_night := is_night;
     se_quality := match quality session with
                   | None => Some "good"%string
                   | Some q => q
                   end |}.

Definition quality_weight (q : option string) : Q :=
  match q with
  | Some s => if String.eqb s "good" then 1.0
              else if String.eqb s "fair" then 0.7 else 0.4
  | None => 0.4
  end.

(** Gaps of less than 30 minutes between consecutive sessions. *)
Definition count_interruptions (sessions : list sleep_entry) : Z :=
  Z.of_nat (List.length
    (filter (fun pr => Qltb (total_seconds (se_start (snd pr)) (se_end (fst pr)) / 60) 30)
            (consecutive sessions))).

(** [night_sleep_minutes / total_sleep_minutes if total_sleep_minutes > 0 else 0] *)
Definition night_ratio (night_sleep_minutes total_sleep_minutes : Q) : result Q :=
  if Qltb 0 total_sleep_minutes
  then py_div night_sleep_minutes total_sleep_minutes
  else Ok 0.

Definition calculate_sleep_quality_index (now : datetime)
  (sleep_schedule : list SleepSession) : result Q :=
  if negb (truthy_list sleep_schedule) then Ok 50.0
  else
    let sessions := map (sleep_entry_of now) sleep_schedule in
    let total_sleep_minutes := py_sum (map se_duration sessions) in
    let night_sleep_minutes :=
      py_sum (map se_duration (filter se_is_night sessions)) in
    let sessions := sort_by (fun s => timestamp_us (se_start s)) sessions in
    let total_interruptions := count_interruptions sessions in
    let hours_slept := total_sleep_minutes / 60 in
    night_sleep_ratio <- night_ratio night_sleep_minutes total_sleep_minutes ;;
    quality_factor <- py_div (py_sum (map (fun s => quality_weight (se_quality s)) sessions))
                             (len sessions) ;;
    let interruption_factor := py_max 0.5 (1 - inject_Z total_interruptions * 0.1) in
    let duration_score := py_min 100 ((hours_slept / 14) * 100) in
    let night_ratio_score := night_sleep_ratio * 100 in
    let continuity_score := (quality_factor * interruption_factor) * 100 in
    let score := (duration_score * 0.4) + (night_ratio_score * 0.3)
                 + (continuity_score * 0.3) in
    Ok (py_min 100 (py_max 0 score)).

(** ** Feeding efficiency *)

Record feed_entry : Type := mkFeedEntry {
  fe_start : datetime;
  fe_duration : Q;
  fe_amount : Q;
  fe_type : string
}.

(** An absent end time gives the default duration of 15 minutes. *)
Definition feed_entry_of (feed : FeedingSession) : feed_entry :=
  let start := feed_start_time feed in
  let duration := match feed_end_time feed with
                  | Some e => total_seconds e start / 60
                  | None => 15
                  end in
  {| fe_start := start;
     fe_duration := duration;
     fe_amount := match amount feed with Some a => a | None => 0 end;
     fe_type := match feed_type feed with Some t => t | None => "unknown"%string end |}.

(** [(expected_feeds_per_day, expected_feed_interval)] for an age. *)
Definition expected_feeding (baby_age_months : Z) : Q * Q :=
  if (baby_age_months <? 1)%Z then (8, 2)
  else if (baby_age_months <? 3)%Z then (7, 3)
  else if (baby_age_months <? 6)%Z then (6, 3.5)
  else (5, 4).

(** [1 - min(1, abs(avg - target) / target)] over the feeds of one type, 0.7
    when there are none. *)
Definition type_duration_score (feeds_of_type : list feed_entry) (target : Q)
  : result Q :=
  if truthy_list feeds_of_type then
    avg <- py_div (py_sum (map fe_duration feeds_of_type)) (len feeds_of_type) ;;
    Ok (1 - py_min 1 (Qabs (avg - target) / target))
  else Ok 0.7.

(** The interval regularity of the sorted feeds: 0 when there is no interval. *)
Definition interval_regularity_of (feeds : list feed_entry)
  (expected_feed_interval : Q) : result Q :=
  let intervals :=
    map (fun pr => total_seconds (fe_start (snd pr)) (fe_start (fst pr)) / 3600)
        (consecutive feeds) in
  if truthy_list intervals then
    let deviations := map (fun i => Qabs (i - expected_feed_interval)) intervals in
    avg_deviation <- py_div (py_sum deviations) (len deviations) ;;
    ratio <- py_div avg_deviation expected_feed_interval ;;
    Ok (py_max 0 (1 - ratio))
  else Ok 0.

(** The feed-frequency score of the sorted feeds: computed only over a span of
    at least 12 hours, 0.7 otherwise. *)
Definition feed_frequency_score_of (feeds : list feed_entry)
  (expected_feeds_per_day : Q) : result Q :=
  if (2 <=? Z.of_nat (List.length feeds))%Z then
    latest <- item_last feeds ;;
    first <- item feeds 0 ;;
    let time_span := total_seconds (fe_start latest) (fe_start first) / 3600 in
    if Qleb 12 time_span then
      per_hour <- py_div (len feeds) time_span ;;
      let feeds_per_day := per_hour * 24 in
      deviation <- py_div (Qabs (feeds_per_day - expected_feeds_per_day))
                          expected_feeds_per_day ;;
      Ok (1 - py_min 1 deviation)
    else Ok 0.7
  else Ok 0.7.

(** The duration score, from the bottle feeds and the breast feeds. *)
Definition duration_score_of (feeds : list feed_entry) : result Q :=
  let bottle_feeds := filter (fun f => String.eqb (fe_type f) "bottle") feeds in
  let breast_feeds := filter (fun f => String.eqb (fe_type f) "breast") feeds in
  bottle_score <- type_duration_score bottle_feeds 15 ;;
  breast_score <- type_duration_score breast_feeds 25 ;;
  Ok (if truthy_list bottle_feeds && truthy_list breast_feeds
      then (bottle_score + breast_score) / 2
      else if truthy_list bottle_feeds then bottle_score
      else if truthy_list breast_feeds then breast_score
      else 0.7).

Definition calculate_feeding_efficiency (feeding_times : list FeedingSession)
  (baby_age_months : Z) : result Q :=
  if negb (truthy_list feeding_times) then Ok 50.0
  else
    let expected_feeds_per_day := fst (expected_feeding baby_age_months) in
    let expected_feed_interval := snd (expected_feeding baby_age_months) in
    let feeds := map feed_entry_of feeding_times in
    let total_duration := py_sum (map fe_duration feeds) in
    let feeds := sort_by (fun f => timestamp_us (fe_start f)) feeds in
    interval_regularity <- interval_regularity_of feeds expected_feed_interval ;;
    feed_frequency_score <- feed_frequency_score_of feeds expected_feeds_per_day ;;
    avg_duration <- (if truthy_list feeds
                     then py_div total_duration (len feeds) else Ok 0) ;;
    duration_score <- duration_score_of feeds ;;
    let regularity_weight := 0.4 in
    let frequency_weight := 0.3 in
    let duration_weight := 0.3 in
    let final_score := ((interval_regularity * regularity_weight)
                        + (feed_frequency_score * frequency_weight)
                        + (duration_score * duration_weight)) * 100 in
    Ok (py_min 100 (py_max 0 final_score)).

(** ** Developmental score *)

Definition expected_milestones : list (Z * list string) :=
  [ (1%Z, ["responds to sounds"; "follows objects with eyes"; "lifts head briefly"]);
    (2%Z, ["holds head up"; "begins to smile"; "coos and makes sounds"]);
    (3%Z, ["recognizes faces"; "reaches for objects"; "laughs"]);
    (4%Z, ["rolls over"; "holds head steady"; "pushes up on arms"]) ]%string.

(** [a in b or b in a] *)
Definition fuzzy_match (a b : string) : bool := contains a b || contains b a.

(** The first catalogue month one of whose milestones matches the label: the
    month at which the inner [for] loop of the bonus computation breaks. *)
Definition typical_month (label : string) : option Z :=
  option_map fst
    (find (fun entry => existsb (fun m => fuzzy_match (lower label) m) (snd entry))
          expected_milestones).

(** The bonus one milestone entry adds. *)
Definition early_bonus (baby : Baby) (m : Milestone) : Q :=
  match achieved_date m with
  | Some achieved =>
      match typical_month (milestone m) with
      | Some month =>
          let age_when_achieved :=
            calculate_age_in_months (date_of_birth baby) achieved in
          if (age_when_achieved <? month)%Z then 5 else 0
      | None => 0
      end
  | None => 0
  end.

Definition calculate_developmental_score (milestones : list Milestone)
  (baby_age_months : Z) (baby : Baby) : result Q :=
  if negb (truthy_list milestones) then Ok 50.0
  else
    let all_expected :=
      flat_map (fun entry => if (fst entry <=? baby_age_months)%Z
                             then snd entry else [])
               expected_milestones in
    if negb (truthy_list all_expected) then Ok 70.0
    else
      let achieved := map (fun m => lower (milestone m)) milestones in
      let matched :=
        List.length (filter (fun expected =>
                               existsb (fun a => fuzzy_match expected a) achieved)
                            all_expected) in
      base_score <- (if truthy_list all_expected then
                       ratio <- py_div (inject_Z (Z.of_nat matched)) (len all_expected) ;;
                       Ok (ratio * 100)
                     else Ok 50) ;;
      let bonus := py_sum (map (early_bonus baby) milestones) in
      Ok (py_min 100 (base_score + bonus)).

(** ** The record processor *)

(** [json.loads] on a column stored as text, with the decoded entries read into
    their typed form; [None] when it raises (the bare [except:] branches). *)
Record JsonDecoder : Type := mkJsonDecoder {
  loads_sleep : string -> option (list SleepSession);
  loads_feeding : string -> option (list FeedingSession);
  loads_milestones : string -> option (list Milestone)
}.

(** The entries a scorer receives from a truthy column. *)
Definition column_entries {A : Type} (loads : string -> option (list A))
  (c : json_column A) : list A :=
  match c with
  | JsonList entries => entries
  | JsonStr text => match loads text with Some entries => entries | None => [] end
  end.

Definition set_growth_percentile (v : option Q) (p : BabyProgress) : BabyProgress :=
  mkBabyProgress (progress_id p) (baby_id p) (record_date p) (weight p) (height p)
    (head_circumference p) (feeding_times p) (feeding_type p) (feeding_amount p)
    (sleep_schedule p) (total_sleep_hours p) (diaper_changes p) (milestones p)
    (notes p) v (sleep_quality_index p) (feeding_efficiency p)
    (developmental_score p) (created_at p) (updated_at p).

Definition set_sleep_quality_index (v : option Q) (p : BabyProgress) : BabyProgress :=
  mkBabyProgress (progress_id p) (baby_id p) (record_date p) (weight p) (height p)
    (head_circumference p) (feeding_times p) (feeding_type p) (feeding_amount p)
    (sleep_schedule p) (total_sleep_hours p) (diaper_changes p) (milestones p)
    (notes p) (growth_percentile p) v (feeding_efficiency p)
    (developmental_score p) (created_at p) (updated_at p).

Definition set_feeding_efficiency (v : option Q) (p : BabyProgress) : BabyProgress :=
  mkBabyProgress (progress_id p) (baby_id p) (record_date p) (weight p) (height p)
    (head_circumference p) (feeding_times p) (feeding_type p) (feeding_amount p)
    (sleep_schedule p) (total_sleep_hours p) (diaper_changes p) (milestones p)
    (notes p) (growth_percentile p) (sleep_quality_index p) v
    (developmental_score p) (created_at p) (updated_at p).

Definition set_developmental_score (v : option Q) (p : BabyProgress) : BabyProgress :=
  mkBabyProgress (progress_id p) (baby_id p) (record_date p) (weight p) (height p)
    (head_circumference p) (feeding_times p) (feeding_type p) (feeding_amount p)
    (sleep_schedule p) (total_sleep_hours p) (diaper_changes p) (milestones p)
    (notes p) (growth_percentile p) (sleep_quality_index p) (feeding_efficiency p)
    v (created_at p) (updated_at p).

(** The record object after a call, and the exception the call ended with, if
    any.  The object is mutated in place, so what was assigned before an
    exception stays assigned. *)
Record outcome : Type := mkOutcome {
  obj : BabyProgress;
  raised : option exn
}.

(** Run one block of the processor on the object, unless an earlier block
    raised. *)
Definition and_then (o : outcome) (block : BabyProgress -> result BabyProgress)
  : outcome :=
  match raised o with
  | Some _ => o
  | None =>
      match block (obj o) with
      | Ok p => {| obj := p; raised := None |}
      | Raise e => {| obj := obj o; raised := Some e |}
      end
  end.

Section Processor.

Variable json : JsonDecoder.
(** The value [datetime.now()] has during the call. *)
Variable now : datetime.

Definition growth_block (baby : Baby) (progress : BabyProgress)
  : result BabyProgress :=
  if existsb (fun x : option Q => match x with Some _ => true | None => false end)
             [weight progress; height progress; head_circumference progress]
  then
    growth_data <- calculate_growth_percentile baby (weight progress)
                     (height progress) (head_circumference progress)
                     (record_date progress) ;;
    Ok (set_growth_percentile
          (dict_get String.eqb growth_data "overall_percentile") progress)
  else Ok progress.

Definition sleep_block (progress : BabyProgress) : result BabyProgress :=
  match sleep_schedule progress with
  | Some column =>
      if truthy_column (Some column) then
        let sleep_data := column_entries (loads_sleep json) column in
        v <- calculate_sleep_quality_index now sleep_data ;;
        Ok (set_sleep_quality_index (Some v) progress)
      else Ok progress
  | None => Ok progress
  end.

Definition feeding_block (baby_age_months : Z) (progress : BabyProgress)
  : result BabyProgress :=
  match feeding_times progress with
  | Some column =>
      if truthy_column (Some column) then
        let feeding_data := column_entries (loads_feeding json) column in
        v <- calculate_feeding_efficiency feeding_data baby_age_months ;;
        Ok (set_feeding_efficiency (Some v) progress)
      else Ok progress
  | None => Ok progress
  end.

Definition developmental_block (baby_age_months : Z) (baby : Baby)
  (progress : BabyProgress) : result BabyProgress :=
  match milestones progress with
  | Some column =>
      if truthy_column (Some column) then
        let milestone_data := column_entries (loads_milestones json) column in
        v <- calculate_developmental_score milestone_data baby_age_months baby ;;
        Ok (set_developmental_score (Some v) progress)
      else Ok progress
  | None => Ok progress
  end.

(** [db] is the [babies] table the session reads when no baby is passed. *)
Definition process_baby_progress (db : list Baby) (progress : BabyProgress)
  (baby : option Baby) : outcome :=
  let baby := match baby with
              | Some b => Some b
              | None => find (fun b => (id b =? baby_id progress)%Z) db
              end in
  match baby with
  | None => {| obj := progress; raised := None |}
  | Some baby =>
      let baby_age_months :=
        calculate_age_in_months (date_of_birth baby) (record_date progress) in
      and_then
        (and_then
           (and_then
              (and_then {| obj := progress; raised := None |} (growth_block baby))
              sleep_block)
           (feeding_block baby_age_months))
        (developmental_block baby_age_months baby)
  end.

End Processor.

End Analytics.

Import Analytics.

(* ------------------------------------------------------------------------- *)
(** * The insight aggregator ([get_baby_insights], [app/api/endpoints/progress.py]) *)

Module Insights.

Record snapshot : Type := mkSnapshot {
  snap_date : date;
  snap_weight : option Q;
  snap_height : option Q;
  snap_head_circumference : option Q
}.

Record growth_insights : Type := mkGrowthInsights {
  first_record : snapshot;
  latest_record : snapshot;
  average_percentile : option Q;
  weight_gain_per_week : option pyfloat;
  height_gain_per_month : option pyfloat;
  head_circumference_gain_per_month : option pyfloat
}.

Record metric_insights : Type := mkMetricInsights {
  average : option Q;
  trend : string
}.

Record insights : Type := mkInsights {
  total_records : nat;
  timeframe : string;
  baby_age_months : Z;
  growth : growth_insights;
  sleep : metric_insights;
  feeding : metric_insights;
  development : metric_insights
}.

Inductive response : Type :=
| NoData (message : string)
| WithInsights (baby_name : string) (body : insights).

Definition snapshot_of (r : BabyProgress) : snapshot :=
  {| snap_date := record_date r;
     snap_weight := weight r;
     snap_height := height r;
     snap_head_circumference := head_circumference r |}.

(** [x or 0] *)
Definition or_zero (x : option Q) : Q :=
  match x with
  | Some q => if truthy_float x then q else 0
  | None => 0
  end.

(** [sum(r.f or 0 for r in rs if r.f) / len([r for r in rs if r.f])
     if any(r.f for r in rs) else None] *)
Definition average_of (field : BabyProgress -> option Q) (rs : list BabyProgress)
  : result (option Q) :=
  if existsb (fun r => truthy_float (field r)) rs then
    let kept := filter (fun r => truthy_float (field r)) rs in
    v <- py_div (py_sum (map (fun r => or_zero (field r)) kept)) (len kept) ;;
    Ok (Some v)
  else Ok None.

(** [a > b], [a < b] and [a == b] on fields already known to be truthy. *)
Definition opt_gt (a b : option Q) : bool :=
  match a, b with Some x, Some y => Qltb y x | _, _ => false end.
Definition opt_lt (a b : option Q) : bool :=
  match a, b with Some x, Some y => Qltb x y | _, _ => false end.
Definition opt_eq (a b : option Q) : bool :=
  match a, b with Some x, Some y => Qeqb x y | _, _ => false end.

(** The trend expression of the [sleep] and [feeding] sections. *)
Definition trend_of (first_v last_v : option Q) : string :=
  if truthy_float last_v && truthy_float first_v && opt_gt last_v first_v
  then "improving"
  else if truthy_float last_v && truthy_float first_v && opt_lt last_v first_v
  then "declining"
  else "stable".

(** The trend expression of the [development] section. *)
Definition development_trend_of (first_v last_v : option Q) : string :=
  if truthy_float last_v && truthy_float first_v && opt_gt last_v first_v
  then "improving"
  else if truthy_float last_v && truthy_float first_v && opt_eq last_v first_v
  then "stable"
  else if truthy_float last_v then "as expected"
  else "not enough data".

(** One of the three rate blocks, on doubles: with
    [gain_per_day = (last - first) / days_diff],
    [round(scale(gain_per_day), 1)] when both endpoint values are truthy.
    A stored value is read as the double nearest to it. *)
Definition gain (first_v last_v : option Q) (days_diff : Z)
  (scale : pyfloat -> pyfloat) : result (option pyfloat) :=
  match first_v, last_v with
  | Some a, Some b =>
      let first_d := binary64 a in
      let last_d := binary64 b in
      if truthy_double first_d && truthy_double last_d then
        gain_per_day <- f_div (f_sub last_d first_d) (binary64 (inject_Z days_diff)) ;;
        Ok (Some (round1 (scale gain_per_day)))
      else Ok None
  | _, _ => Ok None
  end.

(** [gain_per_day * 7 * 1000] and [gain_per_day * 30] *)
Definition per_week_in_grams (gain_per_day : pyfloat) : pyfloat :=
  f_mul (f_mul gain_per_day (Finite 7)) (Finite 1000).
Definition per_month (gain_per_day : pyfloat) : pyfloat :=
  f_mul gain_per_day (Finite 30).

(** [len(progress_records) >= 2] and [days_diff > 0]: the two guards around
    the rate blocks. *)
Definition rates_computed (progress_records : list BabyProgress) (days_diff : Z)
  : bool :=
  ((2 <=? Z.of_nat (List.length progress_records)) && (0 <? days_diff))%Z%bool.

(** The body of the endpoint from [progress_records] on: the records of the
    query, non-empty, in the order the query returned them. *)
Definition build_insights (today : date) (baby : Baby) (timeframe : string)
  (first : BabyProgress) (rest : list BabyProgress) : result insights :=
  let progress_records := first :: rest in
  let latest := last rest first in
  avg_percentile <- average_of growth_percentile progress_records ;;
  avg_quality <- average_of sleep_quality_index progress_records ;;
  avg_efficiency <- average_of feeding_efficiency progress_records ;;
  avg_score <- average_of developmental_score progress_records ;;
  let days_diff := days_between (record_date latest) (record_date first) in
  let with_rates := rates_computed progress_records days_diff in
  weight_rate <- (if with_rates
                  then gain (weight first) (weight latest) days_diff per_week_in_grams
                  else Ok None) ;;
  height_rate <- (if with_rates
                  then gain (height first) (height latest) days_diff per_month
                  else Ok None) ;;
  head_rate <- (if with_rates
                then gain (head_circumference first) (head_circumference latest)
                          days_diff per_month
                else Ok None) ;;
  Ok {| total_records := List.length progress_records;
        timeframe := timeframe;
        baby_age_months :=
          ((year today - year (date_of_birth baby)) * 12
           + (month today - month (date_of_birth baby)))%Z;
        growth := {| first_record := snapshot_of first;
                     latest_record := snapshot_of latest;
                     average_percentile := avg_percentile;
                     weight_gain_per_week := weight_rate;
                     height_gain_per_month := height_rate;
                     head_circumference_gain_per_month := head_rate |};
        sleep := {| average := avg_quality;
                    trend := trend_of (sleep_quality_index first)
                                      (sleep_quality_index latest) |};
        feeding := {| average := avg_efficiency;
                      trend := trend_of (feeding_efficiency first)
                                        (feeding_efficiency latest) |};
        development := {| average := avg_score;
                          trend := development_trend_of
                                     (developmental_score first)
                                     (developmental_score latest) |} |}.

(** The query: the baby's records, restricted to the time frame, ordered by
    record date. *)
Definition query_progress (today : date) (baby : Baby) (timeframe : string)
  (table : list BabyProgress) : list BabyProgress :=
  let mine := filter (fun r => (baby_id r =? id baby)%Z) table in
  let since (days : Z) :=
    filter (fun r => (toordinal today - days <=? toordinal (record_date r))%Z) mine in
  let selected := if String.eqb timeframe "week" then since 7%Z
                  else if String.eqb timeframe "month" then since 30%Z
                  else mine in
  sort_by (fun r => toordinal (record_date r)) selected.

Definition get_baby_insights (today : date) (table : list BabyProgress)
  (baby : Baby) (timeframe : string) : result response :=
  match query_progress today baby timeframe table with
  | [] => Ok (NoData "No progress data available for the selected timeframe")
  | first :: rest =>
      body <- build_insights today baby timeframe first rest ;;
      Ok (WithInsights (name baby) body)
  end.

End Insights.

Import Insights.

(* ------------------------------------------------------------------------- *)
(** * Sample data *)

Module Examples.

(** No column is stored as text. *)
Definition no_text_columns : JsonDecoder :=
  {| loads_sleep := fun _ => None;
     loads_feeding := fun _ => None;
     loads_milestones := fun _ => None |}.

Definition at_time (d : date) (h m : Z) : datetime :=
  {| dt_date := d; hour := h; minute := m; second := 0; microsecond := 0 |}.

(** The baby and the progress record of [test_api.py], with the run taking
    place on 2024-03-01 at 12:00: the baby was born 60 days before. *)
Definition test_day : date := mkDate 2024 3 1.

Definition test_baby : Baby :=
  {| id := 1; name := "Baby Test"; date_of_birth := mkDate 2024 1 1;
     gender := Some "female"; parent_id := 1 |}.

Definition smiles : Milestone :=
  {| milestone := "Smiles responsively";
     achieved_date := Some (mkDate 2024 2 20);
     milestone_notes := Some "First social smile!" |}.

Definition test_progress : BabyProgress :=
  {| progress_id := 1; baby_id := 1; record_date := test_day;
     weight := Some 5.2; height := Some 57.5; head_circumference := Some 38.2;
     feeding_times := Some (JsonList
       [ {| feed_start_time := at_time test_day 8 0;
            feed_end_time := Some (at_time test_day 8 20);
            feed_type := Some "breast"; amount := None;
            feed_notes := Some "Fed well" |};
         {| feed_start_time := at_time test_day 10 0;
            feed_end_time := Some (at_time test_day 10 15);
            feed_type := Some "bottle"; amount := Some 80;
            feed_notes := Some "Formula" |} ]);
     feeding_type := Some "mixed"; feeding_amount := None;
     sleep_schedule := Some (JsonList
       [ {| sleep_start_time := at_time test_day 4 0;
            sleep_end_time := Some (at_time test_day 6 0);
            quality := Some (Some "good"); sleep_notes := Some "Slept well" |};
         {| sleep_start_time := at_time test_day 9 0;
            sleep_end_time := Some (at_time test_day 10 0);
            quality := Some (Some "fair"); sleep_notes := Some "Short nap" |} ]);
     total_sleep_hours := Some 3.0;
     diaper_changes := Some (JsonList
       [ {| diaper_time := at_time test_day 5 0; diaper_type := "wet";
            diaper_notes := Some "Normal" |} ]);
     milestones := Some (JsonList [smiles]);
     notes := Some "Good day overall.";
     growth_percentile := None; sleep_quality_index := None;
     feeding_efficiency := None; developmental_score := None;
     created_at := None; updated_at := None |}.

(** The same record with the weight as its only measurement. *)
Definition test_progress_weighed : BabyProgress :=
  {| progress_id := 4; baby_id := 1; record_date := test_day;
     weight := weight test_progress; height := None; head_circumference := None;
     feeding_times := feeding_times test_progress;
     feeding_type := feeding_type test_progress; feeding_amount := None;
     sleep_schedule := sleep_schedule test_progress;
     total_sleep_hours := total_sleep_hours test_progress;
     diaper_changes := diaper_changes test_progress;
     milestones := milestones test_progress; notes := notes test_progress;
     growth_percentile := None; sleep_quality_index := None;
     feeding_efficiency := None; developmental_score := None;
     created_at := None; updated_at := None |}.

(** A sleep session that ends when it starts. *)
Definition no_sleep : SleepSession :=
  {| sleep_start_time := at_time test_day 22 0;
     sleep_end_time := Some (at_time test_day 22 0);
     quality := Some (Some "good"); sleep_notes := None |}.

(** The same baby with a gender outside the two the tables know. *)
Definition other_baby : Baby :=
  {| id := 2; name := "Baby Other"; date_of_birth := mkDate 2024 1 1;
     gender := Some "Other"; parent_id := 1 |}.

Definition with_gender (g : option string) : Baby :=
  {| id := 3; name := "Baby"; date_of_birth := mkDate 2024 1 1;
     gender := g; parent_id := 1 |}.

(** A record with milestones only. *)
Definition milestones_only : BabyProgress :=
  {| progress_id := 2; baby_id := 1; record_date := test_day;
     weight := None; height := None; head_circumference := None;
     feeding_times := None; feeding_type := None; feeding_amount := None;
     sleep_schedule := None; total_sleep_hours := None; diaper_changes := None;
     milestones := Some (JsonList [smiles]); notes := None;
     growth_percentile := None; sleep_quality_index := None;
     feeding_efficiency := None; developmental_score := None;
     created_at := None; updated_at := None |}.


(** Already scored records: a date, a weight and a developmental score. *)
Definition scored (pid : Z) (d : date) (w dev : option Q) : BabyProgress :=
  {| progress_id := pid; baby_id := 1; record_date := d;
     weight := w; height := None; head_circumference := None;
     feeding_times := None; feeding_type := None; feeding_amount := None;
     sleep_schedule := None; total_sleep_hours := None; diaper_changes := None;
     milestones := None; notes := None;
     growth_percentile := None; sleep_quality_index := None;
     feeding_efficiency := None; developmental_score := dev;
     created_at := None; updated_at := None |}.

Definition day_0 : date := mkDate 2024 3 1.
Definition day_4 : date := mkDate 2024 3 5.
Definition day_14 : date := mkDate 2024 3 15.

End Examples.

(* ------------------------------------------------------------------------- *)
(** * Properties *)

(** [c] returns normally, with a value equal to [v]. *)
Definition evaluates_to (c : result Q) (v : Q) : Prop :=
  match c with
  | Ok p => p == v
  | Raise _ => False
  end.

(** The anchors, read left to right, never go down. *)
Fixpoint non_decreasing (xs : list Q) : bool :=
  match xs with
  | x :: (y :: _) as tl => Qleb x y && non_decreasing tl
  | _ => true
  end.

(** The anchors, read left to right, always go up. *)
Fixpoint strictly_increasing (xs : list Q) : bool :=
  match xs with
  | x :: (y :: _) as tl => Qltb x y && strictly_increasing tl
  | _ => true
  end.

(** A measurement that is absent, or present and not negative. *)
Definition absent_or_non_negative (x : option Q) : Prop :=
  match x with
  | Some v => 0 <= v
  | None => True
  end.

(** A list whose keys never go down from left to right. *)
Fixpoint ascending {A : Type} (key : A -> Z) (xs : list A) : Prop :=
  match xs with
  | [] => True
  | x :: tl => (forall y, In y tl -> (key x <= key y)%Z) /\ ascending key tl
  end.

(** The values a derived field has on the records where it is present. *)
Definition present_values (field : BabyProgress -> option Q)
  (rs : list BabyProgress) : list Q :=
  flat_map (fun r => match field r with Some v => [v] | None => [] end) rs.

(** The record belongs to the baby and to the time frame. *)
Definition in_scope (today : date) (baby : Baby) (timeframe : string)
  (r : BabyProgress) : bool :=
  (baby_id r =? id baby)%Z &&
  (if String.eqb timeframe "week"
   then (toordinal today - 7 <=? toordinal (record_date r))%Z
   else if String.eqb timeframe "month"
   then (toordinal today - 30 <=? toordinal (record_date r))%Z
   else true).


(** No entry of a growth result is named "overall_percentile". *)
Definition no_overall_key (r : list (string * Q)) : Prop :=
  Forall (fun kv => fst kv <> "overall_percentile") r.

(** Every value of a growth result lies in [0, 97]. *)
Definition values_in_range (r : list (string * Q)) : Prop :=
  Forall (fun kv => 0 <= snd kv <= 97) r.

(** The gender the growth scorer resolves is one the tables know. *)
Definition recognized_gender (baby : Baby) : Prop :=
  resolve_gender baby = "male" \/ resolve_gender baby = "female".

(** [a] is [b] or an earlier day of the calendar. *)
Definition date_le (a b : date) : Prop :=
  (year a < year b)%Z \/
  (year a = year b /\
   ((month a < month b)%Z \/ (month a = month b /\ (day a <= day b)%Z))).

(** The month of a date is one of the twelve. *)
Definition valid_month (d : date) : Prop := (1 <= month d <= 12)%Z.

(** [q] has the identities, the record date and every raw input of [p]. *)
Definition same_raw_inputs (p q : BabyProgress) : Prop :=
  progress_id q = progress_id p /\ baby_id q = baby_id p /\
  record_date q = record_date p /\
  weight q = weight p /\ height q = height p /\
  head_circumference q = head_circumference p /\
  feeding_times q = feeding_times p /\ feeding_type q = feeding_type p /\
  feeding_amount q = feeding_amount p /\
  sleep_schedule q = sleep_schedule p /\ total_sleep_hours q = total_sleep_hours p /\
  diaper_changes q = diaper_changes p /\ milestones q = milestones p /\
  notes q = notes p /\ created_at q = created_at p /\ updated_at q = updated_at p.

(** [if any(x is not None for x in [weight, height, head_circumference])] *)
Definition has_measurement (p : BabyProgress) : bool :=
  existsb (fun x : option Q => match x with Some _ => true | None => false end)
          [weight p; height p; head_circumference p].

(** From [p] to [q] the raw inputs are kept, and so is each derived field whose
    flag is [false]. *)
Definition frame (g s f d : bool) (p q : BabyProgress) : Prop :=
  same_raw_inputs p q /\
  (g = false -> growth_percentile q = growth_percentile p) /\
  (s = false -> sleep_quality_index q = sleep_quality_index p) /\
  (f = false -> feeding_efficiency q = feeding_efficiency p) /\
  (d = false -> developmental_score q = developmental_score p).



Section NumberFacts.

Lemma Qeqb_true (a b : Q) : Qeqb a b = true <-> a == b.
Proof. apply Qeq_bool_iff. Qed.

Lemma Qeqb_false (a b : Q) : Qeqb a b = false <-> ~ a == b.
Proof.
  rewrite <- Qeqb_true. destruct (Qeqb a b); split; intros; congruence.
Qed.

Lemma Qleb_true (a b : Q) : Qleb a b = true <-> a <= b.
Proof. apply Qle_bool_iff. Qed.

Lemma Qleb_false (a b : Q) : Qleb a b = false <-> b < a.
Proof.
  unfold Qleb. split; intro H.
  - apply Qnot_le_lt. intro Hle. apply Qle_bool_iff in Hle. congruence.
  - destruct (Qle_bool a b) eqn:E; [|reflexivity].
    apply Qle_bool_iff in E. apply Qlt_not_le in H. contradiction.
Qed.

Lemma Qltb_true (a b : Q) : Qltb a b = true <-> a < b.
Proof.
  unfold Qltb. rewrite negb_true_iff. apply (Qleb_false b a).
Qed.

Lemma Qltb_false (a b : Q) : Qltb a b = false <-> b <= a.
Proof.
  unfold Qltb. rewrite negb_false_iff. apply (Qleb_true b a).
Qed.

Lemma py_div_ok (a b : Q) : ~ b == 0 -> py_div a b = Ok (a / b).
Proof.
  intro H. unfold py_div. apply Qeqb_false in H. now rewrite H.
Qed.

Lemma py_min_le_l (a b : Q) : py_min a b <= a.
Proof.
  unfold py_min. destruct (Qltb b a) eqn:E.
  - apply Qltb_true in E. lra.
  - lra.
Qed.

Lemma py_min_ge (a b c : Q) : c <= a -> c <= b -> c <= py_min a b.
Proof. unfold py_min. destruct (Qltb b a); auto. Qed.

Lemma py_max_ge_l (a b : Q) : a <= py_max a b.
Proof.
  unfold py_max. destruct (Qltb a b) eqn:E.
  - apply Qltb_true in E. lra.
  - lra.
Qed.

Lemma clamp_range (s : Q) : 0 <= py_min 100 (py_max 0 s) <= 100.
Proof.
  split.
  - apply py_min_ge; [lra | apply py_max_ge_l].
  - apply py_min_le_l.
Qed.

Lemma len_cons_nonzero {A : Type} (x : A) (xs : list A) : ~ len (x :: xs) == 0.
Proof.
  unfold len. intro H. unfold Qeq in H. simpl in H. lia.
Qed.

Lemma len_pos_nonzero {A : Type} (xs : list A) : truthy_list xs = true -> ~ len xs == 0.
Proof.
  destruct xs; [discriminate | intros _; apply len_cons_nonzero].
Qed.

Lemma pow2_power (e : Z) : pow2 e == 2 ^ e.
Proof.
  unfold pow2. destruct (Z.leb_spec 0 e) as [H|H].
  - now rewrite Zpower_Qpower.
  - assert (Hp : (0 < 2 ^ (- e))%Z) by (apply Z.pow_pos_nonneg; lia).
    replace e with (- - e)%Z at 2 by lia.
    rewrite Qpower_opp. change 2 with (inject_Z 2).
    rewrite <- Zpower_Qpower by lia.
    destruct (2 ^ (- e))%Z as [|p|p] eqn:E; try lia.
    reflexivity.
Qed.

Lemma pow2_pos (e : Z) : 0 < pow2 e.
Proof. rewrite pow2_power. now apply Qpower_0_lt. Qed.

Lemma pow2_le (e1 e2 : Z) : (e1 <= e2)%Z -> pow2 e1 <= pow2 e2.
Proof.
  intro H. rewrite !pow2_power. apply Qpower_le_compat_l; [exact H | discriminate].
Qed.

(** [floor_log2] is not above the binary logarithm. *)
Lemma floor_log2_le (a : Q) : 0 < a -> pow2 (floor_log2 a) <= a.
Proof.
  intro Ha. unfold floor_log2. cbv zeta.
  set (e0 := (Z.log2 (Qnum a) - Z.log2 (Z.pos (Qden a)))%Z).
  destruct (Qleb (pow2 e0) a) eqn:E; [now apply Qleb_true|].
  destruct a as [n d]. unfold e0. cbn [Qnum Qden].
  assert (Hn : (0 < n)%Z) by (unfold Qlt in Ha; cbn in Ha; lia).
  replace (Z.log2 n - Z.log2 (Z.pos d) - 1)%Z
    with (Z.log2 n - (Z.log2 (Z.pos d) + 1))%Z by lia.
  rewrite pow2_power, Qpower_minus by discriminate.
  pose proof (Z.log2_nonneg n) as Hln.
  pose proof (Z.log2_nonneg (Z.pos d)) as Hld.
  change 2 with (inject_Z 2).
  rewrite <- !Zpower_Qpower by lia.
  destruct (Z.log2_spec n Hn) as [Hlo _].
  destruct (Z.log2_spec (Z.pos d) (eq_refl : (0 < Z.pos d)%Z)) as [_ Hhi].
  replace (Z.succ (Z.log2 (Z.pos d))) with (Z.log2 (Z.pos d) + 1)%Z in Hhi by lia.
  set (x := (2 ^ Z.log2 n)%Z) in *. set (y := (2 ^ (Z.log2 (Z.pos d) + 1))%Z) in *.
  assert (Hy : (0 < y)%Z) by lia.
  apply Qle_shift_div_r; [unfold Qlt; cbn; lia|].
  unfold Qle, Qmult, inject_Z. cbn [Qnum Qden]. nia.
Qed.

Lemma round_half_even_ge_floor (q : Q) : (Qfloor q <= round_half_even q)%Z.
Proof.
  unfold round_half_even. cbv zeta.
  repeat match goal with |- context [if ?c then _ else _] => destruct c end; lia.
Qed.

(** A number that is not below the least subnormal does not round to zero. *)
Lemma binary64_nonzero (q b : Q) :
  pow2 (-1074) <= Qabs q -> binary64 q = Finite b -> ~ b == 0.
Proof.
  intros Hq. unfold binary64.
  destruct (Qeqb q 0) eqn:E0.
  { apply Qeq_bool_iff in E0. rewrite E0 in Hq. exfalso. revert Hq. now vm_compute. }
  cbv zeta.
  set (a := Qabs q) in *.
  assert (Ha : 0 < a) by (pose proof (pow2_pos (-1074)); lra).
  set (quantum := pow2 (Z.max (floor_log2 a - 52) (-1074))).
  assert (Hquantum : 0 < quantum) by apply pow2_pos.
  assert (Hle : quantum <= a).
  { unfold quantum.
    destruct (Z.max_spec (floor_log2 a - 52) (-1074)) as [[_ ->] | [_ ->]].
    - exact Hq.
    - apply Qle_trans with (pow2 (floor_log2 a)); [apply pow2_le; lia|].
      now apply floor_log2_le. }
  set (m := round_half_even (a / quantum)).
  assert (Hm : (1 <= m)%Z).
  { apply Z.le_trans with (Qfloor (a / quantum)); [|apply round_half_even_ge_floor].
    change 1%Z with (Qfloor 1). apply Qfloor_resp_le.
    apply Qle_shift_div_l; [exact Hquantum | lra]. }
  assert (Hv : 0 < inject_Z m * quantum).
  { apply Qmult_lt_0_compat; [|exact Hquantum]. unfold Qlt. cbn. lia. }
  destruct (Qleb (pow2 1024) (inject_Z m * quantum)); [discriminate|].
  intro H. injection H as <-. rewrite Qred_correct.
  destruct (Qltb q 0); lra.
Qed.

(** A division by a positive number of days does not raise. *)
Lemma f_div_by_days (x : pyfloat) (d : Z) :
  (0 < d)%Z -> exists o, f_div x (binary64 (inject_Z d)) = Ok o.
Proof.
  intro Hd.
  assert (Hq : pow2 (-1074) <= Qabs (inject_Z d)).
  { rewrite Qabs_pos by (unfold Qle; cbn; lia).
    apply Qle_trans with 1; [now vm_compute|]. unfold Qle. cbn. lia. }
  unfold f_div.
  destruct (binary64 (inject_Z d)) as [b|s|] eqn:E.
  - assert (Hb : Qeqb b 0 = false).
    { destruct (Qeqb b 0) eqn:E0; [|reflexivity].
      apply Qeq_bool_iff in E0. now destruct (binary64_nonzero _ Hq E). }
    rewrite Hb. destruct x; eauto.
  - destruct x; eauto.
  - destruct x; eauto.
Qed.

End NumberFacts.

(** Turn the boolean comparisons of the context into propositions. *)
Ltac reflect_cmp :=
  repeat match goal with
  | H : Qleb _ _ = true |- _ => apply Qleb_true in H
  | H : Qleb _ _ = false |- _ => apply Qleb_false in H
  | H : Qltb _ _ = true |- _ => apply Qltb_true in H
  | H : Qltb _ _ = false |- _ => apply Qltb_false in H
  | H : Qeqb _ _ = true |- _ => apply Qeqb_true in H
  | H : Qeqb _ _ = false |- _ => apply Qeqb_false in H
  end.

Section Interpolation.

Lemma item_lt {A : Type} (xs : list A) (i : nat) :
  (i < List.length xs)%nat -> exists x, item xs i = Ok x.
Proof.
  intro H. unfold item. destruct (nth_error xs i) eqn:E.
  - now exists a.
  - apply nth_error_None in E. lia.
Qed.

Lemma item_last_nonempty {A : Type} (xs : list A) :
  (0 < List.length xs)%nat -> exists x, item_last xs = Ok x.
Proof.
  destruct xs; simpl; [lia | intros _; eauto].
Qed.

(** The scan returns whenever the ladder is as long as the anchor sequence:
    inside a bracket [lo <= value < hi] the divisor [hi - lo] is positive. *)
Lemma interpolate_scan_returns (value : Q) (standards percentiles : list Q) :
  (0 < List.length percentiles)%nat ->
  (List.length standards <= List.length percentiles)%nat ->
  forall n i, (i + n < List.length standards)%nat ->
  exists p, interpolate_scan value standards percentiles i n = Ok p.
Proof.
  intros Hp Hlen n. induction n as [|n IH]; intros i Hi; simpl.
  - now apply item_last_nonempty.
  - destruct (item_lt standards (i := i)) as [lo ->]; [lia|].
    destruct (item_lt standards (i := S i)) as [hi ->]; [lia|].
    simpl. destruct (Qleb lo value && Qltb value hi) eqn:E.
    + apply andb_true_iff in E. destruct E as [E1 E2]. reflect_cmp.
      rewrite py_div_ok by lra. simpl.
      destruct (item_lt percentiles (i := i)) as [plo ->]; [lia|].
      destruct (item_lt percentiles (i := S i)) as [phi ->]; [lia|].
      simpl. eauto.
    + apply IH. lia.
Qed.

Lemma interpolate_percentile_returns (value : Q) (standards percentiles : list Q) :
  (0 < List.length standards)%nat ->
  (List.length standards <= List.length percentiles)%nat ->
  ~ hd 0 standards == 0 ->
  exists p, interpolate_percentile value standards percentiles = Ok p.
Proof.
  intros Hs Hlen Hnz. unfold interpolate_percentile.
  destruct standards as [|s0 rest]; [simpl in Hs; lia|].
  simpl in Hnz. cbn [item nth_error of_option bind].
  destruct (Qleb value s0) eqn:E.
  - destruct (item_lt percentiles (i := 0%nat)) as [p0 ->]; [simpl in *; lia|].
    simpl. rewrite py_div_ok by assumption. simpl. eauto.
  - cbn [item_last bind].
    destruct (Qleb (last rest s0) value).
    + apply item_last_nonempty. simpl in *; lia.
    + apply interpolate_scan_returns; simpl in *; lia.
Qed.

End Interpolation.

Section InterpolationClaims.

(** C5 (as amended).  The interpolator does not validate its anchors: for every
    value and every five-point anchor sequence that is not non-decreasing and
    whose first anchor is not zero, it raises nothing and returns a
    percentile. *)
Theorem interpolate_percentile_accepts_unordered_anchors :
  forall (value : Q) (standards : list Q),
    List.length standards = 5%nat ->
    non_decreasing standards = false ->
    ~ hd 0 standards == 0 ->
    exists p, interpolate_percentile value standards PERCENTILES = Ok p.
Proof.
  intros value standards Hlen _ Hnz.
  apply interpolate_percentile_returns; try assumption.
  - lia.
  - simpl. lia.
Qed.

Lemma interpolate_percentile_accepts_unordered_anchors_witness :
  exists p, interpolate_percentile 4 [1; 5; 3; 7; 9] PERCENTILES = Ok p.
Proof.
  apply (@interpolate_percentile_accepts_unordered_anchors 4 [1; 5; 3; 7; 9]).
  - reflexivity.
  - reflexivity.
  - simpl. intro H. discriminate H.
Defined.

(** C5, counterexample.  The anchors 1, 5, 3, 7, 9 go down from 5 to 3, yet the
    value 4 is given the percentile 12, interpolated in the first bracket
    [1, 5) although 4 also lies above the 50th-percentile anchor 3. *)
Lemma interpolate_percentile_unordered_anchors_counterexample :
  non_decreasing [1; 5; 3; 7; 9] = false /\
  evaluates_to (interpolate_percentile 4 [1; 5; 3; 7; 9] PERCENTILES) 12.
Proof.
  split; reflexivity.
Qed.

(** C6 (as amended).  For a non-decreasing five-point anchor sequence and an
    interior index [i] whose anchor lies strictly above the first anchor and
    strictly below the next one (as every interior anchor of a strictly
    increasing sequence does), the interpolator applied to that anchor returns
    exactly the ladder rung [i]. *)
Theorem interpolate_percentile_at_interior_anchor :
  forall (standards : list Q) (i : nat),
    List.length standards = 5%nat ->
    non_decreasing standards = true ->
    (0 < i < 4)%nat ->
    hd 0 standards < nth i standards 0 ->
    nth i standards 0 < nth (S i) standards 0 ->
    evaluates_to (interpolate_percentile (nth i standards 0) standards PERCENTILES)
                 (nth i PERCENTILES 0).
Proof.
  intros standards i Hlen Hmono Hi Hfirst Hnext.
  destruct standards as [|s0 [|s1 [|s2 [|s3 [|s4 [|]]]]]]; try discriminate Hlen.
  simpl in Hmono.
  repeat (apply andb_true_iff in Hmono; destruct Hmono as [? Hmono]).
  reflect_cmp.
  assert (Hcases : i = 1%nat \/ i = 2%nat \/ i = 3%nat) by lia.
  destruct Hcases as [-> | [-> | ->]]; simpl in Hfirst, Hnext;
    unfold interpolate_percentile; cbn [item nth_error of_option bind nth];
    (destruct (Qleb _ s0) eqn:E0; [reflect_cmp; lra|]);
    cbn [item_last last bind];
    (destruct (Qleb s4 _) eqn:E4; [reflect_cmp; lra|]);
    cbn [List.length Nat.sub interpolate_scan item nth_error of_option bind];
    repeat match goal with
    | |- context [Qleb ?a ?b && Qltb ?c ?d] =>
        let Ea := fresh "Ea" in let Eb := fresh "Eb" in
        destruct (Qleb a b) eqn:Ea; destruct (Qltb c d) eqn:Eb;
        cbn [andb]; reflect_cmp; try lra;
        cbn [interpolate_scan item nth_error of_option bind]
    end;
    rewrite py_div_ok by lra;
    cbn [bind PERCENTILES item nth nth_error of_option evaluates_to];
    field; lra.
Qed.

Lemma interpolate_percentile_at_interior_anchor_witness :
  evaluates_to (interpolate_percentile 5.6 [4.3; 4.9; 5.6; 6.3; 6.8] PERCENTILES) 50.
Proof.
  apply (@interpolate_percentile_at_interior_anchor [4.3; 4.9; 5.6; 6.3; 6.8] 2).
  - reflexivity.
  - reflexivity.
  - lia.
  - reflexivity.
  - reflexivity.
Defined.

(** C6, counterexample.  The anchors 2, 2, 3, 4, 5 are non-decreasing; at the
    interior anchor of index 1 the interpolator takes the low-end branch
    ([value <= standards[0]]) and returns the rung 3, not the rung 15. *)
Lemma interpolate_percentile_repeated_anchor_counterexample :
  non_decreasing [2; 2; 3; 4; 5] = true /\
  evaluates_to (interpolate_percentile (nth 1 [2; 2; 3; 4; 5] 0) [2; 2; 3; 4; 5] PERCENTILES) 3 /\
  ~ evaluates_to (interpolate_percentile (nth 1 [2; 2; 3; 4; 5] 0) [2; 2; 3; 4; 5] PERCENTILES)
                 (nth 1 PERCENTILES 0).
Proof.
  split; [reflexivity | split; [reflexivity | ]].
  simpl. intro H. discriminate H.
Qed.

End InterpolationClaims.

Section ScorerTotality.

Lemma insert_by_length {A : Type} (key : A -> Z) (x : A) (xs : list A) :
  List.length (insert_by key x xs) = S (List.length xs).
Proof.
  induction xs as [|y ys IH]; simpl; [reflexivity|].
  destruct (key x <=? key y)%Z; simpl; [reflexivity | now rewrite IH].
Qed.

Lemma sort_by_length {A : Type} (key : A -> Z) (xs : list A) :
  List.length (sort_by key xs) = List.length xs.
Proof.
  induction xs as [|x xs IH]; simpl; [reflexivity|].
  now rewrite insert_by_length, IH.
Qed.

Lemma truthy_list_length {A : Type} (xs : list A) :
  truthy_list xs = true <-> (0 < List.length xs)%nat.
Proof.
  destruct xs; simpl; split; intros; try lia; try discriminate; reflexivity.
Qed.

Lemma len_nonzero_of_length {A : Type} (xs : list A) :
  (0 < List.length xs)%nat -> ~ len xs == 0.
Proof.
  intro H. apply len_pos_nonzero. now apply truthy_list_length.
Qed.

Lemma py_sum_from_nonneg (xs : list Q) :
  Forall (fun x => 0 <= x) xs -> forall acc, 0 <= acc -> 0 <= fold_left Qplus xs acc.
Proof.
  induction 1 as [|x xs Hx _ IH]; intros acc Hacc; simpl; [assumption|].
  apply IH. lra.
Qed.

Lemma py_sum_nonneg (xs : list Q) : Forall (fun x => 0 <= x) xs -> 0 <= py_sum xs.
Proof.
  intro H. unfold py_sum. apply py_sum_from_nonneg; [assumption | lra].
Qed.

Lemma night_ratio_returns (night total : Q) :
  exists r, night_ratio night total = Ok r.
Proof.
  unfold night_ratio. destruct (Qltb 0 total) eqn:E.
  - reflect_cmp. rewrite py_div_ok by lra. eauto.
  - eauto.
Qed.

(** The sleep scorer returns on every session list, with an index in [0, 100]. *)
Lemma calculate_sleep_quality_index_total (now : datetime) (schedule : list SleepSession) :
  exists v, calculate_sleep_quality_index now schedule = Ok v /\ 0 <= v <= 100.
Proof.
  unfold calculate_sleep_quality_index.
  destruct (truthy_list schedule) eqn:Hne; cbn [negb].
  - cbv zeta.
    destruct (night_ratio_returns
                (py_sum (map se_duration (filter se_is_night (map (sleep_entry_of now) schedule))))
                (py_sum (map se_duration (map (sleep_entry_of now) schedule)))) as [r ->].
    cbn [bind]. rewrite py_div_ok.
    + cbn [bind]. eexists. split; [reflexivity | apply clamp_range].
    + apply len_nonzero_of_length.
      rewrite sort_by_length, length_map. now apply truthy_list_length.
  - exists 50.0. split; [reflexivity | lra].
Qed.

Lemma expected_feeding_nonzero (age : Z) :
  ~ fst (expected_feeding age) == 0 /\ ~ snd (expected_feeding age) == 0.
Proof.
  unfold expected_feeding.
  destruct (age <? 1)%Z; [|destruct (age <? 3)%Z; [|destruct (age <? 6)%Z]];
    simpl; split; intro H; discriminate H.
Qed.

Lemma type_duration_score_returns (feeds : list feed_entry) (target : Q) :
  exists v, type_duration_score feeds target = Ok v.
Proof.
  unfold type_duration_score. destruct (truthy_list feeds) eqn:E; [|eauto].
  rewrite py_div_ok by now apply len_pos_nonzero.
  cbn [bind]. eauto.
Qed.

Lemma interval_regularity_of_returns (feeds : list feed_entry) (expected : Q) :
  ~ expected == 0 -> exists v, interval_regularity_of feeds expected = Ok v.
Proof.
  intro Hnz. unfold interval_regularity_of. cbv zeta.
  match goal with |- context [truthy_list ?l] => destruct (truthy_list l) eqn:E end.
  - rewrite py_div_ok.
    + cbn [bind]. rewrite py_div_ok by assumption. cbn [bind]. eauto.
    + apply len_nonzero_of_length. rewrite length_map. now apply truthy_list_length.
  - eauto.
Qed.

Lemma feed_frequency_score_of_returns (feeds : list feed_entry) (expected : Q) :
  ~ expected == 0 -> exists v, feed_frequency_score_of feeds expected = Ok v.
Proof.
  intro Hnz. unfold feed_frequency_score_of.
  destruct (2 <=? Z.of_nat (List.length feeds))%Z eqn:E; [|eauto].
  apply Z.leb_le in E.
  destruct (item_last_nonempty feeds) as [fl ->]; [lia|].
  destruct (item_lt feeds (i := 0%nat)) as [f0 ->]; [lia|].
  cbn [bind]. cbv zeta.
  match goal with |- context [Qleb 12 ?span] => destruct (Qleb 12 span) eqn:Espan end;
    [|eauto].
  reflect_cmp. rewrite py_div_ok by lra. cbn [bind].
  rewrite py_div_ok by assumption. cbn [bind]. eauto.
Qed.

Lemma duration_score_of_returns (feeds : list feed_entry) :
  exists v, duration_score_of feeds = Ok v.
Proof.
  unfold duration_score_of. cbv zeta.
  match goal with |- context [type_duration_score ?l 15] =>
    destruct (type_duration_score_returns l 15) as [b ->] end.
  match goal with |- context [type_duration_score ?l 25] =>
    destruct (type_duration_score_returns l 25) as [c ->] end.
  cbn [bind]. eauto.
Qed.

(** The feeding scorer returns on every session list and age, with a score in
    [0, 100]. *)
Lemma calculate_feeding_efficiency_total (feeding_times : list FeedingSession) (age : Z) :
  exists v, calculate_feeding_efficiency feeding_times age = Ok v /\ 0 <= v <= 100.
Proof.
  unfold calculate_feeding_efficiency.
  destruct (truthy_list feeding_times) eqn:Hne; cbn [negb].
  2:{ exists 50.0. split; [reflexivity | lra]. }
  cbv zeta.
  destruct (expected_feeding_nonzero age) as [Hper_day Hinterval].
  set (feeds := sort_by (fun f => timestamp_us (fe_start f)) (map feed_entry_of feeding_times)).
  assert (Hfeeds : truthy_list feeds = true).
  { apply truthy_list_length. unfold feeds.
    rewrite sort_by_length, length_map. now apply truthy_list_length. }
  destruct (interval_regularity_of_returns feeds Hinterval) as [ir ->].
  destruct (feed_frequency_score_of_returns feeds Hper_day) as [fq ->].
  cbn [bind]. rewrite Hfeeds. rewrite py_div_ok by now apply len_pos_nonzero.
  destruct (duration_score_of_returns feeds) as [ds ->].
  cbn [bind]. eexists. split; [reflexivity | apply clamp_range].
Qed.

Lemma early_bonus_nonneg (baby : Baby) (m : Milestone) : 0 <= early_bonus baby m.
Proof.
  unfold early_bonus.
  destruct (achieved_date m); [|lra].
  destruct (typical_month (milestone m)); [|lra].
  match goal with |- context [if ?c then _ else _] => destruct c end; lra.
Qed.

(** The developmental scorer returns on every milestone list, age and baby,
    with a score in [0, 100]. *)
Lemma calculate_developmental_score_total (ms : list Milestone) (age : Z) (baby : Baby) :
  exists v, calculate_developmental_score ms age baby = Ok v /\ 0 <= v <= 100.
Proof.
  unfold calculate_developmental_score.
  destruct (truthy_list ms) eqn:Hne; cbn [negb].
  2:{ exists 50.0. split; [reflexivity | lra]. }
  cbv zeta.
  match goal with |- context [truthy_list ?l] =>
    set (all_expected := l); destruct (truthy_list all_expected) eqn:Hexp end;
    cbn [negb].
  2:{ exists 70.0. split; [reflexivity | lra]. }
  pose proof (@len_pos_nonzero _ all_expected Hexp) as Hnz.
  rewrite py_div_ok by assumption. cbn [bind].
  eexists. split; [reflexivity|]. split.
  - apply py_min_ge; [lra|].
    assert (0 <= py_sum (map (early_bonus baby) ms)).
    { apply py_sum_nonneg. apply Forall_forall. intros x Hx.
      apply in_map_iff in Hx. destruct Hx as [m [<- _]]. apply early_bonus_nonneg. }
    match goal with |- 0 <= ?n / ?d * 100 + _ =>
      assert (0 <= n / d * 100) end.
    { apply Qmult_le_0_compat; [|lra].
      apply Qle_shift_div_l.
      - unfold len. destruct all_expected; [discriminate|].
        unfold Qlt. simpl. lia.
      - rewrite Qmult_0_l. unfold Qle. simpl. lia. }
    lra.
  - apply py_min_le_l.
Qed.

End ScorerTotality.

Import Examples.

Section GrowthClaims.

(** C2.  On the record of [test_api.py] (a girl born 60 days before the record
    date, so 2 months old, with weight 5.2, height 57.5 and head circumference
    38.2) the growth scorer raises [KeyError]: the closest month is chosen among
    the months of the weight table, and the height table has no month 2.  The
    record processor ends with that exception, no derived field assigned. *)
Theorem growth_scorer_raises_on_test_record :
  calculate_age_in_months (date_of_birth test_baby) (record_date test_progress) = 2%Z /\
  calculate_growth_percentile test_baby (weight test_progress) (height test_progress)
      (head_circumference test_progress) (record_date test_progress)
    = Raise KeyError /\
  process_baby_progress no_text_columns (at_time test_day 12 0) [] test_progress
      (Some test_baby)
    = {| obj := test_progress; raised := Some KeyError |}.
Proof.
  repeat split; reflexivity.
Qed.

(** C3.  Gender is lowered before the lookup ("FEMALE" is read as "female") and
    an absent or empty gender is read as "male", but a gender that is neither,
    such as "Other", is looked up as it is and the growth scorer raises
    [KeyError]. *)
Theorem growth_scorer_raises_on_unrecognized_gender :
  resolve_gender other_baby = "other" /\
  calculate_growth_percentile other_baby (Some 5.2) None None test_day = Raise KeyError /\
  calculate_growth_percentile (with_gender (Some "FEMALE")) (Some 5.2) None None test_day
    = calculate_growth_percentile (with_gender (Some "female")) (Some 5.2) None None test_day /\
  calculate_growth_percentile (with_gender None) (Some 5.2) None None test_day
    = calculate_growth_percentile (with_gender (Some "male")) (Some 5.2) None None test_day /\
  calculate_growth_percentile (with_gender (Some "")) (Some 5.2) None None test_day
    = calculate_growth_percentile (with_gender (Some "male")) (Some 5.2) None None test_day.
Proof.
  repeat split; reflexivity.
Qed.

End GrowthClaims.

Section Aggregation.

Lemma existsb_filter_nonempty {A : Type} (f : A -> bool) (xs : list A) :
  existsb f xs = true -> truthy_list (filter f xs) = true.
Proof.
  induction xs as [|x xs IH]; simpl; [discriminate|].
  destruct (f x); simpl; [reflexivity | exact IH].
Qed.

Lemma average_of_returns (field : BabyProgress -> option Q) (rs : list BabyProgress) :
  exists o, average_of field rs = Ok o.
Proof.
  unfold average_of.
  destruct (existsb (fun r => truthy_float (field r)) rs) eqn:E; [|eauto].
  cbv zeta. rewrite py_div_ok.
  - cbn [bind]. eauto.
  - apply len_pos_nonzero. now apply existsb_filter_nonempty.
Qed.

Lemma gain_returns (first_v last_v : option Q) (days_diff : Z)
  (scale : pyfloat -> pyfloat) :
  (0 < days_diff)%Z -> exists o, gain first_v last_v days_diff scale = Ok o.
Proof.
  intro Hd. unfold gain.
  destruct first_v as [a|], last_v as [b|]; eauto.
  cbv zeta.
  destruct (truthy_double (binary64 a) && truthy_double (binary64 b)); [|eauto].
  destruct (f_div_by_days (f_sub (binary64 b) (binary64 a)) Hd) as [d ->].
  cbn [bind]. eauto.
Qed.

Lemma gain_some (first_v last_v : option Q) (days_diff : Z)
  (scale : pyfloat -> pyfloat) (g : pyfloat) :
  gain first_v last_v days_diff scale = Ok (Some g) ->
  exists a b gain_per_day,
    first_v = Some a /\ last_v = Some b /\
    truthy_double (binary64 a) = true /\ truthy_double (binary64 b) = true /\
    f_div (f_sub (binary64 b) (binary64 a)) (binary64 (inject_Z days_diff))
      = Ok gain_per_day /\
    g = round1 (scale gain_per_day).
Proof.
  unfold gain.
  destruct first_v as [a|], last_v as [b|]; try discriminate.
  cbv zeta.
  destruct (truthy_double (binary64 a) && truthy_double (binary64 b)) eqn:T;
    [|discriminate].
  apply andb_true_iff in T. destruct T as [Ta Tb].
  destruct (f_div (f_sub (binary64 b) (binary64 a)) (binary64 (inject_Z days_diff)))
    as [d|e] eqn:E; [|discriminate].
  cbn [bind]. intro H. injection H as <-.
  exists a, b, d. repeat split; assumption.
Qed.

(** The aggregator returns on every non-empty record sequence, and its body
    holds what the expressions of the endpoint compute. *)
Lemma build_insights_returns (today : date) (baby : Baby) (tf : string)
  (first : BabyProgress) (rest : list BabyProgress) :
  let latest := last rest first in
  let days_diff := days_between (record_date latest) (record_date first) in
  exists body, build_insights today baby tf first rest = Ok body /\
    trend (sleep body)
      = trend_of (sleep_quality_index first) (sleep_quality_index latest) /\
    trend (feeding body)
      = trend_of (feeding_efficiency first) (feeding_efficiency latest) /\
    trend (development body)
      = development_trend_of (developmental_score first) (developmental_score latest) /\
    average_of growth_percentile (first :: rest) = Ok (average_percentile (growth body)) /\
    average_of sleep_quality_index (first :: rest) = Ok (average (sleep body)) /\
    average_of feeding_efficiency (first :: rest) = Ok (average (feeding body)) /\
    average_of developmental_score (first :: rest) = Ok (average (development body)) /\
    (if rates_computed (first :: rest) days_diff
     then gain (weight first) (weight latest) days_diff per_week_in_grams else Ok None)
      = Ok (weight_gain_per_week (growth body)) /\
    (if rates_computed (first :: rest) days_diff
     then gain (height first) (height latest) days_diff per_month else Ok None)
      = Ok (height_gain_per_month (growth body)) /\
    (if rates_computed (first :: rest) days_diff
     then gain (head_circumference first) (head_circumference latest) days_diff per_month
     else Ok None)
      = Ok (head_circumference_gain_per_month (growth body)).
Proof.
  intros latest days_diff. unfold build_insights. cbv zeta.
  fold latest. fold days_diff.
  destruct (average_of_returns growth_percentile (first :: rest)) as [a1 ->].
  destruct (average_of_returns sleep_quality_index (first :: rest)) as [a2 ->].
  destruct (average_of_returns feeding_efficiency (first :: rest)) as [a3 ->].
  destruct (average_of_returns developmental_score (first :: rest)) as [a4 ->].
  cbn [bind].
  destruct (rates_computed (first :: rest) days_diff) eqn:E.
  - apply andb_true_iff in E. destruct E as [_ E]. apply Z.ltb_lt in E.
    destruct (gain_returns (weight first) (weight latest) per_week_in_grams E) as [g1 ->].
    destruct (gain_returns (height first) (height latest) per_month E) as [g2 ->].
    destruct (gain_returns (head_circumference first) (head_circumference latest)
                per_month E) as [g3 ->].
    cbn [bind]. eexists. split; [reflexivity|]. cbn. repeat split.
  - cbn [bind]. eexists. split; [reflexivity|]. cbn. repeat split.
Qed.

Lemma rate_some (rs : list BabyProgress) (days_diff : Z)
  (first_v last_v : option Q) (scale : pyfloat -> pyfloat) (g : pyfloat) :
  (if rates_computed rs days_diff then gain first_v last_v days_diff scale else Ok None)
    = Ok (Some g) ->
  (2 <= List.length rs)%nat /\ (0 < days_diff)%Z /\
  exists a b gain_per_day,
    first_v = Some a /\ last_v = Some b /\
    truthy_double (binary64 a) = true /\ truthy_double (binary64 b) = true /\
    f_div (f_sub (binary64 b) (binary64 a)) (binary64 (inject_Z days_diff))
      = Ok gain_per_day /\
    g = round1 (scale gain_per_day).
Proof.
  destruct (rates_computed rs days_diff) eqn:E; [|discriminate].
  apply andb_true_iff in E. destruct E as [E1 E2].
  apply Z.leb_le in E1. apply Z.ltb_lt in E2.
  intro H. apply gain_some in H. split; [lia|]. split; [lia|]. exact H.
Qed.

Lemma truthy_float_some (q : Q) : ~ q == 0 -> truthy_float (Some q) = true.
Proof.
  intro H. simpl. apply negb_true_iff. now apply Qeqb_false.
Qed.

(** C1 (as amended).  Over every non-empty record sequence the aggregator
    returns, and the developmental trend compares the developmental scores of
    the first and the last record: with both present and non-zero the trend is
    'improving' when last > first, 'stable' when they are equal and
    'as expected' when last < first ('declining' is never reported for
    development); it is 'as expected' when only the last score is present
    (and non-zero), and 'not enough data' whenever the last score is absent. *)
Theorem development_trend_classification :
  forall (today : date) (baby : Baby) (tf : string)
         (first : BabyProgress) (rest : list BabyProgress),
  exists body, build_insights today baby tf first rest = Ok body /\
    (forall a b,
        developmental_score first = Some a ->
        developmental_score (last rest first) = Some b ->
        ~ a == 0 -> ~ b == 0 ->
        (a < b -> trend (development body) = "improving") /\
        (a == b -> trend (development body) = "stable") /\
        (b < a -> trend (development body) = "as expected")) /\
    (forall b,
        developmental_score first = None ->
        developmental_score (last rest first) = Some b ->
        ~ b == 0 ->
        trend (development body) = "as expected") /\
    (developmental_score (last rest first) = None ->
     trend (development body) = "not enough data") /\
    trend (development body) <> "declining".
Proof.
  intros today baby tf first rest.
  destruct (build_insights_returns today baby tf first rest)
    as [body [Hb [_ [_ [Ht _]]]]].
  exists body. split; [exact Hb|]. rewrite Ht. clear Hb Ht.
  unfold development_trend_of. split; [|split; [|split]].
  - intros a b Hf Hl Ha Hb. rewrite Hf, Hl.
    rewrite !truthy_float_some by assumption. cbn [andb opt_gt opt_eq].
    split; [|split].
    + intro Hlt. apply Qltb_true in Hlt. now rewrite Hlt.
    + intro Heq.
      assert (Hgt : Qltb a b = false) by (apply Qltb_false; lra).
      assert (He : Qeqb b a = true) by (apply Qeqb_true; lra).
      now rewrite Hgt, He.
    + intro Hlt.
      assert (Hgt : Qltb a b = false) by (apply Qltb_false; lra).
      assert (He : Qeqb b a = false) by (apply Qeqb_false; lra).
      now rewrite Hgt, He.
  - intros b Hf Hl Hb. rewrite Hf, Hl.
    rewrite truthy_float_some by assumption. reflexivity.
  - intros Hl. rewrite Hl. reflexivity.
  - repeat match goal with |- context [if ?c then _ else _] => destruct c end;
      discriminate.
Qed.

Lemma development_trend_classification_witness :
  exists body,
    build_insights day_14 test_baby "all"
      (scored 1 day_0 None (Some 60)) [scored 2 day_14 None (Some 80)] = Ok body /\
    trend (development body) = "improving".
Proof.
  destruct (development_trend_classification day_14 test_baby "all"
              (scored 1 day_0 None (Some 60)) [scored 2 day_14 None (Some 80)])
    as [body [Hb [Hboth _]]].
  exists body. split; [exact Hb|].
  apply (Hboth 60 80); try reflexivity.
  - intro H. discriminate H.
  - intro H. discriminate H.
Defined.

(** C1, counterexample.  Both endpoint scores are present, 80 on the first
    record and 60 on the last: the developmental trend is 'as expected', not
    'declining'. *)
Lemma development_trend_drop_counterexample :
  exists body,
    get_baby_insights day_14
      [scored 1 day_0 None (Some 80); scored 2 day_14 None (Some 60)] test_baby "all"
      = Ok (WithInsights "Baby Test" body) /\
    trend (development body) = "as expected" /\
    trend (development body) <> "declining".
Proof.
  eexists. split; [reflexivity|]. split; [reflexivity | discriminate].
Qed.

(** C8.  The aggregator returns on every non-empty record sequence, and each
    growth rate it reports is there only with two records or more over a
    strictly positive number of days, and is the two-point difference of the
    first and last values over those days, scaled (a week in grams for weight,
    30 days for height and head circumference) and rounded to one decimal,
    each operation being the one of the doubles.
    For records on day 0 with 5.0 kg and on day 14 with 5.3 kg the weight gain
    per week is 150.0 grams.  The rounding is that of the doubles: from 3.0 kg
    to 3.031 kg over 4 days the exact rate is 54.25 grams per week and the
    reported one is the double 54.3. *)
Theorem growth_rates_are_two_point_differences :
  (forall (today : date) (baby : Baby) (tf : string)
          (first : BabyProgress) (rest : list BabyProgress),
   exists body, build_insights today baby tf first rest = Ok body /\
     let latest := last rest first in
     let days_diff := days_between (record_date latest) (record_date first) in
     let days := binary64 (inject_Z days_diff) in
     (forall g, weight_gain_per_week (growth body) = Some g ->
        (2 <= List.length (first :: rest))%nat /\ (0 < days_diff)%Z /\
        exists w0 w1 per_day, weight first = Some w0 /\ weight latest = Some w1 /\
          f_div (f_sub (binary64 w1) (binary64 w0)) days = Ok per_day /\
          g = round1 (f_mul (f_mul per_day (Finite 7)) (Finite 1000))) /\
     (forall g, height_gain_per_month (growth body) = Some g ->
        (2 <= List.length (first :: rest))%nat /\ (0 < days_diff)%Z /\
        exists h0 h1 per_day, height first = Some h0 /\ height latest = Some h1 /\
          f_div (f_sub (binary64 h1) (binary64 h0)) days = Ok per_day /\
          g = round1 (f_mul per_day (Finite 30))) /\
     (forall g, head_circumference_gain_per_month (growth body) = Some g ->
        (2 <= List.length (first :: rest))%nat /\ (0 < days_diff)%Z /\
        exists c0 c1 per_day, head_circumference first = Some c0 /\
          head_circumference latest = Some c1 /\
          f_div (f_sub (binary64 c1) (binary64 c0)) days = Ok per_day /\
          g = round1 (f_mul per_day (Finite 30)))) /\
  (days_between day_14 day_0 = 14%Z /\
   exists body,
     get_baby_insights day_14
       [scored 1 day_0 (Some 5.0) None; scored 2 day_14 (Some 5.3) None] test_baby "all"
       = Ok (WithInsights "Baby Test" body) /\
     weight_gain_per_week (growth body) = Some (Finite 150) /\
     150 == (5.3 - 5.0) / 14 * 7 * 1000) /\
  (days_between day_4 day_0 = 4%Z /\
   exists body,
     get_baby_insights day_4
       [scored 1 day_0 (Some 3.0) None; scored 2 day_4 (Some 3.031) None] test_baby "all"
       = Ok (WithInsights "Baby Test" body) /\
     weight_gain_per_week (growth body) = Some (binary64 54.3) /\
     54.25 == (3.031 - 3.0) / 4 * 7 * 1000).
Proof.
  split; [|split].
  - intros today baby tf first rest.
    destruct (build_insights_returns today baby tf first rest)
      as [body [Hb [_ [_ [_ [_ [_ [_ [_ [Hw [Hh Hc]]]]]]]]]]].
    exists body. split; [exact Hb|]. cbv zeta. split; [|split].
    + intros g Hg. rewrite Hg in Hw. apply rate_some in Hw.
      destruct Hw as [Hn [Hd [a [b [d [Ha [Hb' [_ [_ [Hdiv Hr]]]]]]]]]].
      split; [exact Hn|]. split; [exact Hd|]. exists a, b, d. auto.
    + intros g Hg. rewrite Hg in Hh. apply rate_some in Hh.
      destruct Hh as [Hn [Hd [a [b [d [Ha [Hb' [_ [_ [Hdiv Hr]]]]]]]]]].
      split; [exact Hn|]. split; [exact Hd|]. exists a, b, d. auto.
    + intros g Hg. rewrite Hg in Hc. apply rate_some in Hc.
      destruct Hc as [Hn [Hd [a [b [d [Ha [Hb' [_ [_ [Hdiv Hr]]]]]]]]]].
      split; [exact Hn|]. split; [exact Hd|]. exists a, b, d. auto.
  - split; [reflexivity|]. eexists. split; [vm_compute; reflexivity|].
    split; reflexivity.
  - split; [reflexivity|]. eexists. split; [vm_compute; reflexivity|].
    split; [vm_compute; reflexivity | reflexivity].
Qed.

Lemma growth_rates_are_two_point_differences_witness :
  (0 < days_between day_14 day_0)%Z.
Proof.
  destruct (proj1 growth_rates_are_two_point_differences day_14 test_baby "all"
              (scored 1 day_0 (Some 5.0) None) [scored 2 day_14 (Some 5.3) None])
    as [body [Hb [Hw _]]].
  vm_compute in Hb. injection Hb as <-.
  destruct (Hw (Finite 150) eq_refl) as [_ [Hdays _]].
  exact Hdays.
Defined.

(** C9.  A present developmental score of 0.0 is left out of the mean: over
    two records scored 0 and 100 the average is 100, not 50; and a record
    scored 0 alone gives no average at all.  The record processor produces such
    a score: a two-month-old's milestone "Smiles responsively" matches no
    expected milestone, which scores 0. *)
Theorem average_leaves_out_zero_scores :
  (exists body,
     get_baby_insights day_14
       [scored 1 day_0 None (Some 0); scored 2 day_14 None (Some 100)] test_baby "all"
       = Ok (WithInsights "Baby Test" body) /\
     average (development body) = Some 100) /\
  (exists body,
     get_baby_insights day_14 [scored 1 day_0 None (Some 0)] test_baby "all"
       = Ok (WithInsights "Baby Test" body) /\
     average (development body) = None) /\
  evaluates_to
    (calculate_developmental_score [smiles]
       (calculate_age_in_months (date_of_birth test_baby) test_day) test_baby) 0.
Proof.
  split; [|split].
  - eexists. split; reflexivity.
  - eexists. split; reflexivity.
  - reflexivity.
Qed.

End Aggregation.

Section RecordProcessor.

Variable json : JsonDecoder.

Lemma same_raw_inputs_refl (p : BabyProgress) : same_raw_inputs p p.
Proof. unfold same_raw_inputs. repeat split. Qed.

Lemma same_raw_inputs_trans (p q r : BabyProgress) :
  same_raw_inputs p q -> same_raw_inputs q r -> same_raw_inputs p r.
Proof.
  unfold same_raw_inputs. intros Hpq Hqr.
  repeat match goal with H : _ /\ _ |- _ => destruct H end.
  repeat split; congruence.
Qed.

Lemma frame_refl (p : BabyProgress) : frame false false false false p p.
Proof. unfold frame. repeat split. Qed.

Lemma frame_weaken (g s f d g' s' f' d' : bool) (p q : BabyProgress) :
  frame g s f d p q ->
  (g = true -> g' = true) -> (s = true -> s' = true) ->
  (f = true -> f' = true) -> (d = true -> d' = true) ->
  frame g' s' f' d' p q.
Proof.
  unfold frame. intros [Hraw [Hg [Hs [Hf Hd]]]] Ig Is If Id.
  split; [exact Hraw|].
  repeat split; intro E.
  - apply Hg. destruct g; [rewrite Ig in E by reflexivity; discriminate | reflexivity].
  - apply Hs. destruct s; [rewrite Is in E by reflexivity; discriminate | reflexivity].
  - apply Hf. destruct f; [rewrite If in E by reflexivity; discriminate | reflexivity].
  - apply Hd. destruct d; [rewrite Id in E by reflexivity; discriminate | reflexivity].
Qed.

Lemma frame_trans (g s f d g' s' f' d' : bool) (p q r : BabyProgress) :
  frame g s f d p q -> frame g' s' f' d' q r ->
  frame (g || g') (s || s') (f || f') (d || d') p r.
Proof.
  unfold frame. intros [Hraw [Hg [Hs [Hf Hd]]]] [Hraw' [Hg' [Hs' [Hf' Hd']]]].
  split; [eapply same_raw_inputs_trans; eassumption|].
  repeat split; intro E; apply orb_false_iff in E; destruct E as [E1 E2].
  - rewrite Hg', Hg by assumption. reflexivity.
  - rewrite Hs', Hs by assumption. reflexivity.
  - rewrite Hf', Hf by assumption. reflexivity.
  - rewrite Hd', Hd by assumption. reflexivity.
Qed.

Lemma growth_block_frame (baby : Baby) (p q : BabyProgress) :
  growth_block baby p = Ok q -> frame (has_measurement p) false false false p q.
Proof.
  unfold growth_block. fold (has_measurement p).
  destruct (has_measurement p).
  - destruct (calculate_growth_percentile _ _ _ _ _); [|discriminate].
    cbn [bind]. intro H. injection H as <-.
    unfold frame, same_raw_inputs. cbn. repeat split; discriminate.
  - intro H. injection H as <-.
    unfold frame, same_raw_inputs. repeat split.
Qed.

Lemma sleep_block_frame (now : datetime) (p q : BabyProgress) :
  sleep_block json now p = Ok q ->
  frame false (truthy_column (sleep_schedule p)) false false p q.
Proof.
  unfold sleep_block.
  destruct (sleep_schedule p) as [column|].
  - destruct (truthy_column (Some column)).
    + destruct (calculate_sleep_quality_index _ _); [|discriminate].
      cbn [bind]. intro H. injection H as <-.
      unfold frame, same_raw_inputs. cbn. repeat split; discriminate.
    + intro H. injection H as <-. unfold frame, same_raw_inputs. repeat split.
  - intro H. injection H as <-. unfold frame, same_raw_inputs. repeat split.
Qed.

Lemma feeding_block_frame (age : Z) (p q : BabyProgress) :
  feeding_block json age p = Ok q ->
  frame false false (truthy_column (feeding_times p)) false p q.
Proof.
  unfold feeding_block.
  destruct (feeding_times p) as [column|].
  - destruct (truthy_column (Some column)).
    + destruct (calculate_feeding_efficiency _ _); [|discriminate].
      cbn [bind]. intro H. injection H as <-.
      unfold frame, same_raw_inputs. cbn. repeat split; discriminate.
    + intro H. injection H as <-. unfold frame, same_raw_inputs. repeat split.
  - intro H. injection H as <-. unfold frame, same_raw_inputs. repeat split.
Qed.

Lemma developmental_block_frame (age : Z) (baby : Baby) (p q : BabyProgress) :
  developmental_block json age baby p = Ok q ->
  frame false false false (truthy_column (milestones p)) p q.
Proof.
  unfold developmental_block.
  destruct (milestones p) as [column|].
  - destruct (truthy_column (Some column)).
    + destruct (calculate_developmental_score _ _ _); [|discriminate].
      cbn [bind]. intro H. injection H as <-.
      unfold frame, same_raw_inputs. cbn. repeat split; discriminate.
    + intro H. injection H as <-. unfold frame, same_raw_inputs. repeat split.
  - intro H. injection H as <-. unfold frame, same_raw_inputs. repeat split.
Qed.

(** A block either leaves the object as it is or returns the new object. *)
Lemma and_then_obj (o : outcome) (block : BabyProgress -> result BabyProgress) :
  obj (and_then o block) = obj o \/ block (obj o) = Ok (obj (and_then o block)).
Proof.
  unfold and_then. destruct (raised o); [now left|].
  destruct (block (obj o)); [now right | now left].
Qed.

Lemma and_then_frame (g s f d : bool) (o : outcome)
  (block : BabyProgress -> result BabyProgress) :
  (forall q, block (obj o) = Ok q -> frame g s f d (obj o) q) ->
  frame g s f d (obj o) (obj (and_then o block)).
Proof.
  intro H. destruct (and_then_obj o block) as [-> | E].
  - eapply frame_weaken; [apply frame_refl | discriminate ..].
  - now apply H.
Qed.

(** The frame of the whole processor. *)
Lemma process_baby_progress_frame (now : datetime) (db : list Baby)
  (p : BabyProgress) (baby : option Baby) :
  frame (has_measurement p) (truthy_column (sleep_schedule p))
        (truthy_column (feeding_times p)) (truthy_column (milestones p))
        p (obj (process_baby_progress json now db p baby)).
Proof.
  unfold process_baby_progress.
  destruct (match baby with Some b => Some b | None => _ end) as [b|].
  2:{ cbn [obj]. eapply frame_weaken; [apply frame_refl | discriminate ..]. }
  cbv zeta.
  set (age := calculate_age_in_months (date_of_birth b) (record_date p)).
  set (o0 := {| obj := p; raised := None |}).
  set (o1 := and_then o0 (growth_block b)).
  set (o2 := and_then o1 (sleep_block json now)).
  set (o3 := and_then o2 (feeding_block json age)).
  assert (F1 : frame (has_measurement p) false false false p (obj o1)).
  { apply (@and_then_frame _ _ _ _ o0). intros q. apply growth_block_frame. }
  assert (F2 : frame false (truthy_column (sleep_schedule p)) false false
                     (obj o1) (obj o2)).
  { destruct F1 as [R1 _]. unfold same_raw_inputs in R1.
    replace (sleep_schedule p) with (sleep_schedule (obj o1)) by tauto.
    apply and_then_frame. intros q. apply sleep_block_frame. }
  pose proof (frame_trans F1 F2) as F12.
  assert (F3 : frame false false (truthy_column (feeding_times p)) false
                     (obj o2) (obj o3)).
  { destruct F12 as [R2 _]. unfold same_raw_inputs in R2.
    replace (feeding_times p) with (feeding_times (obj o2)) by tauto.
    apply and_then_frame. intros q. apply feeding_block_frame. }
  pose proof (frame_trans F12 F3) as F123.
  assert (F4 : frame false false false (truthy_column (milestones p))
                     (obj o3) (obj (and_then o3 (developmental_block json age b)))).
  { destruct F123 as [R3 _]. unfold same_raw_inputs in R3.
    replace (milestones p) with (milestones (obj o3)) by tauto.
    apply and_then_frame. intros q. apply developmental_block_frame. }
  pose proof (frame_trans F123 F4) as F.
  eapply frame_weaken; [exact F | ..];
    repeat rewrite orb_false_r; repeat rewrite orb_false_l; auto.
Qed.

End RecordProcessor.

Section RecordProcessorClaims.

(** C10.  Whatever the record and the baby, after the processor the record has
    the identities, the record date and every raw input it had before, and a
    derived field whose prerequisite is absent or empty (no measurement at all
    for the growth percentile, a falsy column for the other three) has exactly
    the value it had before. *)
Theorem process_baby_progress_changes_only_derived_fields :
  forall (json : JsonDecoder) (now : datetime) (db : list Baby)
         (progress : BabyProgress) (baby : option Baby),
    let after := obj (process_baby_progress json now db progress baby) in
    same_raw_inputs progress after /\
    (weight progress = None -> height progress = None ->
     head_circumference progress = None ->
     growth_percentile after = growth_percentile progress) /\
    (truthy_column (sleep_schedule progress) = false ->
     sleep_quality_index after = sleep_quality_index progress) /\
    (truthy_column (feeding_times progress) = false ->
     feeding_efficiency after = feeding_efficiency progress) /\
    (truthy_column (milestones progress) = false ->
     developmental_score after = developmental_score progress).
Proof.
  intros json now db progress baby after.
  destruct (process_baby_progress_frame json now db progress baby)
    as [Hraw [Hg [Hs [Hf Hd]]]].
  split; [exact Hraw|]. split; [|split; [exact Hs | split; [exact Hf | exact Hd]]].
  intros Hw Hh Hc. apply Hg. unfold has_measurement. now rewrite Hw, Hh, Hc.
Qed.

Lemma process_baby_progress_changes_only_derived_fields_witness :
  let after := obj (process_baby_progress no_text_columns (at_time test_day 12 0) []
                      milestones_only (Some test_baby)) in
  milestones after = milestones milestones_only /\
  growth_percentile after = None /\
  sleep_quality_index after = None /\
  feeding_efficiency after = None.
Proof.
  destruct (process_baby_progress_changes_only_derived_fields no_text_columns
              (at_time test_day 12 0) [] milestones_only (Some test_baby))
    as [Hraw [Hg [Hs [Hf _]]]].
  unfold same_raw_inputs in Hraw. cbv zeta.
  split; [tauto|]. split; [|split].
  - apply Hg; reflexivity.
  - apply Hs; reflexivity.
  - apply Hf; reflexivity.
Defined.

End RecordProcessorClaims.

Section Determinism.

Variable json : JsonDecoder.

#[local] Arguments calculate_growth_percentile : simpl never.
#[local] Arguments calculate_sleep_quality_index : simpl never.
#[local] Arguments calculate_feeding_efficiency : simpl never.
#[local] Arguments calculate_developmental_score : simpl never.
#[local] Arguments column_entries : simpl never.

(** ** The evaluation time is read only for open sleep sessions *)






(** ** A block run again on its own result changes nothing *)




Lemma set_developmental_score_same (p : BabyProgress) :
  set_developmental_score (developmental_score p) p = p.
Proof. now destruct p. Qed.









End Determinism.

Section Idempotence.

Variable json : JsonDecoder.




End Idempotence.

Section GuardClaims.

(** C7.  On an empty list each of the three session and milestone scorers
    returns the sentinel 50.0.  No division of theirs, and none of the
    aggregator's, raises: the three scorers return on every input and the
    aggregator on every non-empty record sequence; with no sleep at all
    (total sleep minutes not above zero) the night ratio is 0, and over zero
    elapsed days (or over a single record) no growth rate is computed. *)
Theorem empty_inputs_and_zero_divisors_are_guarded :
  (forall now, calculate_sleep_quality_index now [] = Ok 50.0) /\
  (forall age, calculate_feeding_efficiency [] age = Ok 50.0) /\
  (forall age baby, calculate_developmental_score [] age baby = Ok 50.0) /\
  (forall now schedule, exists v, calculate_sleep_quality_index now schedule = Ok v) /\
  (forall feeds age, exists v, calculate_feeding_efficiency feeds age = Ok v) /\
  (forall ms age baby, exists v, calculate_developmental_score ms age baby = Ok v) /\
  (forall night total, total <= 0 -> night_ratio night total = Ok 0) /\
  (forall today baby tf first rest,
     exists body, build_insights today baby tf first rest = Ok body /\
       ((days_between (record_date (last rest first)) (record_date first) <= 0)%Z
        \/ rest = [] ->
        weight_gain_per_week (growth body) = None /\
        height_gain_per_month (growth body) = None /\
        head_circumference_gain_per_month (growth body) = None)).
Proof.
  split; [reflexivity|]. split; [reflexivity|]. split; [reflexivity|].
  split; [|split; [|split; [|split]]].
  - intros now schedule.
    destruct (calculate_sleep_quality_index_total now schedule) as [v [E _]]. eauto.
  - intros feeds age.
    destruct (calculate_feeding_efficiency_total feeds age) as [v [E _]]. eauto.
  - intros ms age baby.
    destruct (calculate_developmental_score_total ms age baby) as [v [E _]]. eauto.
  - intros night total Htotal. unfold night_ratio.
    assert (E : Qltb 0 total = false) by now apply Qltb_false.
    now rewrite E.
  - intros today baby tf first rest.
    destruct (build_insights_returns today baby tf first rest)
      as [body [Hb [_ [_ [_ [_ [_ [_ [_ [Hw [Hh Hc]]]]]]]]]]].
    exists body. split; [exact Hb|]. intro Hzero.
    assert (E : rates_computed (first :: rest)
                  (days_between (record_date (last rest first)) (record_date first))
                = false).
    { unfold rates_computed. apply andb_false_iff.
      destruct Hzero as [Hdays | ->].
      - right. apply Z.ltb_ge. exact Hdays.
      - left. reflexivity. }
    rewrite E in Hw, Hh, Hc.
    injection Hw as <-. injection Hh as <-. injection Hc as <-. auto.
Qed.

Lemma empty_inputs_and_zero_divisors_are_guarded_witness :
  night_ratio 0 0 = Ok 0 /\
  evaluates_to (calculate_sleep_quality_index (at_time test_day 23 0) [no_sleep]) 30.
Proof.
  split.
  - apply (proj1 (proj2 (proj2 (proj2 (proj2 (proj2 (proj2
             empty_inputs_and_zero_divisors_are_guarded)))))) 0 0).
    unfold Qle. simpl. lia.
  - reflexivity.
Defined.

End GuardClaims.

(* ------------------------------------------------------------------------- *)
(** * Further properties of the percentile interpolator *)

Section InterpolatorBehaviour.

Lemma ratio_in_bracket (lo hi v : Q) :
  lo <= v -> v < hi -> 0 <= (v - lo) / (hi - lo) /\ (v - lo) / (hi - lo) < 1.
Proof.
  intros Hlo Hhi. split.
  - apply Qle_shift_div_l; lra.
  - apply Qlt_shift_div_r; lra.
Qed.

Lemma ratio_below_first (s0 v : Q) :
  0 < s0 -> v <= s0 -> v / s0 <= 1 /\ (0 <= v -> 0 <= v / s0) /\ (v < 0 -> v / s0 < 0).
Proof.
  intros Hs Hv. repeat split.
  - apply Qle_shift_div_r; lra.
  - intro H. apply Qle_shift_div_l; lra.
  - intro H. apply Qlt_shift_div_r; lra.
Qed.

(** What the interpolator computes on five anchors, branch by branch. *)
Lemma interpolate_percentile_branches (v s0 s1 s2 s3 s4 : Q) :
  ~ (s0 == 0 /\ v <= 0) ->
  exists p, interpolate_percentile v [s0; s1; s2; s3; s4] PERCENTILES = Ok p /\
    ((v <= s0 /\ p = 3 * (v / s0)) \/
     (s0 < v /\ s4 <= v /\ p = 97) \/
     (s0 < v /\ v < s4 /\ s0 <= v /\ v < s1 /\ p = 3 + (v - s0) / (s1 - s0) * (15 - 3)) \/
     (s0 < v /\ v < s4 /\ s1 <= v /\ v < s2 /\ p = 15 + (v - s1) / (s2 - s1) * (50 - 15)) \/
     (s0 < v /\ v < s4 /\ s2 <= v /\ v < s3 /\ p = 50 + (v - s2) / (s3 - s2) * (85 - 50)) \/
     (s0 < v /\ v < s4 /\ s3 <= v /\ v < s4 /\ p = 85 + (v - s3) / (s4 - s3) * (97 - 85)) \/
     (s0 < v /\ v < s4 /\ p = 97 /\
      ~ (s0 <= v /\ v < s1) /\ ~ (s1 <= v /\ v < s2) /\
      ~ (s2 <= v /\ v < s3) /\ ~ (s3 <= v /\ v < s4))).
Proof.
  intro Hdiv. unfold interpolate_percentile.
  cbn [item nth_error of_option bind PERCENTILES].
  destruct (Qleb v s0) eqn:E0; reflect_cmp.
  - rewrite py_div_ok.
    + cbn [bind]. eexists. split; [reflexivity|]. left. split; [assumption|reflexivity].
    + intro Hz. apply Hdiv. split; [assumption|]. lra.
  - cbn [item_last last bind].
    destruct (Qleb s4 v) eqn:E4; reflect_cmp.
    + eexists. split; [reflexivity|]. right. left. repeat split; assumption.
    + cbn [List.length Nat.sub interpolate_scan item nth_error of_option bind].
      destruct (Qleb s0 v && Qltb v s1) eqn:B0.
      { apply andb_true_iff in B0. destruct B0. reflect_cmp.
        rewrite py_div_ok by lra. cbn [bind].
        eexists. split; [reflexivity|]. do 2 right. left. repeat split; assumption. }
      cbn [interpolate_scan item nth_error of_option bind].
      destruct (Qleb s1 v && Qltb v s2) eqn:B1.
      { apply andb_true_iff in B1. destruct B1. reflect_cmp.
        rewrite py_div_ok by lra. cbn [bind].
        eexists. split; [reflexivity|]. do 3 right. left. repeat split; assumption. }
      cbn [interpolate_scan item nth_error of_option bind].
      destruct (Qleb s2 v && Qltb v s3) eqn:B2.
      { apply andb_true_iff in B2. destruct B2. reflect_cmp.
        rewrite py_div_ok by lra. cbn [bind].
        eexists. split; [reflexivity|]. do 4 right. left. repeat split; assumption. }
      cbn [interpolate_scan item nth_error of_option bind].
      destruct (Qleb s3 v && Qltb v s4) eqn:B3.
      { apply andb_true_iff in B3. destruct B3. reflect_cmp.
        rewrite py_div_ok by lra. cbn [bind].
        eexists. split; [reflexivity|]. do 5 right. left. repeat split; assumption. }
      cbn [interpolate_scan item_last last].
      eexists. split; [reflexivity|]. do 6 right.
      split; [assumption|]. split; [assumption|]. split; [reflexivity|].
      repeat split; intros [Ha Hb];
        apply Qleb_true in Ha; apply Qltb_true in Hb;
        match goal with
        | B : Qleb ?a v && Qltb v ?b = false |- _ =>
            match type of Ha with Qleb a v = true =>
              rewrite Ha, Hb in B; discriminate B end
        end.
Qed.

(** The percentile of a non-negative value lies in [0, 97], whatever the order
    of the anchors, as long as the first anchor is positive. *)
Lemma interpolate_percentile_bounds (v s0 s1 s2 s3 s4 : Q) :
  0 < s0 -> 0 <= v ->
  exists p, interpolate_percentile v [s0; s1; s2; s3; s4] PERCENTILES = Ok p /\
            0 <= p <= 97.
Proof.
  intros Hs Hv.
  destruct (@interpolate_percentile_branches v s0 s1 s2 s3 s4) as [p [Hp Hcases]].
  { intros [Hz _]. lra. }
  exists p. split; [exact Hp|].
  destruct Hcases as [[H ->] | [[_ [_ ->]] | [[_ [_ [Hlo [Hhi ->]]]]
    | [[_ [_ [Hlo [Hhi ->]]]] | [[_ [_ [Hlo [Hhi ->]]]]
    | [[_ [_ [Hlo [Hhi ->]]]] | [_ [_ [-> _]]]]]]]]].
  - destruct (ratio_below_first Hs H) as [H1 [H0 _]]. specialize (H0 Hv).
    set (r := v / s0) in *. lra.
  - lra.
  - destruct (ratio_in_bracket Hlo Hhi) as [H0 H1].
    set (r := (v - s0) / (s1 - s0)) in *. lra.
  - destruct (ratio_in_bracket Hlo Hhi) as [H0 H1].
    set (r := (v - s1) / (s2 - s1)) in *. lra.
  - destruct (ratio_in_bracket Hlo Hhi) as [H0 H1].
    set (r := (v - s2) / (s3 - s2)) in *. lra.
  - destruct (ratio_in_bracket Hlo Hhi) as [H0 H1].
    set (r := (v - s3) / (s4 - s3)) in *. lra.
  - lra.
Qed.

Lemma ratio_monotone (lo hi v1 v2 : Q) :
  lo < hi -> v1 <= v2 -> (v1 - lo) / (hi - lo) <= (v2 - lo) / (hi - lo).
Proof.
  intros Hd Hv. unfold Qdiv. apply Qmult_le_compat_r; [lra|].
  apply Qlt_le_weak. apply Qinv_lt_0_compat. lra.
Qed.

Lemma quotient_monotone (s0 v1 v2 : Q) :
  0 < s0 -> v1 <= v2 -> v1 / s0 <= v2 / s0.
Proof.
  intros Hd Hv. unfold Qdiv. apply Qmult_le_compat_r; [lra|].
  apply Qlt_le_weak. now apply Qinv_lt_0_compat.
Qed.

(** Name every quotient of the context and of the goal, for [lra]. *)
Ltac name_quotients :=
  repeat match goal with
  | |- context [Qdiv ?a ?b] =>
      let r := fresh "r" in set (r := Qdiv a b) in *; clearbody r
  | H : context [Qdiv ?a ?b] |- _ =>
      let r := fresh "r" in set (r := Qdiv a b) in *; clearbody r
  end.

Lemma last_cons_default {A : Type} (x : A) (xs : list A) (d : A) :
  last (x :: xs) d = last xs x.
Proof.
  revert x d. induction xs as [|y ys IH]; intros x d; [reflexivity|].
  change (last (x :: y :: ys) d) with (last (y :: ys) d).
  rewrite (IH y d). symmetry. apply (IH y x).
Qed.

(** X1.  A value at or above the last anchor (and above the first) gets the
    top rung 97 exactly: there is no extrapolation beyond it. *)
Theorem interpolate_percentile_clamps_at_top :
  forall (v : Q) (standards : list Q),
    standards <> [] ->
    hd 0 standards < v ->
    last standards 0 <= v ->
    interpolate_percentile v standards PERCENTILES = Ok 97.
Proof.
  intros v standards Hne Hfirst Htop.
  destruct standards as [|s0 rest]; [congruence|].
  unfold interpolate_percentile. cbn [item nth_error of_option bind].
  simpl in Hfirst.
  assert (E0 : Qleb v s0 = false) by now apply Qleb_false.
  rewrite E0. cbn [item_last bind].
  rewrite last_cons_default in Htop.
  assert (E4 : Qleb (last rest s0) v = true) by now apply Qleb_true.
  rewrite E4. reflexivity.
Qed.

Lemma interpolate_percentile_clamps_at_top_witness :
  interpolate_percentile 9.1 [4.3; 4.9; 5.6; 6.3; 6.8] PERCENTILES = Ok 97.
Proof.
  apply interpolate_percentile_clamps_at_top.
  - discriminate.
  - reflexivity.
  - simpl. unfold Qle. simpl. lia.
Defined.

(** X2.  With a positive first anchor, every non-negative value gets a
    percentile in [0, 97], whether the five anchors are ordered or not. *)
Theorem interpolate_percentile_in_range :
  forall (v : Q) (standards : list Q),
    List.length standards = 5%nat ->
    0 < hd 0 standards ->
    0 <= v ->
    exists p, interpolate_percentile v standards PERCENTILES = Ok p /\ 0 <= p <= 97.
Proof.
  intros v standards Hlen Hs Hv.
  destruct standards as [|s0 [|s1 [|s2 [|s3 [|s4 [|]]]]]]; try discriminate Hlen.
  now apply interpolate_percentile_bounds.
Qed.

Lemma interpolate_percentile_in_range_witness :
  exists p, interpolate_percentile 5.2 [3.9; 4.5; 5.1; 5.8; 6.2] PERCENTILES = Ok p /\
            0 <= p <= 97.
Proof.
  apply interpolate_percentile_in_range.
  - reflexivity.
  - reflexivity.
  - unfold Qle. simpl. lia.
Defined.

(** X3.  At or below a positive first anchor the percentile is the lowest rung
    scaled by value / anchor: exactly 3 at the anchor, 0 at 0, and negative for
    a negative value; nothing clamps it at 0. *)
Theorem interpolate_percentile_below_first_anchor :
  forall (v : Q) (standards : list Q),
    standards <> [] ->
    0 < hd 0 standards ->
    v <= hd 0 standards ->
    exists p, interpolate_percentile v standards PERCENTILES = Ok p /\
      p == 3 * v / hd 0 standards /\
      (v == hd 0 standards -> p == 3) /\
      (v == 0 -> p == 0) /\
      (v < 0 -> p < 0).
Proof.
  intros v standards Hne Hs Hv.
  destruct standards as [|s0 rest]; [congruence|]. simpl in Hs, Hv. simpl hd.
  unfold interpolate_percentile. cbn [item nth_error of_option bind PERCENTILES].
  assert (E0 : Qleb v s0 = true) by now apply Qleb_true.
  rewrite E0. rewrite py_div_ok by lra. cbn [bind].
  eexists. split; [reflexivity|].
  destruct (ratio_below_first Hs Hv) as [_ [_ Hneg]].
  split; [|split; [|split]].
  - field. lra.
  - intro E. rewrite E. field. lra.
  - intro E. rewrite E. field. lra.
  - intro Hlt. specialize (Hneg Hlt). name_quotients. lra.
Qed.

Lemma interpolate_percentile_below_first_anchor_witness :
  exists p, interpolate_percentile (-1) [4.3; 4.9; 5.6; 6.3; 6.8] PERCENTILES = Ok p /\
            p < 0.
Proof.
  destruct (@interpolate_percentile_below_first_anchor (-1) [4.3; 4.9; 5.6; 6.3; 6.8])
    as [p [Hp [_ [_ [_ Hneg]]]]].
  - discriminate.
  - reflexivity.
  - unfold Qle. simpl. lia.
  - exists p. split; [exact Hp|]. apply Hneg. reflexivity.
Defined.

(** X4.  The errors of the interpolator: an empty anchor sequence raises
    [IndexError]; on five anchors it raises [ZeroDivisionError] when the first
    anchor is zero and the value is not positive, and returns a percentile in
    every other case. *)
Theorem interpolate_percentile_errors :
  (forall v percentiles, interpolate_percentile v [] percentiles = Raise IndexError) /\
  (forall v standards,
     List.length standards = 5%nat ->
     (hd 0 standards == 0 /\ v <= 0 ->
      interpolate_percentile v standards PERCENTILES = Raise ZeroDivisionError) /\
     (~ (hd 0 standards == 0 /\ v <= 0) ->
      exists p, interpolate_percentile v standards PERCENTILES = Ok p)).
Proof.
  split; [reflexivity|].
  intros v standards Hlen.
  destruct standards as [|s0 [|s1 [|s2 [|s3 [|s4 [|]]]]]]; try discriminate Hlen.
  simpl hd. split.
  - intros [Hz Hv]. unfold interpolate_percentile.
    cbn [item nth_error of_option bind PERCENTILES].
    assert (E0 : Qleb v s0 = true) by (apply Qleb_true; lra).
    rewrite E0. unfold py_div.
    assert (Ez : Qeqb s0 0 = true) by now apply Qeqb_true.
    now rewrite Ez.
  - intro Hn.
    destruct (@interpolate_percentile_branches v s0 s1 s2 s3 s4 Hn) as [p [Hp _]].
    eauto.
Qed.

Lemma interpolate_percentile_errors_witness :
  interpolate_percentile 0 [0; 1; 2; 3; 4] PERCENTILES = Raise ZeroDivisionError.
Proof.
  apply (proj2 interpolate_percentile_errors 0 [0; 1; 2; 3; 4] eq_refl).
  split; [reflexivity | unfold Qle; simpl; lia].
Defined.

(** X5.  Over strictly increasing anchors with a positive first anchor the
    interpolator is monotone: a larger value never gets a smaller percentile. *)
Theorem interpolate_percentile_monotone :
  forall (v1 v2 : Q) (standards : list Q),
    List.length standards = 5%nat ->
    strictly_increasing standards = true ->
    0 < hd 0 standards ->
    v1 <= v2 ->
    exists p1 p2,
      interpolate_percentile v1 standards PERCENTILES = Ok p1 /\
      interpolate_percentile v2 standards PERCENTILES = Ok p2 /\
      p1 <= p2.
Proof.
  intros v1 v2 standards Hlen Hinc Hs Hv.
  destruct standards as [|s0 [|s1 [|s2 [|s3 [|s4 [|]]]]]]; try discriminate Hlen.
  simpl in Hinc, Hs.
  apply andb_true_iff in Hinc; destruct Hinc as [I0 Hinc].
  apply andb_true_iff in Hinc; destruct Hinc as [I1 Hinc].
  apply andb_true_iff in Hinc; destruct Hinc as [I2 Hinc].
  apply andb_true_iff in Hinc; destruct Hinc as [I3 _].
  reflect_cmp.
  destruct (@interpolate_percentile_branches v1 s0 s1 s2 s3 s4) as [p1 [Hp1 C1]];
    [intros [Hz _]; lra|].
  destruct (@interpolate_percentile_branches v2 s0 s1 s2 s3 s4) as [p2 [Hp2 C2]];
    [intros [Hz _]; lra|].
  exists p1, p2. split; [exact Hp1|]. split; [exact Hp2|]. clear Hp1 Hp2.
  pose proof (@quotient_monotone s0 v1 v2 Hs Hv) as M0.
  pose proof (@ratio_monotone s0 s1 v1 v2 I0 Hv) as M1.
  pose proof (@ratio_monotone s1 s2 v1 v2 I1 Hv) as M2.
  pose proof (@ratio_monotone s2 s3 v1 v2 I2 Hv) as M3.
  pose proof (@ratio_monotone s3 s4 v1 v2 I3 Hv) as M4.
  destruct C1 as
    [[A ->] | [[A [A' ->]] | [[A0 [A4 [A [A' ->]]]] | [[A0 [A4 [A [A' ->]]]] | [[A0 [A4 [A [A' ->]]]] | [[A0 [A4 [A [A' ->]]]] | [A [A' [-> [N0 [N1 [N2 N3]]]]]]]]]]]];
  destruct C2 as
    [[B ->] | [[B [B' ->]] | [[B0 [B4 [B [B' ->]]]] | [[B0 [B4 [B [B' ->]]]] | [[B0 [B4 [B [B' ->]]]] | [[B0 [B4 [B [B' ->]]]] | [B [B' [-> [K0 [K1 [K2 K3]]]]]]]]]]]];
  try (pose proof (@ratio_below_first s0 v1 Hs A) as [? _]);
  try (pose proof (@ratio_below_first s0 v2 Hs B) as [? _]);
  try (pose proof (@ratio_in_bracket _ _ _ A A') as [? ?]);
  try (pose proof (@ratio_in_bracket _ _ _ B B') as [? ?]);
  try (exfalso; lra);
  try (name_quotients; lra).
  all: exfalso.
  all: try (destruct (Qlt_le_dec v1 s1); [apply N0; split; lra|];
            destruct (Qlt_le_dec v1 s2); [apply N1; split; lra|];
            destruct (Qlt_le_dec v1 s3); [apply N2; split; lra|];
            apply N3; split; lra).
  all: try (destruct (Qlt_le_dec v2 s1); [apply K0; split; lra|];
            destruct (Qlt_le_dec v2 s2); [apply K1; split; lra|];
            destruct (Qlt_le_dec v2 s3); [apply K2; split; lra|];
            apply K3; split; lra).
Qed.

Lemma interpolate_percentile_monotone_witness :
  exists p1 p2,
    interpolate_percentile 5.0 [4.3; 4.9; 5.6; 6.3; 6.8] PERCENTILES = Ok p1 /\
    interpolate_percentile 5.7 [4.3; 4.9; 5.6; 6.3; 6.8] PERCENTILES = Ok p2 /\
    p1 <= p2.
Proof.
  apply interpolate_percentile_monotone.
  - reflexivity.
  - reflexivity.
  - reflexivity.
  - unfold Qle. simpl. lia.
Defined.

End InterpolatorBehaviour.

(* ------------------------------------------------------------------------- *)
(** * Further properties of the age computation and of the growth scorer *)

Section AgeBehaviour.

Lemma calculate_age_in_months_spec (birth ref : date) :
  calculate_age_in_months birth ref
  = Z.max 0 ((year ref - year birth) * 12 + (month ref - month birth)
             - (if (day ref <? day birth)%Z then 1 else 0))%Z.
Proof.
  unfold calculate_age_in_months. destruct (day ref <? day birth)%Z; f_equal; lia.
Qed.

(** X6.  The age in months is never negative, it is 0 on every reference date
    up to the birth date, and it never decreases when the reference date moves
    forward. *)
Theorem calculate_age_in_months_monotone :
  forall (birth ref1 ref2 : date),
    valid_month birth -> valid_month ref1 -> valid_month ref2 ->
    date_le ref1 ref2 ->
    (0 <= calculate_age_in_months birth ref1
       <= calculate_age_in_months birth ref2)%Z /\
    (date_le ref2 birth -> calculate_age_in_months birth ref2 = 0%Z).
Proof.
  intros birth ref1 ref2 Hb H1 H2 Hle.
  unfold valid_month in *. unfold date_le in *.
  rewrite !calculate_age_in_months_spec.
  split.
  - destruct (Z.ltb_spec (day ref1) (day birth));
      destruct (Z.ltb_spec (day ref2) (day birth)); lia.
  - intro Hbefore.
    destruct (Z.ltb_spec (day ref2) (day birth)); lia.
Qed.

Lemma calculate_age_in_months_monotone_witness :
  (0 <= calculate_age_in_months (mkDate 2024 1 31) (mkDate 2024 2 29)
     <= calculate_age_in_months (mkDate 2024 1 31) (mkDate 2024 3 1))%Z.
Proof.
  apply (@calculate_age_in_months_monotone
           (mkDate 2024 1 31) (mkDate 2024 2 29) (mkDate 2024 3 1)).
  - unfold valid_month; simpl; lia.
  - unfold valid_month; simpl; lia.
  - unfold valid_month; simpl; lia.
  - unfold date_le; simpl; lia.
Defined.

End AgeBehaviour.

Section GrowthBehaviour.

#[local] Arguments interpolate_percentile : simpl never.
#[local] Arguments py_sum : simpl never.

(** The month [min] picks among the months 0 to 3 of the weight table. *)
Lemma closest_month_of_age (age : Z) :
  (0 <= age)%Z ->
  min_by (fun m => Z.abs (m - age)) [0; 1; 2; 3]%Z = Ok (Z.min age 3).
Proof.
  intro Hage.
  assert (Hcases : age = 0%Z \/ age = 1%Z \/ age = 2%Z \/ (3 <= age)%Z) by lia.
  destruct Hcases as [-> | [-> | [-> | Hbig]]]; try reflexivity.
  unfold min_by, min_by_from.
  assert (E1 : (Z.abs (1 - age) <? Z.abs (0 - age))%Z = true) by (apply Z.ltb_lt; lia).
  rewrite E1.
  assert (E2 : (Z.abs (2 - age) <? Z.abs (1 - age))%Z = true) by (apply Z.ltb_lt; lia).
  rewrite E2.
  assert (E3 : (Z.abs (3 - age) <? Z.abs (2 - age))%Z = true) by (apply Z.ltb_lt; lia).
  rewrite E3. f_equal. lia.
Qed.

Lemma calculate_age_in_months_nonneg (birth ref : date) :
  (0 <= calculate_age_in_months birth ref)%Z.
Proof. unfold calculate_age_in_months. lia. Qed.

(** The two genders the tables know have the same months in the weight table. *)
Lemma weight_table_months (g : string) :
  g = "male" \/ g = "female" ->
  exists by_month,
    dict_item String.eqb WHO_WEIGHT_FOR_AGE g = Ok by_month /\
    dict_keys by_month = [0; 1; 2; 3]%Z.
Proof.
  intros [-> | ->]; eexists; split; reflexivity.
Qed.

Lemma unknown_gender_key_error (g : string) :
  g <> "male" -> g <> "female" ->
  dict_item String.eqb WHO_WEIGHT_FOR_AGE g = Raise KeyError.
Proof.
  intros Hm Hf. unfold dict_item, WHO_WEIGHT_FOR_AGE. cbn [dict_get].
  assert (Em : String.eqb "male" g = false) by (apply String.eqb_neq; congruence).
  assert (Ef : String.eqb "female" g = false) by (apply String.eqb_neq; congruence).
  now rewrite Em, Ef.
Qed.

(** Every row of the three tables has five anchors, the first one positive. *)
Lemma table_row_returns (table : growth_table) (g : string) (m : Z)
  (row : list Q) (v : Q) :
  table = WHO_WEIGHT_FOR_AGE \/ table = WHO_HEIGHT_FOR_AGE
    \/ table = WHO_HEAD_CIRCUMFERENCE_FOR_AGE ->
  standards_for table g m = Ok row ->
  exists s0 s1 s2 s3 s4, row = [s0; s1; s2; s3; s4] /\ 0 < s0.
Proof.
  intros Htable Hrow. unfold standards_for, dict_item in Hrow.
  destruct Htable as [-> | [-> | ->]]; cbn [dict_get WHO_WEIGHT_FOR_AGE
    WHO_HEIGHT_FOR_AGE WHO_HEAD_CIRCUMFERENCE_FOR_AGE] in Hrow;
  repeat match type of Hrow with
  | context [if ?c then _ else _] => destruct c; cbn [of_option bind dict_get] in Hrow
  end;
  try discriminate Hrow; injection Hrow as <-;
  do 5 eexists; (split; [reflexivity | reflexivity]).
Qed.

Lemma standards_for_raises_only_key_error (table : growth_table) (g : string)
  (m : Z) (e : exn) :
  standards_for table g m = Raise e -> e = KeyError.
Proof.
  unfold standards_for, dict_item.
  destruct (dict_get String.eqb table g) as [by_month|]; cbn [of_option bind].
  - destruct (dict_get Z.eqb by_month m); cbn [of_option]; congruence.
  - congruence.
Qed.

(** Which rows exist for a gender the tables know and a month from 0 to 3. *)
Lemma standards_for_defined (g : string) (m : Z) :
  g = "male" \/ g = "female" -> (0 <= m <= 3)%Z ->
  (exists row, standards_for WHO_WEIGHT_FOR_AGE g m = Ok row) /\
  ((m <= 1)%Z -> exists row, standards_for WHO_HEIGHT_FOR_AGE g m = Ok row) /\
  ((2 <= m)%Z -> standards_for WHO_HEIGHT_FOR_AGE g m = Raise KeyError) /\
  (m = 0%Z -> exists row, standards_for WHO_HEAD_CIRCUMFERENCE_FOR_AGE g m = Ok row) /\
  ((1 <= m)%Z -> standards_for WHO_HEAD_CIRCUMFERENCE_FOR_AGE g m = Raise KeyError).
Proof.
  intros Hg Hm.
  assert (Hcases : m = 0%Z \/ m = 1%Z \/ m = 2%Z \/ m = 3%Z) by lia.
  destruct Hg as [-> | ->]; destruct Hcases as [-> | [-> | [-> | ->]]];
    repeat split; intros; try lia; try reflexivity; eexists; reflexivity.
Qed.

Lemma add_percentile_outcome (table : growth_table) (g : string) (m : Z)
  (key : string) (measurement : option Q) (r : list (string * Q)) :
  table = WHO_WEIGHT_FOR_AGE \/ table = WHO_HEIGHT_FOR_AGE
    \/ table = WHO_HEAD_CIRCUMFERENCE_FOR_AGE ->
  key <> "overall_percentile" ->
  match measurement with
  | None => add_percentile table g m key measurement r = Ok r
  | Some v =>
      match standards_for table g m with
      | Raise _ => add_percentile table g m key measurement r = Raise KeyError
      | Ok row =>
          exists p, add_percentile table g m key measurement r = Ok (r ++ [(key, p)]) /\
                    interpolate_percentile v row PERCENTILES = Ok p /\
                    (no_overall_key r -> no_overall_key (r ++ [(key, p)])) /\
                    (0 <= v -> values_in_range r -> values_in_range (r ++ [(key, p)]))
      end
  end.
Proof.
  intros Htable Hkey. destruct measurement as [v|]; [|reflexivity].
  unfold add_percentile.
  destruct (standards_for table g m) as [row|e] eqn:Erow; cbn [bind].
  - destruct (table_row_returns g m v Htable Erow) as [s0 [s1 [s2 [s3 [s4 [-> Hs]]]]]].
    destruct (@interpolate_percentile_branches v s0 s1 s2 s3 s4) as [p [Hp _]];
      [intros [Hz _]; lra|].
    rewrite Hp. cbn [bind]. exists p. split; [reflexivity|]. split; [reflexivity|].
    split.
    + intro Hr. apply Forall_app. split; [exact Hr|].
      constructor; [exact Hkey | constructor].
    + intros Hv Hr. apply Forall_app. split; [exact Hr|].
      constructor; [|constructor].
      destruct (interpolate_percentile_bounds s1 s2 s3 s4 Hs Hv) as [p' [Hp' Hb]].
      rewrite Hp in Hp'. injection Hp' as <-. exact Hb.
  - now rewrite (standards_for_raises_only_key_error _ _ _ Erow).
Qed.

Lemma py_sum_from_bounds (lo hi : Q) (xs : list Q) :
  Forall (fun x => lo <= x <= hi) xs ->
  forall acc,
    acc + lo * len xs <= fold_left Qplus xs acc /\
    fold_left Qplus xs acc <= acc + hi * len xs.
Proof.
  induction 1 as [|x xs Hx _ IH]; intro acc.
  - unfold len. simpl. split; ring_simplify; lra.
  - cbn [fold_left]. destruct (IH (acc + x)) as [IH1 IH2].
    assert (E : len (x :: xs) == 1 + len xs).
    { unfold len. cbn [List.length]. rewrite Nat2Z.inj_succ.
      unfold Z.succ. rewrite inject_Z_plus. ring. }
    rewrite E. split.
    + eapply Qle_trans; [|exact IH1]. ring_simplify. lra.
    + eapply Qle_trans; [exact IH2|]. ring_simplify. lra.
Qed.

(** The mean of a non-empty list lies between the bounds of its elements. *)
Lemma mean_bounds (lo hi : Q) (xs : list Q) :
  truthy_list xs = true ->
  Forall (fun x => lo <= x <= hi) xs ->
  lo <= py_sum xs / len xs <= hi.
Proof.
  intros Hne Hall. unfold py_sum.
  destruct (py_sum_from_bounds Hall 0) as [H1 H2].
  assert (Hlen : 0 < len xs).
  { destruct xs; [discriminate|]. unfold len, Qlt. simpl. lia. }
  split.
  - apply Qle_shift_div_l; [exact Hlen | lra].
  - apply Qle_shift_div_r; [exact Hlen | lra].
Qed.

Lemma dict_get_app_last (r : list (string * Q)) (k : string) (v : Q) :
  Forall (fun kv => fst kv <> k) r ->
  dict_get String.eqb (r ++ [(k, v)]) k = Some v.
Proof.
  induction 1 as [|[k' v'] r Hk _ IH]; cbn [app dict_get].
  - now rewrite String.eqb_refl.
  - simpl in Hk. apply String.eqb_neq in Hk. now rewrite Hk.
Qed.

(** The last step of the growth scorer. *)
Lemma overall_percentile_outcome (r : list (string * Q)) :
  no_overall_key r ->
  exists o,
    (overall <- (if truthy_list r
                 then py_div (py_sum (dict_values r)) (len r) else Ok 50) ;;
     Ok (r ++ [("overall_percentile", overall)]))
    = Ok (r ++ [("overall_percentile", o)]) /\
    dict_get String.eqb (r ++ [("overall_percentile", o)]) "overall_percentile" = Some o /\
    (values_in_range r -> 0 <= o <= 97) /\
    (forall k p, r = [(k, p)] -> o == p) /\
    (r = [] -> o = 50).
Proof.
  intro Hkeys.
  destruct (truthy_list r) eqn:Hne.
  - rewrite py_div_ok by now apply len_pos_nonzero. cbn [bind].
    eexists. split; [reflexivity|].
    split; [now apply dict_get_app_last|]. split; [|split].
    + intro Hr.
      assert (Hvals : Forall (fun x => 0 <= x <= 97) (dict_values r)).
      { unfold dict_values. apply Forall_map. exact Hr. }
      assert (Hlen : len r = len (dict_values r)).
      { unfold len, dict_values. now rewrite length_map. }
      rewrite Hlen. apply mean_bounds; [|exact Hvals].
      destruct r; [discriminate | reflexivity].
    + intros k p ->. unfold py_sum, dict_values, len. cbn. field.
    + intros ->. discriminate Hne.
  - cbn [bind]. exists 50. split; [reflexivity|].
    split; [now apply dict_get_app_last|]. split; [lra|]. split.
    + intros k p ->. discriminate Hne.
    + reflexivity.
Qed.

(** The growth scorer on a gender the tables know: the closest month is the age
    capped at 3, and the three measurements are placed in turn. *)
Lemma calculate_growth_percentile_recognized (baby : Baby)
  (w h hc : option Q) (d : date) :
  recognized_gender baby ->
  let g := resolve_gender baby in
  let m := Z.min (calculate_age_in_months (date_of_birth baby) d) 3 in
  calculate_growth_percentile baby w h hc d
  = (r1 <- add_percentile WHO_WEIGHT_FOR_AGE g m "weight_percentile" w [] ;;
     r2 <- add_percentile WHO_HEIGHT_FOR_AGE g m "height_percentile" h r1 ;;
     r3 <- add_percentile WHO_HEAD_CIRCUMFERENCE_FOR_AGE g m "head_percentile" hc r2 ;;
     overall <- (if truthy_list r3
                 then py_div (py_sum (dict_values r3)) (len r3) else Ok 50) ;;
     Ok (r3 ++ [("overall_percentile", overall)])).
Proof.
  intros Hg. cbv zeta. unfold calculate_growth_percentile. cbv zeta.
  destruct (weight_table_months Hg) as [by_month [-> Hkeys]].
  cbn [bind]. rewrite Hkeys.
  rewrite closest_month_of_age by apply calculate_age_in_months_nonneg.
  reflexivity.
Qed.

(** The whole outcome of the growth scorer on a gender the tables know. *)
Lemma calculate_growth_percentile_outcome (baby : Baby)
  (w h hc : option Q) (d : date) :
  recognized_gender baby ->
  let age := calculate_age_in_months (date_of_birth baby) d in
  ((h = None \/ (age <= 1)%Z) /\ (hc = None \/ age = 0%Z) ->
   exists r o,
     calculate_growth_percentile baby w h hc d = Ok (r ++ [("overall_percentile", o)]) /\
     dict_get String.eqb (r ++ [("overall_percentile", o)]) "overall_percentile" = Some o /\
     (absent_or_non_negative w -> absent_or_non_negative h ->
      absent_or_non_negative hc -> 0 <= o <= 97) /\
     (h = None -> hc = None ->
      match w with
      | Some _ => exists p, r = [("weight_percentile", p)] /\ o == p
      | None => r = [] /\ o = 50
      end)) /\
  (~ ((h = None \/ (age <= 1)%Z) /\ (hc = None \/ age = 0%Z)) ->
   calculate_growth_percentile baby w h hc d = Raise KeyError).
Proof.
  intros Hg age.
  rewrite (calculate_growth_percentile_recognized w h hc d Hg). cbv zeta.
  fold age.
  pose proof (calculate_age_in_months_nonneg (date_of_birth baby) d) as Hage.
  fold age in Hage.
  set (m := Z.min age 3).
  assert (Hm : (0 <= m <= 3)%Z) by (unfold m; lia).
  destruct (standards_for_defined Hg Hm) as [[wrow Hw] [Hh1 [Hh2 [Hc1 Hc2]]]].
  (* weight *)
  pose proof (@add_percentile_outcome WHO_WEIGHT_FOR_AGE (resolve_gender baby) m
                "weight_percentile" w [] (or_introl eq_refl)) as Sw.
  rewrite Hw in Sw.
  assert (exists r1,
            add_percentile WHO_WEIGHT_FOR_AGE (resolve_gender baby) m
              "weight_percentile" w [] = Ok r1 /\
            no_overall_key r1 /\
            (absent_or_non_negative w -> values_in_range r1) /\
            match w with
            | Some _ => exists p, r1 = [("weight_percentile", p)]
            | None => r1 = []
            end) as [r1 [E1 [K1 [V1 Shape1]]]].
  { destruct w as [wv|].
    - destruct Sw as [p [Ep [_ [Kp Vp]]]]; [discriminate|].
      exists [("weight_percentile", p)]. split; [exact Ep|].
      split; [apply Kp; constructor|]. split; [|eauto].
      intro Hv. apply Vp; [exact Hv | constructor].
    - exists []. split; [apply Sw; discriminate|].
      split; [constructor|]. split; [intros _; constructor | reflexivity]. }
  rewrite E1. cbn [bind].
  (* height *)
  pose proof (@add_percentile_outcome WHO_HEIGHT_FOR_AGE (resolve_gender baby) m
                "height_percentile" h r1 (or_intror (or_introl eq_refl))) as Sh.
  (* head circumference *)
  assert (Shc : forall r2, _) by
    (intro r2; exact (@add_percentile_outcome WHO_HEAD_CIRCUMFERENCE_FOR_AGE
                        (resolve_gender baby) m "head_percentile" hc r2
                        (or_intror (or_intror eq_refl)))).
  split.
  - intros [Hhok Hcok].
    assert (exists r2,
              add_percentile WHO_HEIGHT_FOR_AGE (resolve_gender baby) m
                "height_percentile" h r1 = Ok r2 /\
              no_overall_key r2 /\
              (absent_or_non_negative w -> absent_or_non_negative h ->
               values_in_range r2) /\
              (h = None -> r2 = r1)) as [r2 [E2 [K2 [V2 Shape2]]]].
    { destruct h as [hv|].
      - destruct Hhok as [Hn | Hle]; [discriminate|].
        destruct Hh1 as [hrow Hrow]; [unfold m; lia|].
        rewrite Hrow in Sh.
        destruct Sh as [p [Ep [_ [Kp Vp]]]]; [discriminate|].
        eexists. split; [exact Ep|]. split; [now apply Kp|].
        split; [|discriminate]. intros Hwv Hhv. apply Vp; [exact Hhv | now apply V1].
      - exists r1. split; [apply Sh; discriminate|]. split; [exact K1|].
        split; [intros Hwv _; now apply V1 | reflexivity]. }
    rewrite E2. cbn [bind].
    assert (exists r3,
              add_percentile WHO_HEAD_CIRCUMFERENCE_FOR_AGE (resolve_gender baby) m
                "head_percentile" hc r2 = Ok r3 /\
              no_overall_key r3 /\
              (absent_or_non_negative w -> absent_or_non_negative h ->
               absent_or_non_negative hc -> values_in_range r3) /\
              (hc = None -> r3 = r2)) as [r3 [E3 [K3 [V3 Shape3]]]].
    { specialize (Shc r2). destruct hc as [cv|].
      - destruct Hcok as [Hn | H0]; [discriminate|].
        destruct Hc1 as [crow Hrow]; [unfold m; lia|].
        rewrite Hrow in Shc.
        destruct Shc as [p [Ep [_ [Kp Vp]]]]; [discriminate|].
        eexists. split; [exact Ep|]. split; [now apply Kp|].
        split; [|discriminate]. intros Hwv Hhv Hcv. apply Vp; [exact Hcv | now apply V2].
      - exists r2. split; [apply Shc; discriminate|]. split; [exact K2|].
        split; [intros Hwv Hhv _; now apply V2 | reflexivity]. }
    rewrite E3. cbn [bind].
    destruct (overall_percentile_outcome K3) as [o [Eo [Ho [Vo [Single Empty]]]]].
    exists r3, o. split; [exact Eo|]. split; [exact Ho|]. split.
    + intros Hwv Hhv Hcv. apply Vo. now apply V3.
    + intros Hhn Hcn. rewrite (Shape3 Hcn), (Shape2 Hhn) in *.
      destruct w as [wv|].
      * destruct Shape1 as [p Hp]. exists p. split; [exact Hp|]. now apply (Single _ _ Hp).
      * split; [exact Shape1 | now apply Empty].
  - intro Hnot.
    destruct h as [hv|].
    + destruct (Z_le_gt_dec age 1) as [Hle | Hgt].
      * (* the height is placed, the head circumference is not *)
        destruct Hh1 as [hrow Hrow]; [unfold m; lia|].
        rewrite Hrow in Sh.
        destruct Sh as [p [Ep _]]; [discriminate|].
        rewrite Ep. cbn [bind]. specialize (Shc (r1 ++ [("height_percentile", p)])).
        destruct hc as [cv|]; [|exfalso; apply Hnot; auto].
        rewrite Hc2 in Shc by (unfold m; destruct (Z.eq_dec age 0);
                               [exfalso; apply Hnot; auto | lia]).
        rewrite Shc by discriminate. reflexivity.
      * rewrite Hh2 in Sh by (unfold m; lia).
        rewrite Sh by discriminate. reflexivity.
    + rewrite Sh by discriminate. cbn [bind]. specialize (Shc r1).
      destruct hc as [cv|]; [|exfalso; apply Hnot; auto].
      rewrite Hc2 in Shc by (unfold m; destruct (Z.eq_dec age 0);
                             [exfalso; apply Hnot; auto | lia]).
      rewrite Shc by discriminate. reflexivity.
Qed.

Lemma calculate_growth_percentile_unrecognized (baby : Baby)
  (w h hc : option Q) (d : date) :
  ~ recognized_gender baby ->
  calculate_growth_percentile baby w h hc d = Raise KeyError.
Proof.
  intro Hg. unfold calculate_growth_percentile. cbv zeta.
  rewrite unknown_gender_key_error; [reflexivity | |];
    intro E; apply Hg; [now left | now right].
Qed.

Lemma recognized_gender_dec (baby : Baby) :
  recognized_gender baby \/ ~ recognized_gender baby.
Proof.
  unfold recognized_gender.
  destruct (string_dec (resolve_gender baby) "male") as [E | Nm]; [now left; left|].
  destruct (string_dec (resolve_gender baby) "female") as [E | Nf]; [now left; right|].
  right. intros [E | E]; contradiction.
Qed.

Lemma tables_cover_dec (h hc : option Q) (age : Z) :
  ((h = None \/ (age <= 1)%Z) /\ (hc = None \/ age = 0%Z)) \/
  ~ ((h = None \/ (age <= 1)%Z) /\ (hc = None \/ age = 0%Z)).
Proof.
  destruct h, hc; destruct (Z_le_gt_dec age 1); destruct (Z.eq_dec age 0);
    try (left; split; auto; fail);
    right; intros [[A | A] [B | B]]; try discriminate; try lia.
Qed.

Lemma calculate_growth_percentile_raises_key_error (baby : Baby)
  (w h hc : option Q) (d : date) (e : exn) :
  calculate_growth_percentile baby w h hc d = Raise e -> e = KeyError.
Proof.
  intro H.
  destruct (recognized_gender_dec baby) as [Hg | Hg].
  - destruct (calculate_growth_percentile_outcome w h hc d Hg) as [Hok Hno].
    destruct (tables_cover_dec h hc (calculate_age_in_months (date_of_birth baby) d))
      as [C | C].
    + destruct (Hok C) as [r [o [E _]]]. congruence.
    + rewrite (Hno C) in H. congruence.
  - rewrite (calculate_growth_percentile_unrecognized w h hc d Hg) in H. congruence.
Qed.

(** X7.  For a baby whose gender the tables know, the growth scorer returns
    exactly when the height is absent or the age is at most 1 month, and the
    head circumference is absent or the age is 0 months; in every other case it
    raises [KeyError], since the month is chosen among those of the weight
    table (0 to 3) and the height and head tables stop at months 1 and 0. *)
Theorem calculate_growth_percentile_returns_iff_tables_cover :
  forall (baby : Baby) (w h hc : option Q) (d : date),
    recognized_gender baby ->
    let age := calculate_age_in_months (date_of_birth baby) d in
    ((h = None \/ (age <= 1)%Z) /\ (hc = None \/ age = 0%Z) ->
     exists r, calculate_growth_percentile baby w h hc d = Ok r) /\
    (~ ((h = None \/ (age <= 1)%Z) /\ (hc = None \/ age = 0%Z)) ->
     calculate_growth_percentile baby w h hc d = Raise KeyError).
Proof.
  intros baby w h hc d Hg age.
  destruct (calculate_growth_percentile_outcome w h hc d Hg) as [Hok Hno].
  split; [|exact Hno].
  intro C. destruct (Hok C) as [r [o [E _]]]. eauto.
Qed.

Lemma calculate_growth_percentile_returns_iff_tables_cover_witness :
  (exists r, calculate_growth_percentile test_baby (Some 5.2) None None test_day = Ok r) /\
  calculate_growth_percentile test_baby (Some 5.2) None (Some 38.2) test_day
    = Raise KeyError.
Proof.
  destruct (@calculate_growth_percentile_returns_iff_tables_cover
              test_baby (Some 5.2) None None test_day) as [Hok _];
    [right; reflexivity|].
  destruct (@calculate_growth_percentile_returns_iff_tables_cover
              test_baby (Some 5.2) None (Some 38.2) test_day) as [_ Hno];
    [right; reflexivity|].
  split.
  - apply Hok. split; left; reflexivity.
  - apply Hno. intros [_ [E | E]]; discriminate E.
Defined.

(** X8.  For a baby whose gender is neither absent nor, once lowered, "male" or
    "female", the growth scorer raises [KeyError] on every input, measurements
    or not. *)
Theorem calculate_growth_percentile_unknown_gender_raises :
  forall (baby : Baby) (w h hc : option Q) (d : date),
    ~ recognized_gender baby ->
    calculate_growth_percentile baby w h hc d = Raise KeyError.
Proof.
  intros. now apply calculate_growth_percentile_unrecognized.
Qed.

Lemma calculate_growth_percentile_unknown_gender_raises_witness :
  calculate_growth_percentile (with_gender (Some "Girl")) None None None test_day
  = Raise KeyError.
Proof.
  apply calculate_growth_percentile_unknown_gender_raises.
  intros [E | E]; discriminate E.
Defined.

(** X9.  Whatever its input, the growth scorer raises nothing but [KeyError]:
    no division by zero, no index out of range, no empty [min]. *)
Theorem calculate_growth_percentile_raises_only_key_error :
  forall (baby : Baby) (w h hc : option Q) (d : date) (e : exn),
    calculate_growth_percentile baby w h hc d = Raise e -> e = KeyError.
Proof.
  intros baby w h hc d e. apply calculate_growth_percentile_raises_key_error.
Qed.

Lemma calculate_growth_percentile_raises_only_key_error_witness :
  KeyError = KeyError.
Proof.
  apply (@calculate_growth_percentile_raises_only_key_error
           other_baby (Some 5.2) None None test_day KeyError).
  reflexivity.
Defined.

Lemma calculate_growth_percentile_overall (baby : Baby) (w h hc : option Q)
  (d : date) (r : list (string * Q)) :
  calculate_growth_percentile baby w h hc d = Ok r ->
  exists o, dict_get String.eqb r "overall_percentile" = Some o /\
            (absent_or_non_negative w -> absent_or_non_negative h ->
             absent_or_non_negative hc -> 0 <= o <= 97).
Proof.
  intros Hr.
  destruct (recognized_gender_dec baby) as [Hg | Hg].
  2:{ rewrite (calculate_growth_percentile_unrecognized w h hc d Hg) in Hr.
      discriminate Hr. }
  destruct (calculate_growth_percentile_outcome w h hc d Hg) as [Hok Hno].
  destruct (tables_cover_dec h hc (calculate_age_in_months (date_of_birth baby) d))
    as [C | C].
  - destruct (Hok C) as [r' [o [E [Ho [Vo _]]]]].
    rewrite E in Hr. injection Hr as <-. exists o. split; [exact Ho | exact Vo].
  - rewrite (Hno C) in Hr. discriminate Hr.
Qed.

(** X10.  When the growth scorer returns and the measurements supplied are not
    negative, the result holds an overall percentile in [0, 97]. *)
Theorem overall_percentile_in_range :
  forall (baby : Baby) (w h hc : option Q) (d : date) (r : list (string * Q)),
    calculate_growth_percentile baby w h hc d = Ok r ->
    absent_or_non_negative w -> absent_or_non_negative h ->
    absent_or_non_negative hc ->
    exists o, dict_get String.eqb r "overall_percentile" = Some o /\ 0 <= o <= 97.
Proof.
  intros baby w h hc d r Hr Hw Hh Hc.
  destruct (@calculate_growth_percentile_overall baby w h hc d r Hr) as [o [Ho Vo]].
  exists o. split; [exact Ho | now apply Vo].
Qed.

Lemma overall_percentile_in_range_witness :
  exists o,
    dict_get String.eqb
      [("weight_percentile", 385000 # 7000); ("overall_percentile", 385000 # 7000)]
      "overall_percentile" = Some o /\ 0 <= o <= 97.
Proof.
  apply (@overall_percentile_in_range test_baby (Some 5.2) None None test_day).
  - reflexivity.
  - unfold absent_or_non_negative, Qle. simpl. lia.
  - exact I.
  - exact I.
Defined.

(** X11.  For a baby whose gender the tables know, a weight alone gives a
    result of two entries, the weight percentile and an overall percentile
    equal to it; no measurement at all gives the overall percentile 50 alone. *)
Theorem growth_result_of_weight_alone :
  forall (baby : Baby) (d : date),
    recognized_gender baby ->
    (forall wv, exists p o,
        calculate_growth_percentile baby (Some wv) None None d
        = Ok [("weight_percentile", p); ("overall_percentile", o)] /\ o == p) /\
    calculate_growth_percentile baby None None None d
    = Ok [("overall_percentile", 50)].
Proof.
  intros baby d Hg. split.
  - intro wv.
    destruct (calculate_growth_percentile_outcome (Some wv) None None d Hg) as [Hok _].
    destruct Hok as [r [o [E [_ [_ Shape]]]]]; [split; left; reflexivity|].
    destruct (Shape eq_refl eq_refl) as [p [-> Hop]].
    exists p, o. split; [exact E | exact Hop].
  - destruct (calculate_growth_percentile_outcome None None None d Hg) as [Hok _].
    destruct Hok as [r [o [E [_ [_ Shape]]]]]; [split; left; reflexivity|].
    destruct (Shape eq_refl eq_refl) as [-> ->]. exact E.
Qed.

Lemma growth_result_of_weight_alone_witness :
  calculate_growth_percentile test_baby None None None test_day
  = Ok [("overall_percentile", 50)].
Proof.
  apply (@growth_result_of_weight_alone test_baby test_day).
  right. reflexivity.
Defined.

End GrowthBehaviour.

(* ------------------------------------------------------------------------- *)
(** * Further properties of the sleep, feeding and developmental scorers *)

Section ScorerBehaviour.

(** X12.  The sleep, feeding and developmental scorers never raise
    [ZeroDivisionError]: every division they make has a divisor that is not
    zero; and whenever one of them returns, its score lies in [0, 100]: the
    result is clamped (sleep, feeding) or a capped sum of terms that are not
    negative (development). *)
Theorem session_scorers_guarded_and_in_range :
  (forall now schedule,
     calculate_sleep_quality_index now schedule <> Raise ZeroDivisionError /\
     (forall v, calculate_sleep_quality_index now schedule = Ok v -> 0 <= v <= 100)) /\
  (forall feeds age,
     calculate_feeding_efficiency feeds age <> Raise ZeroDivisionError /\
     (forall v, calculate_feeding_efficiency feeds age = Ok v -> 0 <= v <= 100)) /\
  (forall ms age baby,
     calculate_developmental_score ms age baby <> Raise ZeroDivisionError /\
     (forall v, calculate_developmental_score ms age baby = Ok v -> 0 <= v <= 100)).
Proof.
  split; [|split].
  - intros now schedule.
    destruct (calculate_sleep_quality_index_total now schedule) as [v [-> Hv]].
    split; [discriminate|]. intros v' H. injection H as <-. exact Hv.
  - intros feeds age.
    destruct (calculate_feeding_efficiency_total feeds age) as [v [-> Hv]].
    split; [discriminate|]. intros v' H. injection H as <-. exact Hv.
  - intros ms age baby.
    destruct (calculate_developmental_score_total ms age baby) as [v [-> Hv]].
    split; [discriminate|]. intros v' H. injection H as <-. exact Hv.
Qed.

Lemma session_scorers_guarded_and_in_range_witness :
  exists v,
    calculate_sleep_quality_index (at_time test_day 12 0) [no_sleep] = Ok v /\
    0 <= v <= 100.
Proof.
  eexists. split; [vm_compute; reflexivity|].
  apply (proj2 (proj1 session_scorers_guarded_and_in_range
                  (at_time test_day 12 0) [no_sleep])).
  vm_compute. reflexivity.
Defined.











Lemma no_expected_milestone_before_one_month (age : Z) :
  (age < 1)%Z ->
  flat_map (fun entry : Z * list string =>
              if (fst entry <=? age)%Z then snd entry else [])
           expected_milestones = [].
Proof.
  intro Hage. unfold expected_milestones. cbn [flat_map fst snd].
  assert (E1 : (1 <=? age)%Z = false) by (apply Z.leb_gt; lia).
  assert (E2 : (2 <=? age)%Z = false) by (apply Z.leb_gt; lia).
  assert (E3 : (3 <=? age)%Z = false) by (apply Z.leb_gt; lia).
  assert (E4 : (4 <=? age)%Z = false) by (apply Z.leb_gt; lia).
  rewrite E1, E2, E3, E4. reflexivity.
Qed.

(** X15.  For a baby younger than one month nothing is expected yet: every
    non-empty milestone list scores 70, whatever it holds. *)
Theorem developmental_score_before_one_month :
  forall (ms : list Milestone) (age : Z) (baby : Baby),
    ms <> [] -> (age < 1)%Z ->
    calculate_developmental_score ms age baby = Ok 70.0.
Proof.
  intros ms age baby Hne Hage. unfold calculate_developmental_score.
  destruct ms as [|m ms]; [congruence|]. cbn [truthy_list negb]. cbv zeta.
  rewrite (no_expected_milestone_before_one_month Hage). reflexivity.
Qed.

Lemma developmental_score_before_one_month_witness :
  calculate_developmental_score [smiles] 0 test_baby = Ok 70.0.
Proof.
  apply developmental_score_before_one_month.
  - discriminate.
  - lia.
Defined.

Lemma filter_all {A : Type} (f : A -> bool) (xs : list A) :
  (forall x, In x xs -> f x = true) -> filter f xs = xs.
Proof.
  induction xs as [|x xs IH]; intro H; [reflexivity|].
  cbn [filter]. rewrite (H x (or_introl eq_refl)). f_equal.
  apply IH. intros y Hy. apply H. now right.
Qed.

Lemma contains_empty (b : string) : contains "" b = true.
Proof. destruct b; reflexivity. Qed.

(** X16.  The empty label matches everything: from one month on, a milestone
    list holding an entry whose label is empty scores 100, since the empty
    string is contained in every expected milestone. *)
Theorem developmental_score_of_empty_label :
  forall (ms : list Milestone) (age : Z) (baby : Baby) (m : Milestone),
    In m ms -> milestone m = "" -> (1 <= age)%Z ->
    calculate_developmental_score ms age baby = Ok 100.
Proof.
  intros ms age baby m Hin Hlabel Hage. unfold calculate_developmental_score.
  destruct ms as [|m0 ms0] eqn:Ems; [contradiction|]. rewrite <- Ems in *.
  replace (truthy_list ms) with true by (rewrite Ems; reflexivity).
  cbn [negb]. cbv zeta.
  set (all_expected := flat_map _ expected_milestones).
  assert (Hexp : truthy_list all_expected = true).
  { unfold all_expected, expected_milestones. cbn [flat_map fst snd].
    assert (E1 : (1 <=? age)%Z = true) by (apply Z.leb_le; lia).
    rewrite E1. reflexivity. }
  rewrite Hexp. cbn [negb].
  rewrite filter_all.
  2:{ intros expected _. apply existsb_exists. exists "". split.
      - apply in_map_iff. exists m. split; [now rewrite Hlabel | exact Hin].
      - unfold fuzzy_match. rewrite (contains_empty expected). apply orb_true_r. }
  pose proof (@len_pos_nonzero _ all_expected Hexp) as Hnz.
  rewrite py_div_ok by exact Hnz. cbn [bind]. f_equal.
  assert (Hbonus : 0 <= py_sum (map (early_bonus baby) ms)).
  { apply py_sum_nonneg. apply Forall_forall. intros x Hx.
    apply in_map_iff in Hx. destruct Hx as [y [<- _]]. apply early_bonus_nonneg. }
  set (bonus := py_sum _) in *.
  assert (Hbase : inject_Z (Z.of_nat (List.length all_expected)) / len all_expected * 100
                  == 100).
  { unfold len in *. field. exact Hnz. }
  unfold py_min.
  assert (E : Qltb (inject_Z (Z.of_nat (List.length all_expected)) / len all_expected * 100
                    + bonus) 100 = false).
  { apply Qltb_false. rewrite Hbase. lra. }
  now rewrite E.
Qed.

Lemma developmental_score_of_empty_label_witness :
  calculate_developmental_score
    [ {| milestone := ""; achieved_date := None; milestone_notes := None |} ]
    2 test_baby
  = Ok 100.
Proof.
  apply (@developmental_score_of_empty_label _ 2 test_baby
           {| milestone := ""; achieved_date := None; milestone_notes := None |}).
  - left. reflexivity.
  - reflexivity.
  - lia.
Defined.

End ScorerBehaviour.

(* ------------------------------------------------------------------------- *)
(** * Further properties of the record processor *)

Section ProcessorBehaviour.

Variable json : JsonDecoder.

Lemma growth_block_raises_key_error (baby : Baby) (p : BabyProgress) (e : exn) :
  growth_block baby p = Raise e -> e = KeyError.
Proof.
  unfold growth_block.
  destruct (existsb _ _); [|discriminate].
  destruct (calculate_growth_percentile _ _ _ _ _) eqn:E; [discriminate|].
  cbn [bind]. intro H. injection H as <-.
  exact (@calculate_growth_percentile_raises_key_error _ _ _ _ _ _ E).
Qed.

Lemma growth_block_post (baby : Baby) (p q : BabyProgress) :
  growth_block baby p = Ok q -> has_measurement p = true ->
  exists v, growth_percentile q = Some v /\
            (absent_or_non_negative (weight p) -> absent_or_non_negative (height p) ->
             absent_or_non_negative (head_circumference p) -> 0 <= v <= 97).
Proof.
  unfold growth_block. fold (has_measurement p). intros H Hm. rewrite Hm in H.
  destruct (calculate_growth_percentile _ _ _ _ _) as [r|] eqn:E; [|discriminate].
  cbn [bind] in H. injection H as <-.
  destruct (@calculate_growth_percentile_overall _ _ _ _ _ _ E) as [o [Ho Vo]].
  exists o. split; [|exact Vo]. destruct p. exact Ho.
Qed.

Lemma sleep_block_post (now : datetime) (p : BabyProgress) :
  exists q, sleep_block json now p = Ok q /\
    (truthy_column (sleep_schedule p) = true ->
     exists v, sleep_quality_index q = Some v /\ 0 <= v <= 100).
Proof.
  unfold sleep_block. destruct (sleep_schedule p) as [column|].
  - destruct (truthy_column (Some column)).
    + destruct (calculate_sleep_quality_index_total now
                  (column_entries (loads_sleep json) column)) as [v [-> Hv]].
      cbn [bind]. eexists. split; [reflexivity|]. intros _. exists v.
      split; [now destruct p | exact Hv].
    + exists p. split; [reflexivity | discriminate].
  - exists p. split; [reflexivity | discriminate].
Qed.

Lemma feeding_block_post (age : Z) (p : BabyProgress) :
  exists q, feeding_block json age p = Ok q /\
    (truthy_column (feeding_times p) = true ->
     exists v, feeding_efficiency q = Some v /\ 0 <= v <= 100).
Proof.
  unfold feeding_block. destruct (feeding_times p) as [column|].
  - destruct (truthy_column (Some column)).
    + destruct (calculate_feeding_efficiency_total
                  (column_entries (loads_feeding json) column) age) as [v [-> Hv]].
      cbn [bind]. eexists. split; [reflexivity|]. intros _. exists v.
      split; [now destruct p | exact Hv].
    + exists p. split; [reflexivity | discriminate].
  - exists p. split; [reflexivity | discriminate].
Qed.

Lemma developmental_block_post (age : Z) (baby : Baby) (p : BabyProgress) :
  exists q, developmental_block json age baby p = Ok q /\
    (truthy_column (milestones p) = true ->
     exists v, developmental_score q = Some v /\ 0 <= v <= 100).
Proof.
  unfold developmental_block. destruct (milestones p) as [column|].
  - destruct (truthy_column (Some column)).
    + destruct (calculate_developmental_score_total
                  (column_entries (loads_milestones json) column) age baby)
        as [v [-> Hv]].
      cbn [bind]. eexists. split; [reflexivity|]. intros _. exists v.
      split; [now destruct p | exact Hv].
    + exists p. split; [reflexivity | discriminate].
  - exists p. split; [reflexivity | discriminate].
Qed.

(** The processor with the baby at hand: it stops at the growth block with
    [KeyError] and the record untouched, or runs the four blocks to the end. *)
Lemma process_with_baby_outcome (now : datetime) (db : list Baby)
  (p : BabyProgress) (b : Baby) :
  let age := calculate_age_in_months (date_of_birth b) (record_date p) in
  (growth_block b p = Raise KeyError /\
   process_baby_progress json now db p (Some b) = {| obj := p; raised := Some KeyError |})
  \/
  (exists q1 q2 q3 q4,
     growth_block b p = Ok q1 /\
     sleep_block json now q1 = Ok q2 /\
     feeding_block json age q2 = Ok q3 /\
     developmental_block json age b q3 = Ok q4 /\
     process_baby_progress json now db p (Some b) = {| obj := q4; raised := None |}).
Proof.
  intro age. unfold process_baby_progress. cbv zeta. fold age.
  unfold and_then. cbn [obj raised].
  destruct (growth_block b p) as [q1|e] eqn:E1; cbn [obj raised].
  - right.
    destruct (sleep_block_post now q1) as [q2 [E2 _]].
    destruct (feeding_block_post age q2) as [q3 [E3 _]].
    destruct (developmental_block_post age b q3) as [q4 [E4 _]].
    exists q1, q2, q3, q4. rewrite E2. cbn [obj raised]. rewrite E3.
    cbn [obj raised]. rewrite E4. cbn [obj raised]. auto.
  - left. rewrite (@growth_block_raises_key_error _ _ _ E1). auto.
Qed.

Lemma process_baby_progress_lookup (now : datetime) (db : list Baby)
  (p : BabyProgress) (baby : option Baby) :
  match (match baby with
         | Some b => Some b
         | None => find (fun b => (id b =? baby_id p)%Z) db
         end) with
  | Some b => process_baby_progress json now db p baby
              = process_baby_progress json now db p (Some b)
  | None => process_baby_progress json now db p baby = {| obj := p; raised := None |}
  end.
Proof.
  unfold process_baby_progress.
  destruct (match baby with Some b => Some b | None => _ end); reflexivity.
Qed.

Lemma process_scores (now : datetime) (db : list Baby) (p : BabyProgress) (b : Baby) :
  raised (process_baby_progress json now db p (Some b)) = None ->
  let after := obj (process_baby_progress json now db p (Some b)) in
  (has_measurement p = true ->
   exists v, growth_percentile after = Some v /\
     (absent_or_non_negative (weight p) -> absent_or_non_negative (height p) ->
      absent_or_non_negative (head_circumference p) -> 0 <= v <= 97)) /\
  (truthy_column (sleep_schedule p) = true ->
   exists v, sleep_quality_index after = Some v /\ 0 <= v <= 100) /\
  (truthy_column (feeding_times p) = true ->
   exists v, feeding_efficiency after = Some v /\ 0 <= v <= 100) /\
  (truthy_column (milestones p) = true ->
   exists v, developmental_score after = Some v /\ 0 <= v <= 100).
Proof.
  intro Hnone.
  destruct (process_with_baby_outcome now db p b)
    as [[_ E] | [q1 [q2 [q3 [q4 [E1 [E2 [E3 [E4 E]]]]]]]]];
    rewrite E in *; cbn [obj raised] in *; [discriminate|]. cbv zeta.
  set (age := calculate_age_in_months (date_of_birth b) (record_date p)) in *.
  destruct (growth_block_frame _ _ E1) as [R1 _].
  destruct (@sleep_block_frame json now q1 q2 E2) as [R2 [G2 _]].
  destruct (@feeding_block_frame json age q2 q3 E3) as [R3 [G3 [S3 _]]].
  destruct (@developmental_block_frame json age b q3 q4 E4) as [R4 [G4 [S4 [F4 _]]]].
  pose proof (same_raw_inputs_trans R1 R2) as R12.
  pose proof (same_raw_inputs_trans R12 R3) as R13.
  unfold same_raw_inputs in R1, R12, R13.
  split; [|split; [|split]].
  - intro Hm. destruct (growth_block_post _ _ E1 Hm) as [v [Hv Hb]].
    exists v. split; [|exact Hb].
    rewrite (G4 eq_refl), (G3 eq_refl), (G2 eq_refl). exact Hv.
  - intro Ht. destruct (sleep_block_post now q1) as [q [Eq Hq]].
    rewrite E2 in Eq. injection Eq as <-.
    replace (sleep_schedule p) with (sleep_schedule q1) in Ht by tauto.
    destruct (Hq Ht) as [v [Hv Hb]]. exists v. split; [|exact Hb].
    rewrite (S4 eq_refl), (S3 eq_refl). exact Hv.
  - intro Ht. destruct (feeding_block_post age q2) as [q [Eq Hq]].
    rewrite E3 in Eq. injection Eq as <-.
    replace (feeding_times p) with (feeding_times q2) in Ht by tauto.
    destruct (Hq Ht) as [v [Hv Hb]]. exists v. split; [|exact Hb].
    rewrite (F4 eq_refl). exact Hv.
  - intro Ht. destruct (developmental_block_post age b q3) as [q [Eq Hq]].
    rewrite E4 in Eq. injection Eq as <-.
    replace (milestones p) with (milestones q3) in Ht by tauto.
    exact (Hq Ht).
Qed.

End ProcessorBehaviour.

Section OutputsAgree.

Variable json : JsonDecoder.









End OutputsAgree.

Section DeterminismClaims.




End DeterminismClaims.


Section ProcessorExtras.

(** X17.  The growth block is the first to assign: when the growth scorer
    raises on a record that has a measurement, the exception is a [KeyError],
    the record processor ends with it, and the record has every field, derived
    ones included, as before the call. *)
Theorem process_baby_progress_fails_before_assigning :
  forall (json : JsonDecoder) (now : datetime) (db : list Baby)
         (progress : BabyProgress) (baby : Baby) (e : exn),
    has_measurement progress = true ->
    calculate_growth_percentile baby (weight progress) (height progress)
      (head_circumference progress) (record_date progress) = Raise e ->
    e = KeyError /\
    process_baby_progress json now db progress (Some baby)
    = {| obj := progress; raised := Some e |}.
Proof.
  intros json now db progress baby e Hm Hraise.
  assert (E : growth_block baby progress = Raise e).
  { unfold growth_block. fold (has_measurement progress).
    now rewrite Hm, Hraise. }
  split.
  - exact (@growth_block_raises_key_error _ _ _ E).
  - unfold process_baby_progress. cbv zeta. unfold and_then. cbn [obj raised].
    rewrite E. reflexivity.
Qed.

Lemma process_baby_progress_fails_before_assigning_witness :
  KeyError = KeyError /\
  process_baby_progress no_text_columns (at_time test_day 12 0) []
    test_progress (Some test_baby)
  = {| obj := test_progress; raised := Some KeyError |}.
Proof.
  apply (@process_baby_progress_fails_before_assigning no_text_columns
           (at_time test_day 12 0) [] test_progress test_baby KeyError);
    reflexivity.
Defined.

(** X18.  When the record processor ends without an exception, every derived
    field whose prerequisite input is present holds a score: the sleep quality
    index, the feeding efficiency and the developmental score lie in [0, 100],
    and the growth percentile lies in [0, 97] when no measurement is
    negative. *)
Theorem process_baby_progress_scores_in_range :
  forall (json : JsonDecoder) (now : datetime) (db : list Baby)
         (progress : BabyProgress) (baby : Baby),
    raised (process_baby_progress json now db progress (Some baby)) = None ->
    let after := obj (process_baby_progress json now db progress (Some baby)) in
    (has_measurement progress = true ->
     exists v, growth_percentile after = Some v /\
       (absent_or_non_negative (weight progress) ->
        absent_or_non_negative (height progress) ->
        absent_or_non_negative (head_circumference progress) -> 0 <= v <= 97)) /\
    (truthy_column (sleep_schedule progress) = true ->
     exists v, sleep_quality_index after = Some v /\ 0 <= v <= 100) /\
    (truthy_column (feeding_times progress) = true ->
     exists v, feeding_efficiency after = Some v /\ 0 <= v <= 100) /\
    (truthy_column (milestones progress) = true ->
     exists v, developmental_score after = Some v /\ 0 <= v <= 100).
Proof.
  intros json now db progress baby. apply process_scores.
Qed.

Lemma process_baby_progress_scores_in_range_witness :
  exists v,
    sleep_quality_index
      (obj (process_baby_progress no_text_columns (at_time test_day 12 0) []
              test_progress_weighed (Some test_baby))) = Some v /\
    0 <= v <= 100.
Proof.
  destruct (@process_baby_progress_scores_in_range no_text_columns
              (at_time test_day 12 0) [] test_progress_weighed test_baby)
    as [_ [Hs _]].
  - reflexivity.
  - apply Hs. reflexivity.
Defined.

End ProcessorExtras.

(* ------------------------------------------------------------------------- *)
(** * Further properties of the insight aggregator *)

Section AggregatorBehaviour.

Lemma build_insights_header (today : date) (baby : Baby) (tf : string)
  (first : BabyProgress) (rest : list BabyProgress) :
  exists body, build_insights today baby tf first rest = Ok body /\
    total_records body = S (List.length rest) /\
    timeframe body = tf /\
    baby_age_months body
    = ((year today - year (date_of_birth baby)) * 12
       + (month today - month (date_of_birth baby)))%Z /\
    first_record (growth body) = snapshot_of first /\
    latest_record (growth body) = snapshot_of (last rest first).
Proof.
  unfold build_insights. cbv zeta.
  destruct (average_of_returns growth_percentile (first :: rest)) as [a1 ->].
  destruct (average_of_returns sleep_quality_index (first :: rest)) as [a2 ->].
  destruct (average_of_returns feeding_efficiency (first :: rest)) as [a3 ->].
  destruct (average_of_returns developmental_score (first :: rest)) as [a4 ->].
  cbn [bind].
  set (days_diff := days_between _ _).
  destruct (rates_computed (first :: rest) days_diff) eqn:E.
  - apply andb_true_iff in E. destruct E as [_ E]. apply Z.ltb_lt in E.
    destruct (gain_returns (weight first) (weight (last rest first))
                per_week_in_grams E) as [g1 ->].
    destruct (gain_returns (height first) (height (last rest first))
                per_month E) as [g2 ->].
    destruct (gain_returns (head_circumference first)
                (head_circumference (last rest first)) per_month E) as [g3 ->].
    cbn [bind]. eexists. split; [reflexivity|]. cbn. repeat split.
  - cbn [bind]. eexists. split; [reflexivity|]. cbn. repeat split.
Qed.

Lemma trend_of_cases (first_v last_v : option Q) :
  (forall a b, first_v = Some a -> last_v = Some b -> ~ a == 0 -> ~ b == 0 ->
     (a < b -> trend_of first_v last_v = "improving") /\
     (b < a -> trend_of first_v last_v = "declining") /\
     (a == b -> trend_of first_v last_v = "stable")) /\
  (first_v = None \/ last_v = None -> trend_of first_v last_v = "stable").
Proof.
  unfold trend_of. split.
  - intros a b -> -> Ha Hb.
    rewrite !truthy_float_some by assumption. cbn [andb opt_gt opt_lt].
    split; [|split]; intro H.
    + apply Qltb_true in H. now rewrite H.
    + assert (E1 : Qltb a b = false) by (apply Qltb_false; lra).
      assert (E2 : Qltb b a = true) by now apply Qltb_true.
      now rewrite E1, E2.
    + assert (E1 : Qltb a b = false) by (apply Qltb_false; lra).
      assert (E2 : Qltb b a = false) by (apply Qltb_false; lra).
      now rewrite E1, E2.
  - intros [-> | ->].
    + cbn [truthy_float]. rewrite !andb_false_r. reflexivity.
    + reflexivity.
Qed.

(** X19.  The sleep and feeding trends compare the first and the last record
    only: with both scores present and non-zero the trend is 'improving' when
    last > first, 'declining' when last < first and 'stable' when they are
    equal; it is 'stable' as soon as one of the two scores is absent. *)
Theorem sleep_and_feeding_trend_classification :
  forall (today : date) (baby : Baby) (tf : string)
         (first : BabyProgress) (rest : list BabyProgress),
  exists body, build_insights today baby tf first rest = Ok body /\
    (forall a b,
        sleep_quality_index first = Some a ->
        sleep_quality_index (last rest first) = Some b ->
        ~ a == 0 -> ~ b == 0 ->
        (a < b -> trend (sleep body) = "improving") /\
        (b < a -> trend (sleep body) = "declining") /\
        (a == b -> trend (sleep body) = "stable")) /\
    (sleep_quality_index first = None \/ sleep_quality_index (last rest first) = None ->
     trend (sleep body) = "stable") /\
    (forall a b,
        feeding_efficiency first = Some a ->
        feeding_efficiency (last rest first) = Some b ->
        ~ a == 0 -> ~ b == 0 ->
        (a < b -> trend (feeding body) = "improving") /\
        (b < a -> trend (feeding body) = "declining") /\
        (a == b -> trend (feeding body) = "stable")) /\
    (feeding_efficiency first = None \/ feeding_efficiency (last rest first) = None ->
     trend (feeding body) = "stable").
Proof.
  intros today baby tf first rest.
  destruct (build_insights_returns today baby tf first rest)
    as [body [Hb [Hs [Hf _]]]].
  exists body. split; [exact Hb|]. rewrite Hs, Hf.
  destruct (trend_of_cases (sleep_quality_index first)
              (sleep_quality_index (last rest first))) as [S1 S2].
  destruct (trend_of_cases (feeding_efficiency first)
              (feeding_efficiency (last rest first))) as [F1 F2].
  auto.
Qed.

Lemma sleep_and_feeding_trend_classification_witness :
  trend_of (Some 80) (Some 60) = "declining".
Proof.
  destruct (sleep_and_feeding_trend_classification day_14 test_baby "all"
              (set_sleep_quality_index (Some 80) (scored 1 day_0 None None))
              [set_sleep_quality_index (Some 60) (scored 2 day_14 None None)])
    as [body [Hb [Hs _]]].
  vm_compute in Hb. injection Hb as <-.
  destruct (Hs 80 60 eq_refl eq_refl) as [_ [Hd _]].
  - intro H. discriminate H.
  - intro H. discriminate H.
  - apply Hd. reflexivity.
Defined.

Lemma kept_values_are_present (field : BabyProgress -> option Q)
  (rs : list BabyProgress) :
  (forall r v, In r rs -> field r = Some v -> ~ v == 0) ->
  map (fun r => or_zero (field r)) (filter (fun r => truthy_float (field r)) rs)
  = present_values field rs.
Proof.
  induction rs as [|r rs IH]; intro Hnz; [reflexivity|].
  cbn [filter present_values flat_map].
  assert (Hrest : forall r' v, In r' rs -> field r' = Some v -> ~ v == 0).
  { intros r' v Hin. apply Hnz. now right. }
  specialize (IH Hrest). unfold present_values in IH.
  destruct (field r) as [v|] eqn:E.
  - rewrite (truthy_float_some (Hnz r v (or_introl eq_refl) E)).
    cbn [map app]. rewrite IH. unfold or_zero. rewrite E.
    now rewrite (truthy_float_some (Hnz r v (or_introl eq_refl) E)).
  - cbn [truthy_float app]. exact IH.
Qed.

Lemma average_of_present (field : BabyProgress -> option Q) (rs : list BabyProgress) :
  (forall r v, In r rs -> field r = Some v -> ~ v == 0) ->
  average_of field rs
  = match present_values field rs with
    | [] => Ok None
    | vs => Ok (Some (py_sum vs / len vs))
    end.
Proof.
  intro Hnz. unfold average_of.
  pose proof (kept_values_are_present field rs Hnz) as Hk.
  assert (Hlen : len (filter (fun r => truthy_float (field r)) rs)
                 = len (present_values field rs)).
  { unfold len. rewrite <- Hk. now rewrite length_map. }
  destruct (existsb (fun r => truthy_float (field r)) rs) eqn:E.
  - cbv zeta. pose proof (existsb_filter_nonempty _ _ E) as Hne.
    rewrite py_div_ok by now apply len_pos_nonzero.
    cbn [bind]. rewrite Hk, Hlen.
    destruct (present_values field rs) eqn:Ev; [|reflexivity].
    destruct (filter (fun r => truthy_float (field r)) rs); [discriminate|].
    discriminate Hk.
  - destruct (present_values field rs) as [|v vs] eqn:Ev; [reflexivity|].
    exfalso.
    destruct (filter (fun r => truthy_float (field r)) rs) as [|k ks] eqn:Ef;
      [discriminate Hk|].
    assert (Hin : In k (filter (fun r => truthy_float (field r)) rs))
      by (rewrite Ef; now left).
    apply filter_In in Hin. destruct Hin as [Hin Ht].
    assert (existsb (fun r => truthy_float (field r)) rs = true)
      by (apply existsb_exists; eauto).
    congruence.
Qed.

Lemma average_of_bounds (field : BabyProgress -> option Q) (rs : list BabyProgress)
  (lo hi a : Q) :
  (forall r v, In r rs -> field r = Some v -> lo <= v <= hi) ->
  average_of field rs = Ok (Some a) -> lo <= a <= hi.
Proof.
  intros Hb. unfold average_of.
  destruct (existsb (fun r => truthy_float (field r)) rs) eqn:E; [|discriminate].
  cbv zeta. pose proof (existsb_filter_nonempty _ _ E) as Hne.
  rewrite py_div_ok by now apply len_pos_nonzero.
  cbn [bind]. intro H. injection H as <-.
  set (kept := filter (fun r => truthy_float (field r)) rs) in *.
  replace (len kept) with (len (map (fun r => or_zero (field r)) kept))
    by (unfold len; now rewrite length_map).
  apply mean_bounds.
  - destruct kept; [discriminate | reflexivity].
  - apply Forall_map. apply Forall_forall. intros r Hr.
    apply filter_In in Hr. destruct Hr as [Hin Ht].
    unfold or_zero. destruct (field r) as [v|] eqn:Ev; [|discriminate Ht].
    rewrite Ht. now apply (Hb r v).
Qed.

(** X20.  When no record carries a score of exactly zero, the four averages of
    the aggregator are the arithmetic means over the records where the field
    is present, and an average is unset exactly when the field is present on
    no record. *)
Theorem averages_are_means_without_zero_scores :
  forall (today : date) (baby : Baby) (tf : string)
         (first : BabyProgress) (rest : list BabyProgress),
    (forall r v, In r (first :: rest) ->
       growth_percentile r = Some v \/ sleep_quality_index r = Some v \/
       feeding_efficiency r = Some v \/ developmental_score r = Some v ->
       ~ v == 0) ->
    exists body, build_insights today baby tf first rest = Ok body /\
      let mean vs := match vs with
                     | [] => None
                     | _ => Some (py_sum vs / len vs)
                     end in
      average_percentile (growth body)
        = mean (present_values growth_percentile (first :: rest)) /\
      average (sleep body)
        = mean (present_values sleep_quality_index (first :: rest)) /\
      average (feeding body)
        = mean (present_values feeding_efficiency (first :: rest)) /\
      average (development body)
        = mean (present_values developmental_score (first :: rest)).
Proof.
  intros today baby tf first rest Hnz.
  destruct (build_insights_returns today baby tf first rest)
    as [body [Hb [_ [_ [_ [A1 [A2 [A3 [A4 _]]]]]]]]].
  exists body. split; [exact Hb|]. cbv zeta.
  rewrite average_of_present in A1 by (intros r v Hin E; apply (Hnz r v Hin); auto).
  rewrite average_of_present in A2 by (intros r v Hin E; apply (Hnz r v Hin); auto).
  rewrite average_of_present in A3 by (intros r v Hin E; apply (Hnz r v Hin); auto).
  rewrite average_of_present in A4 by (intros r v Hin E; apply (Hnz r v Hin); auto).
  repeat split.
  - destruct (present_values growth_percentile (first :: rest)); congruence.
  - destruct (present_values sleep_quality_index (first :: rest)); congruence.
  - destruct (present_values feeding_efficiency (first :: rest)); congruence.
  - destruct (present_values developmental_score (first :: rest)); congruence.
Qed.

Lemma averages_are_means_without_zero_scores_witness :
  exists body,
    build_insights day_14 test_baby "all"
      (scored 1 day_0 None (Some 60)) [scored 2 day_14 None (Some 80)] = Ok body /\
    average (development body) = Some (py_sum [60; 80] / len [60; 80]) /\
    average (sleep body) = None.
Proof.
  destruct (@averages_are_means_without_zero_scores day_14 test_baby "all"
              (scored 1 day_0 None (Some 60)) [scored 2 day_14 None (Some 80)])
    as [body [Hb [_ [Hs [_ Hd]]]]].
  - intros r v [<- | [<- | []]] [E | [E | [E | E]]]; try discriminate E;
      injection E as <-; intro H; discriminate H.
  - exists body. split; [exact Hb|]. split; [exact Hd | exact Hs].
Defined.

(** X21.  An average the aggregator reports lies within the bounds of the
    scores it is taken over: with every score of a field in [0, 100] its
    average, when set, is in [0, 100]. *)
Theorem averages_stay_in_score_range :
  forall (today : date) (baby : Baby) (tf : string)
         (first : BabyProgress) (rest : list BabyProgress),
    (forall r v, In r (first :: rest) ->
       growth_percentile r = Some v \/ sleep_quality_index r = Some v \/
       feeding_efficiency r = Some v \/ developmental_score r = Some v ->
       0 <= v <= 100) ->
    exists body, build_insights today baby tf first rest = Ok body /\
      (forall a, average_percentile (growth body) = Some a -> 0 <= a <= 100) /\
      (forall a, average (sleep body) = Some a -> 0 <= a <= 100) /\
      (forall a, average (feeding body) = Some a -> 0 <= a <= 100) /\
      (forall a, average (development body) = Some a -> 0 <= a <= 100).
Proof.
  intros today baby tf first rest Hr.
  destruct (build_insights_returns today baby tf first rest)
    as [body [Hb [_ [_ [_ [A1 [A2 [A3 [A4 _]]]]]]]]].
  exists body. split; [exact Hb|].
  split; [|split; [|split]]; intros a Ha; rewrite Ha in *.
  - apply (@average_of_bounds growth_percentile (first :: rest) 0 100 a); [|exact A1].
    intros r v Hin E. apply (Hr r v Hin). auto.
  - apply (@average_of_bounds sleep_quality_index (first :: rest) 0 100 a); [|exact A2].
    intros r v Hin E. apply (Hr r v Hin). auto.
  - apply (@average_of_bounds feeding_efficiency (first :: rest) 0 100 a); [|exact A3].
    intros r v Hin E. apply (Hr r v Hin). auto.
  - apply (@average_of_bounds developmental_score (first :: rest) 0 100 a); [|exact A4].
    intros r v Hin E. apply (Hr r v Hin). auto.
Qed.

Lemma averages_stay_in_score_range_witness :
  exists body,
    build_insights day_14 test_baby "all"
      (scored 1 day_0 None (Some 60)) [scored 2 day_14 None (Some 80)] = Ok body /\
    (forall a, average (development body) = Some a -> 0 <= a <= 100).
Proof.
  destruct (@averages_stay_in_score_range day_14 test_baby "all"
              (scored 1 day_0 None (Some 60)) [scored 2 day_14 None (Some 80)])
    as [body [Hb [_ [_ [_ Hd]]]]].
  - intros r v [<- | [<- | []]] [E | [E | [E | E]]]; try discriminate E;
      injection E as <-; split; unfold Qle; simpl; lia.
  - exists body. split; [exact Hb | exact Hd].
Defined.

(** ** The query *)

Lemma filter_filter {A : Type} (f g : A -> bool) (xs : list A) :
  filter g (filter f xs) = filter (fun x => f x && g x) xs.
Proof.
  induction xs as [|x xs IH]; [reflexivity|]. cbn [filter].
  destruct (f x); cbn [filter andb]; [destruct (g x); now rewrite IH | exact IH].
Qed.

Lemma insert_by_In {A : Type} (key : A -> Z) (x y : A) (xs : list A) :
  In y (insert_by key x xs) <-> y = x \/ In y xs.
Proof.
  induction xs as [|z zs IH]; cbn [insert_by].
  - simpl. intuition congruence.
  - destruct (key x <=? key z)%Z; simpl in *; intuition congruence.
Qed.

Lemma sort_by_In {A : Type} (key : A -> Z) (y : A) (xs : list A) :
  In y (sort_by key xs) <-> In y xs.
Proof.
  induction xs as [|x xs IH]; cbn [sort_by]; [tauto|].
  rewrite insert_by_In, IH. simpl. intuition congruence.
Qed.

Lemma insert_by_ascending {A : Type} (key : A -> Z) (x : A) (xs : list A) :
  ascending key xs -> ascending key (insert_by key x xs).
Proof.
  induction xs as [|z zs IH]; cbn [insert_by]; intro H.
  - simpl. split; [intros y []|exact I].
  - destruct H as [Hz Hzs]. destruct (Z.leb_spec (key x) (key z)).
    + split; [|split; assumption].
      intros y [<- | Hy]; [lia|]. specialize (Hz y Hy). lia.
    + split; [|now apply IH].
      intros y Hy. apply insert_by_In in Hy. destruct Hy as [-> | Hy]; [lia|].
      now apply Hz.
Qed.

Lemma sort_by_ascending {A : Type} (key : A -> Z) (xs : list A) :
  ascending key (sort_by key xs).
Proof.
  induction xs as [|x xs IH]; cbn [sort_by]; [exact I|].
  now apply insert_by_ascending.
Qed.

Lemma ascending_last {A : Type} (key : A -> Z) (x : A) (xs : list A) :
  ascending key (x :: xs) ->
  forall y, In y (x :: xs) -> (key x <= key y <= key (last xs x))%Z.
Proof.
  revert x. induction xs as [|z zs IH]; intros x [Hx Hxs] y Hy.
  - destruct Hy as [<- | []]. simpl. lia.
  - rewrite last_cons_default.
    destruct Hy as [<- | Hy].
    + split; [lia|].
      specialize (IH z Hxs z (or_introl eq_refl)).
      specialize (Hx z (or_introl eq_refl)). lia.
    + specialize (IH z Hxs y Hy). specialize (Hx y Hy). lia.
Qed.

Lemma query_progress_in_scope (today : date) (baby : Baby) (tf : string)
  (table : list BabyProgress) :
  List.length (query_progress today baby tf table)
  = List.length (filter (in_scope today baby tf) table) /\
  (forall r, In r (query_progress today baby tf table)
             <-> In r table /\ in_scope today baby tf r = true) /\
  ascending (fun r => toordinal (record_date r)) (query_progress today baby tf table).
Proof.
  unfold query_progress. cbv zeta.
  assert (E : (if String.eqb tf "week"
               then filter (fun r => (toordinal today - 7 <=? toordinal (record_date r))%Z)
                           (filter (fun r => (baby_id r =? id baby)%Z) table)
               else if String.eqb tf "month"
               then filter (fun r => (toordinal today - 30 <=? toordinal (record_date r))%Z)
                           (filter (fun r => (baby_id r =? id baby)%Z) table)
               else filter (fun r => (baby_id r =? id baby)%Z) table)
              = filter (in_scope today baby tf) table).
  { unfold in_scope.
    destruct (String.eqb tf "week"); [apply filter_filter|].
    destruct (String.eqb tf "month"); [apply filter_filter|].
    apply filter_ext. intro r. now rewrite andb_true_r. }
  rewrite E. split; [apply sort_by_length|]. split.
  - intro r. rewrite sort_by_In. apply filter_In.
  - apply sort_by_ascending.
Qed.

Lemma get_baby_insights_cases (today : date) (table : list BabyProgress)
  (baby : Baby) (tf : string) :
  match query_progress today baby tf table with
  | [] => get_baby_insights today table baby tf
          = Ok (NoData "No progress data available for the selected timeframe")
  | first :: rest =>
      exists body,
        build_insights today baby tf first rest = Ok body /\
        get_baby_insights today table baby tf = Ok (WithInsights (name baby) body)
  end.
Proof.
  unfold get_baby_insights.
  destruct (query_progress today baby tf table) as [|first rest]; [reflexivity|].
  destruct (build_insights_header today baby tf first rest) as [body [-> _]].
  cbn [bind]. eauto.
Qed.

(** X22.  The endpoint answers "no data" exactly when no record of the table
    is the baby's and within the time frame; otherwise the insights count
    exactly those records and echo the time frame.  Records of other babies
    and records before the window are never counted. *)
Theorem insights_count_the_records_in_scope :
  forall (today : date) (table : list BabyProgress) (baby : Baby) (tf : string),
    let n := List.length (filter (in_scope today baby tf) table) in
    (n = 0%nat ->
     get_baby_insights today table baby tf
     = Ok (NoData "No progress data available for the selected timeframe")) /\
    ((0 < n)%nat ->
     exists body,
       get_baby_insights today table baby tf = Ok (WithInsights (name baby) body) /\
       total_records body = n /\ timeframe body = tf).
Proof.
  intros today table baby tf n.
  destruct (query_progress_in_scope today baby tf table) as [Hlen _].
  pose proof (get_baby_insights_cases today table baby tf) as Hc.
  fold n in Hlen.
  destruct (query_progress today baby tf table) as [|first rest] eqn:Eq.
  - split; [intros _; exact Hc|]. simpl in Hlen. lia.
  - split; [simpl in Hlen; lia|]. intros _.
    destruct Hc as [body [Hb Hg]]. exists body. split; [exact Hg|].
    destruct (build_insights_header today baby tf first rest)
      as [body' [Hb' [Ht [Hf _]]]].
    rewrite Hb in Hb'. injection Hb' as <-.
    split; [|exact Hf]. rewrite Ht. simpl in Hlen. lia.
Qed.

Lemma insights_count_the_records_in_scope_witness :
  exists body,
    get_baby_insights day_14
      [scored 1 day_0 None None; scored 2 day_14 None None] test_baby "week"
    = Ok (WithInsights "Baby Test" body) /\
    total_records body = 1%nat /\ timeframe body = "week".
Proof.
  apply (proj2 (insights_count_the_records_in_scope day_14
                  [scored 1 day_0 None None; scored 2 day_14 None None]
                  test_baby "week")).
  simpl. lia.
Defined.

(** X23.  In the insights the first record is the earliest and the latest
    record the latest of the records in scope, whatever the order of the
    table: every record in scope has its date between the two, so the day
    span of the rates is never negative. *)
Theorem insights_endpoints_are_earliest_and_latest :
  forall (today : date) (table : list BabyProgress) (baby : Baby) (tf : string)
         (nm : string) (body : insights),
    get_baby_insights today table baby tf = Ok (WithInsights nm body) ->
    forall r, In r table -> in_scope today baby tf r = true ->
      (toordinal (snap_date (first_record (growth body)))
       <= toordinal (record_date r)
       <= toordinal (snap_date (latest_record (growth body))))%Z.
Proof.
  intros today table baby tf nm body Hg r Hin Hscope.
  destruct (query_progress_in_scope today baby tf table) as [_ [Hmem Hasc]].
  pose proof (get_baby_insights_cases today table baby tf) as Hc.
  destruct (query_progress today baby tf table) as [|first rest] eqn:Eq.
  - rewrite Hc in Hg. discriminate Hg.
  - destruct Hc as [body' [Hb Hg']]. rewrite Hg' in Hg. injection Hg as _ <-.
    destruct (build_insights_header today baby tf first rest)
      as [body'' [Hb' [_ [_ [_ [Hfirst Hlast]]]]]].
    rewrite Hb in Hb'. injection Hb' as <-.
    rewrite Hfirst, Hlast. cbn [snapshot_of snap_date].
    apply (@ascending_last _ (fun r => toordinal (record_date r)) first rest Hasc r).
    apply Hmem. auto.
Qed.

Lemma insights_endpoints_are_earliest_and_latest_witness :
  (toordinal day_0 <= toordinal day_14 <= toordinal day_14)%Z.
Proof.
  apply (@insights_endpoints_are_earliest_and_latest day_14
           [scored 2 day_14 None None; scored 1 day_0 None None] test_baby "all"
           "Baby Test"
           {| total_records := 2; timeframe := "all"; baby_age_months := 2;
              growth := {| first_record := snapshot_of (scored 1 day_0 None None);
                           latest_record := snapshot_of (scored 2 day_14 None None);
                           average_percentile := None;
                           weight_gain_per_week := None;
                           height_gain_per_month := None;
                           head_circumference_gain_per_month := None |};
              sleep := {| average := None; trend := "stable" |};
              feeding := {| average := None; trend := "stable" |};
              development := {| average := None; trend := "not enough data" |} |}
           eq_refl (scored 2 day_14 None None)).
  - left. reflexivity.
  - reflexivity.
Defined.

Lemma filter_length_le {A : Type} (f g : A -> bool) (xs : list A) :
  (forall x, f x = true -> g x = true) ->
  (List.length (filter f xs) <= List.length (filter g xs))%nat.
Proof.
  intro H. induction xs as [|x xs IH]; [simpl; lia|]. cbn [filter].
  destruct (f x) eqn:Ef.
  - rewrite (H x Ef). simpl. lia.
  - destruct (g x); simpl; lia.
Qed.

Lemma in_scope_nested (today : date) (baby : Baby) (tf : string) (r : BabyProgress) :
  (in_scope today baby "week" r = true -> in_scope today baby "month" r = true) /\
  (in_scope today baby tf r = true -> in_scope today baby "all" r = true).
Proof.
  unfold in_scope. cbn [String.eqb Ascii.eqb Bool.eqb].
  split; intro H; apply andb_true_iff in H; destruct H as [Hb Hw];
    rewrite Hb; cbn [andb]; [|reflexivity].
  apply Z.leb_le in Hw. apply Z.leb_le. lia.
Qed.

(** X24.  The time frames are nested: a record counted for the week is counted
    for the month, and a record counted for any time frame is counted for
    'all'; so the number of records never goes down from 'week' to 'month' to
    'all'. *)
Theorem time_frames_are_nested :
  forall (today : date) (baby : Baby) (table : list BabyProgress),
    (forall r, In r (query_progress today baby "week" table) ->
               In r (query_progress today baby "month" table)) /\
    (forall tf r, In r (query_progress today baby tf table) ->
                  In r (query_progress today baby "all" table)) /\
    (List.length (query_progress today baby "week" table)
     <= List.length (query_progress today baby "month" table)
     <= List.length (query_progress today baby "all" table))%nat.
Proof.
  intros today baby table.
  destruct (query_progress_in_scope today baby "week" table) as [Lw [Mw _]].
  destruct (query_progress_in_scope today baby "month" table) as [Lm [Mm _]].
  destruct (query_progress_in_scope today baby "all" table) as [La [Ma _]].
  split; [|split].
  - intros r Hr. apply Mm. apply Mw in Hr. destruct Hr as [Hin Hs].
    split; [exact Hin|]. now apply (in_scope_nested today baby "week" r).
  - intros tf r Hr.
    destruct (query_progress_in_scope today baby tf table) as [_ [Mt _]].
    apply Ma. apply Mt in Hr. destruct Hr as [Hin Hs].
    split; [exact Hin|]. now apply (in_scope_nested today baby tf r).
  - rewrite Lw, Lm, La. split; apply filter_length_le; intro r.
    + apply (in_scope_nested today baby "week" r).
    + apply (in_scope_nested today baby "month" r).
Qed.

(** X25.  The age the insights report is not the age the record processor
    uses: it is the plain difference of years and months,
    [(today.year - birth.year) * 12 + (today.month - birth.month)], so it is
    the processor's age or one month more (before the day of the month of the
    birth), the two agreeing from that day on; unlike the processor's age it
    is not floored at 0: on 2023-12-15, for a baby whose birth date is
    2024-01-01, the insights report -1 month where the processor's age is 0. *)
Theorem insights_age_against_processor_age :
  (forall (today : date) (baby : Baby) (tf : string)
          (first : BabyProgress) (rest : list BabyProgress),
   exists body, build_insights today baby tf first rest = Ok body /\
     let age := calculate_age_in_months (date_of_birth baby) today in
     baby_age_months body
     = ((year today - year (date_of_birth baby)) * 12
        + (month today - month (date_of_birth baby)))%Z /\
     (age <= Z.max 0 (baby_age_months body) <= age + 1)%Z /\
     ((day (date_of_birth baby) <= day today)%Z ->
      age = Z.max 0 (baby_age_months body)) /\
     ((day today < day (date_of_birth baby))%Z -> (1 <= baby_age_months body)%Z ->
      baby_age_months body = (age + 1)%Z)) /\
  (exists body,
     get_baby_insights (mkDate 2023 12 15) [scored 1 day_0 None None] test_baby "all"
       = Ok (WithInsights "Baby Test" body) /\
     baby_age_months body = (-1)%Z /\
     calculate_age_in_months (date_of_birth test_baby) (mkDate 2023 12 15) = 0%Z).
Proof.
  split.
  - intros today baby tf first rest.
    destruct (build_insights_header today baby tf first rest)
      as [body [Hb [_ [_ [Hage _]]]]].
    exists body. split; [exact Hb|]. cbv zeta. split; [exact Hage|].
    rewrite Hage, calculate_age_in_months_spec.
    destruct (Z.ltb_spec (day today) (day (date_of_birth baby))); repeat split; lia.
  - eexists. split; [vm_compute; reflexivity|]. split; reflexivity.
Qed.

Lemma insights_age_against_processor_age_witness :
  exists body,
    build_insights (mkDate 2023 12 15) test_baby "all"
      (scored 1 day_0 None None) [] = Ok body /\
    baby_age_months body = (-1)%Z /\
    Z.max 0 (baby_age_months body)
    = calculate_age_in_months (date_of_birth test_baby) (mkDate 2023 12 15).
Proof.
  destruct (proj1 insights_age_against_processor_age (mkDate 2023 12 15) test_baby
              "all" (scored 1 day_0 None None) [])
    as [body [Hb [Hage [_ [Heq _]]]]].
  exists body. split; [exact Hb|]. split; [exact Hage|].
  symmetry. apply Heq. vm_compute. discriminate.
Defined.

Lemma trend_of_same (v : option Q) : trend_of v v = "stable".
Proof.
  unfold trend_of. destruct v as [q|]; [|reflexivity].
  destruct (truthy_float (Some q)); [|reflexivity]. cbn [andb opt_gt opt_lt].
  assert (E : Qltb q q = false) by (apply Qltb_false; lra).
  now rewrite E.
Qed.

Lemma development_trend_of_same (v : option Q) :
  development_trend_of v v
  = if truthy_float v then "stable" else "not enough data".
Proof.
  unfold development_trend_of. destruct v as [q|]; [|reflexivity].
  destruct (truthy_float (Some q)); [|reflexivity]. cbn [andb opt_gt opt_eq].
  assert (E : Qltb q q = false) by (apply Qltb_false; lra).
  assert (E' : Qeqb q q = true) by (apply Qeqb_true; lra).
  now rewrite E, E'.
Qed.

(** X26.  Over a single record the first and the latest record are the same:
    the sleep and feeding trends are 'stable', the developmental trend is
    'stable' when the record has a non-zero developmental score and
    'not enough data' otherwise, and no growth rate is reported. *)
Theorem insights_of_a_single_record :
  forall (today : date) (baby : Baby) (tf : string) (r : BabyProgress),
  exists body, build_insights today baby tf r [] = Ok body /\
    total_records body = 1%nat /\
    latest_record (growth body) = first_record (growth body) /\
    trend (sleep body) = "stable" /\
    trend (feeding body) = "stable" /\
    trend (development body)
      = (if truthy_float (developmental_score r)
         then "stable" else "not enough data") /\
    weight_gain_per_week (growth body) = None /\
    height_gain_per_month (growth body) = None /\
    head_circumference_gain_per_month (growth body) = None.
Proof.
  intros today baby tf r.
  destruct (build_insights_returns today baby tf r [])
    as [body [Hb [Hs [Hf [Hd [_ [_ [_ [_ [Hw [Hh Hc]]]]]]]]]]].
  destruct (build_insights_header today baby tf r [])
    as [body' [Hb' [Ht [_ [_ [Hfirst Hlast]]]]]].
  rewrite Hb in Hb'. injection Hb' as <-.
  exists body. split; [exact Hb|].
  cbn [last] in *.
  rewrite trend_of_same in Hs, Hf. rewrite development_trend_of_same in Hd.
  unfold rates_computed in Hw, Hh, Hc. cbn [List.length Z.of_nat Z.leb andb] in *.
  change (2 <=? 1)%Z with false in *. cbn [andb] in *.
  injection Hw as <-. injection Hh as <-. injection Hc as <-.
  rewrite Hfirst, Hlast. repeat split; assumption.
Qed.

End AggregatorBehaviour.
